(** * The Jupyter kernel supervisor of the Positron jupyter-adapter

    A shallow embedding of [extensions/jupyter-adapter/src/JupyterKernel.ts]:
    the [JupyterKernel] class, its status state machine, the heartbeat
    monitor, request/reply correlation and the reconnection logic.

    The class is event driven.  Every method body and every callback runs to
    completion on one event loop, so the embedding is a state-passing one: a
    record [Sys] holds the fields of the kernel object together with the part
    of the host the object talks to (workspace storage, terminals, files,
    timers, the output channel), each method is a function on [Sys], and each
    suspension point of the source ([await], [setTimeout], an event
    subscription) is a piece of data in [Sys] that a later [Event] resumes. *)

From stdpp Require Import gmap strings list pretty.

#[local] Set Primitive Projections.
#[local] Open Scope string_scope.
#[local] Open Scope list_scope.

(** ** Enumerations of the Positron API ([extHostTypes.positron.ts]) *)

Inductive RuntimeState :=
| Uninitialized | Initializing | Starting | Ready | Idle | Busy
| Exiting | Exited | Offline | Interrupting.

Inductive RuntimeCodeExecutionMode := Interactive | Transient | Silent.

Inductive RuntimeErrorBehavior := Stop | Continue.

#[global] Instance RuntimeState_eq_dec : EqDecision RuntimeState.
Proof. solve_decision. Defined.
#[global] Instance RuntimeCodeExecutionMode_eq_dec : EqDecision RuntimeCodeExecutionMode.
Proof. solve_decision. Defined.
#[global] Instance RuntimeErrorBehavior_eq_dec : EqDecision RuntimeErrorBehavior.
Proof. solve_decision. Defined.

(** The string value of each enumerator, as interpolated into messages. *)
Definition RuntimeState_value (s : RuntimeState) : string :=
  match s with
  | Uninitialized => "uninitialized" | Initializing => "initializing"
  | Starting => "starting" | Ready => "ready" | Idle => "idle" | Busy => "busy"
  | Exiting => "exiting" | Exited => "exited" | Offline => "offline"
  | Interrupting => "interrupting"
  end.

(** ** Protocol data *)

(** Modelled from the spec: the channel tags of [JupyterSockets.ts], which is
    not among the sources; the five channel kinds named by the spec. *)
Module JupyterSockets.
Inductive t := control | shell | stdin | iopub | heartbeat.
#[global] Instance eq_dec : EqDecision t.
Proof. solve_decision. Defined.
End JupyterSockets.

(** A timestamp string: either produced here by [new Date().toISOString()] at
    a clock reading, or received from the wire. *)
Inductive DateString :=
| toISOString (epoch_ms : Z)
| wire_date (text : string).

Record JupyterMessageHeader := mkHeader {
  msg_id : string;
  msg_type : string;
  version : string;
  date : DateString;
  session : string;
  username : string }.

(** The run-time value found in a [parent_header] slot.  The declared type is
    [JupyterMessageHeader], but [send] stores the empty object there
    ([{} as JupyterMessageHeader], "{} if no parent"), and [emitMessage] tests
    the slot for truthiness, so the three cases are kept apart. *)
Inductive ParentHeader :=
| parent_missing                         (* undefined or null: falsy *)
| parent_empty                           (* the empty object: truthy *)
| parent_of (h : JupyterMessageHeader).  (* a header object: truthy *)

(** A JavaScript value of declared type [string] that may be [undefined]. *)
Inductive JsString := js_undefined | js_string (s : string).

Inductive CommData :=
| client_address (a : string)
| opaque_data (json : string).

Record JupyterExecuteRequest := mkExecuteRequest {
  code : string;
  allow_stdin : bool;
  silent : bool;
  store_history : bool;
  user_expressions : list (string * string);
  stop_on_error : bool }.

(** [JupyterMessageSpec]: the payloads this class builds, and [inbound] for a
    decoded payload received from the kernel. *)
Inductive JupyterMessageSpec :=
| execute_request (r : JupyterExecuteRequest)
| input_reply (value : string)
| shutdown_request (restart : bool)
| interrupt_request
| comm_open (target_name comm_id : string) (data : CommData)
| comm_close (comm_id : string)
| comm_msg (comm_id : string) (data : CommData)
| inbound (json : string).

Record JupyterMessage := mkMessage {
  buffers : list string;
  content : JupyterMessageSpec;
  header : JupyterMessageHeader;
  metadata : list (string * string);
  parent_header : ParentHeader }.

Record JupyterMessagePacket := mkPacket {
  type : string;
  message : JupyterMessageSpec;
  msgId : string;
  msgType : string;
  when : DateString;
  originId : JsString;
  socket : JupyterSockets.t }.

Record JupyterKernelSpec := mkKernelSpec {
  display_name : string;
  language : string;
  argv : list string;
  env : option (list (string * string)) }.

(** Modelled from the spec: the Session Descriptor of [JupyterSession.ts],
    which is not among the sources: session id, signing key, the ports, the
    two file paths and the optional process id. *)
Record JupyterSessionState := mkSessionState {
  sessionId : string;
  key : string;
  portsInUse : list N;
  connectionFile : string;
  logFile : string;
  processId : option N }.

Record JupyterSession := mkSession { state : JupyterSessionState }.

Definition with_processId (pid : option N) (st : JupyterSessionState) : JupyterSessionState :=
  mkSessionState (sessionId st) (key st) (portsInUse st) (connectionFile st) (logFile st) pid.

Record JupyterConnectionSpec := mkConnectionSpec {
  control_port : N;
  shell_port : N;
  stdin_port : N;
  iopub_port : N;
  hb_port : N }.

(** ** Host objects *)

(** What travels over a socket: the heartbeat payload [['hello']] or the
    frames [serializeJupyterMessage(msg, key)]. *)
Inductive Frames :=
| hello
| serializeJupyterMessage (msg : JupyterMessage) (signing_key : string).

(** The ['message'] listeners this class installs on its sockets. *)
Inductive SocketListener :=
| InitialHeartbeat      (* the [once] listener of connectToTerminal *)
| OnHeartbeat           (* msg => this.onHeartbeat(msg) *)
| OnIopubMessage
| OnShellMessage
| OnStdinMessage.

#[global] Instance SocketListener_eq_dec : EqDecision SocketListener.
Proof. solve_decision. Defined.

(** Modelled from the spec: the Socket Wrapper of [JupyterSocket.ts], which is
    not among the sources: one endpoint of a fixed kind with an identity, the
    port it was connected to, what was sent through it, and its listeners. *)
Record JupyterSocket := mkSocket {
  title : string;
  zmq_type : string;
  zmq_identity : option string;
  port : option N;
  subscribed : bool;
  sent : list Frames;
  listeners : list SocketListener }.

Definition new_JupyterSocket (title zmq_type : string) : JupyterSocket :=
  mkSocket title zmq_type None None false [] [].

Definition setZmqIdentity (id : string) (k : JupyterSocket) : JupyterSocket :=
  mkSocket (title k) (zmq_type k) (Some id) (port k) (subscribed k) (sent k) (listeners k).

Definition socket_connect (p : N) (k : JupyterSocket) : JupyterSocket :=
  mkSocket (title k) (zmq_type k) (zmq_identity k) (Some p) (subscribed k) (sent k) (listeners k).

Definition socket_send (f : Frames) (k : JupyterSocket) : JupyterSocket :=
  mkSocket (title k) (zmq_type k) (zmq_identity k) (port k) (subscribed k) (sent k ++ [f]) (listeners k).

Definition socket_subscribe (k : JupyterSocket) : JupyterSocket :=
  mkSocket (title k) (zmq_type k) (zmq_identity k) (port k) true (sent k) (listeners k).

Definition socket_on (l : SocketListener) (k : JupyterSocket) : JupyterSocket :=
  mkSocket (title k) (zmq_type k) (zmq_identity k) (port k) (subscribed k) (sent k) (listeners k ++ [l]).

Definition socket_off (l : SocketListener) (k : JupyterSocket) : JupyterSocket :=
  mkSocket (title k) (zmq_type k) (zmq_identity k) (port k) (subscribed k) (sent k)
           (filter (λ x, x ≠ l) (listeners k)).

(** A terminal of [vscode.window]: [exitStatus] is [undefined] while the
    terminal runs, afterwards an object whose [code] may be [undefined]. *)
Record Terminal := mkTerminal {
  name : string;
  terminal_processId : option N;
  exitStatus : option (option Z);
  terminal_open : bool;        (* listed in [vscode.window.terminals] *)
  terminal_disposed : bool }.  (* [dispose] was called on it *)

Definition terminal_dispose (t : Terminal) : Terminal :=
  mkTerminal (name t) (terminal_processId t) (exitStatus t) (terminal_open t) true.

Definition terminal_close (st : option (option Z)) (t : Terminal) : Terminal :=
  mkTerminal (name t) (terminal_processId t) st false (terminal_disposed t).

Record TerminalOptions := mkTerminalOptions {
  opt_name : string;
  shellPath : option string;
  shellArgs : list string;
  opt_message : string;
  hideFromUser : bool;
  isTransient : bool }.

Inductive File :=
| connection_json (c : JupyterConnectionSpec)
| text_file (contents : string).

Record Tail := mkTail { tail_path : string; watching : bool }.

(** [ChildProcess]: only its one-shot ['exit'] listeners matter here. *)
Record ChildProcess := mkChildProcess { once_exit : nat }.

(** ** Errors, log lines and suspended work *)

Inductive JsError :=
| Error_kernel_already (status : RuntimeState)  (* new Error(`Kernel already '${status}'`) *)
| TypeError_null (expr : string)                (* a member read on null or undefined *)
| Error_connection_file (path : string)         (* readFileSync or JSON.parse failed *)
| Error_connect (reason : string).              (* a socket could not connect *)

Definition Error_message (e : JsError) : string :=
  match e with
  | Error_kernel_already status => "Kernel already '" +:+ RuntimeState_value status +:+ "'"
  | TypeError_null expr => "Cannot read properties of null: " +:+ expr
  | Error_connection_file path => "Cannot read " +:+ path
  | Error_connect reason => reason
  end.

(** How a statement sequence ends. *)
Inductive Completion := Normal | Throw (e : JsError).

Inductive Settled := fulfilled | rejected (e : JsError).

(** The lines written with [this._channel.appendLine], one constructor per
    template string of the source, carrying the interpolated values. *)
Inductive LogLine :=
| log_found_record (pid : option N) (n_terminals : nat)
| log_no_terminal_found (runtimeId : string) (st : JupyterSessionState)
| log_connecting_terminal (language terminal_name : string) (pid : option N)
| log_connecting_kernel (pid : option N)
| log_streaming (path : string)
| log_initial_heartbeat (msg : string)
| log_starting_heartbeat (seconds : Z)
| log_deferring
| log_performing_deferred_start
| log_skipping_deferred_start (status : RuntimeState)
| log_already_ignoring (status : RuntimeState)
| log_starting_kernel (command : string)
| log_environment
| log_writing_session_state (runtimeId : string) (st : JupyterSessionState)
| log_failed_to_start (exit_code : Z)
| log_exited_with_code (exit_code : Z)
| log_waiting_to_restart
| log_starting_lsp (client : string)
| log_kernel_ready_lsp (lsp_port : N)
| log_send (msg_type dest_title : string) (msg : JupyterMessage)
| log_recv (msg_type : string) (from : JupyterSockets.t) (msg : JupyterMessage)
| log_sending_input_reply (id value : string)
| log_warn_no_parent (id value : string)
| log_no_socket (which : JupyterSockets.t)
| log_send_heartbeat
| log_heartbeat_received (diff : Z) (msg : string).

(** The listeners of the kernel's own ['status'] event. *)
Inductive StatusListener :=
| OnStatusChange                 (* registered by the constructor *)
| DeferredStart (promise : nat). (* [callback] of a start() deferred while initializing *)

#[global] Instance StatusListener_eq_dec : EqDecision StatusListener.
Proof. solve_decision. Defined.

(** What a [setTimeout] callback of this class does when it fires. *)
Inductive TimerAction :=
| run_deferred_start (promise : nat)   (* resolve(this.start()) *)
| run_reconnect (terminal : nat) (st : JupyterSessionState)
| run_heartbeat_timeout                (* this.setStatus(Offline) *)
| run_next_heartbeat.                  (* this.heartbeat() *)

Record Timer := mkTimer { timer_id : nat; delay : Z; action : TimerAction }.

(** The [onDidOpenTerminal] listener of start(), with the session and the
    promise it closes over. *)
Record OpenListener := mkOpenListener {
  open_id : nat; open_promise : nat; open_session : JupyterSession }.

(** The [onDidCloseTerminal] listener of connectToTerminal, with the terminal
    it closes over. *)
Record CloseListener := mkCloseListener { close_id : nat; close_terminal : nat }.

(** A connectToTerminal call suspended at [await this.connect(...)], and the
    start() promise, if any, that its completion settles. *)
Record PendingConnect := mkPendingConnect { connect_id : nat; connect_promise : option nat }.

(** The terminal scan of reconnect, waiting for the process ids. *)
Record Scan := mkScan { scan_state : JupyterSessionState; scan_terminals : list nat }.

(** ** The state *)

(** The fields of the [JupyterKernel] object.  [_lsp] records whether the
    optional callback was supplied. *)
Record JupyterKernel := mkKernel {
  _spec : JupyterKernelSpec;
  _runtimeId : string;
  _lsp : bool;
  _process : option ChildProcess;
  _logTail : option Tail;
  _status : RuntimeState;
  _control : option JupyterSocket;
  _shell : option JupyterSocket;
  _stdin : option JupyterSocket;
  _iopub : option JupyterSocket;
  _heartbeat : option JupyterSocket;
  _inputRequests : gmap string JupyterMessageHeader;
  _heartbeatTimer : option nat;
  _nextHeartbeat : option nat;
  _lastHeartbeat : Z;
  _session : option JupyterSession;
  _terminal : option nat;
  _lspCommId : option string;
  status_listeners : list StatusListener }.

(** The host: workspace storage, [vscode.window.terminals], the file system,
    the output channel, the terminals asked for with [createTerminal], the
    [positron.heartbeat] setting, the clock, and the pending timers. *)
Record Host := mkHost {
  workspaceState : gmap string JupyterSessionState;
  terminals : list Terminal;
  files : gmap string File;
  channel : list LogLine;
  created_terminals : list TerminalOptions;
  heartbeat_config : option Z;
  os_username : string;
  now : Z;
  timers : list Timer;
  fresh : nat }.

(** The suspended work of the event loop and what the object has shown to
    the outside: settled start() promises, ['message'] and ['status'] events,
    rejections nobody handles, exceptions raised to a caller, calls of the
    [_lsp] callback, and the sockets whose [dispose] was called. *)
Record Loop := mkLoop {
  awaiting_session : list nat;
  open_listeners : list OpenListener;
  close_listeners : list CloseListener;
  awaiting_connect : list PendingConnect;
  awaiting_port : nat;
  scanning : option Scan;
  promises : gmap nat Settled;
  emitted : list JupyterMessagePacket;
  status_events : list RuntimeState;
  unhandled : list JsError;
  raised : list JsError;
  lsp_calls : list N;
  disposed_sockets : list JupyterSocket }.

Record Sys := mkSys { this : JupyterKernel; host : Host; loop : Loop }.

(** Field updates. *)
Definition set_process (v : option ChildProcess) (s : Sys) : Sys :=
  mkSys (mkKernel (_spec (this s)) (_runtimeId (this s)) (_lsp (this s)) v (_logTail (this s)) (_status (this s)) (_control (this s)) (_shell (this s)) (_stdin (this s)) (_iopub (this s)) (_heartbeat (this s)) (_inputRequests (this s)) (_heartbeatTimer (this s)) (_nextHeartbeat (this s)) (_lastHeartbeat (this s)) (_session (this s)) (_terminal (this s)) (_lspCommId (this s)) (status_listeners (this s))) (host s) (loop s).
Definition set_logTail (v : option Tail) (s : Sys) : Sys :=
  mkSys (mkKernel (_spec (this s)) (_runtimeId (this s)) (_lsp (this s)) (_process (this s)) v (_status (this s)) (_control (this s)) (_shell (this s)) (_stdin (this s)) (_iopub (this s)) (_heartbeat (this s)) (_inputRequests (this s)) (_heartbeatTimer (this s)) (_nextHeartbeat (this s)) (_lastHeartbeat (this s)) (_session (this s)) (_terminal (this s)) (_lspCommId (this s)) (status_listeners (this s))) (host s) (loop s).
Definition set_status (v : RuntimeState) (s : Sys) : Sys :=
  mkSys (mkKernel (_spec (this s)) (_runtimeId (this s)) (_lsp (this s)) (_process (this s)) (_logTail (this s)) v (_control (this s)) (_shell (this s)) (_stdin (this s)) (_iopub (this s)) (_heartbeat (this s)) (_inputRequests (this s)) (_heartbeatTimer (this s)) (_nextHeartbeat (this s)) (_lastHeartbeat (this s)) (_session (this s)) (_terminal (this s)) (_lspCommId (this s)) (status_listeners (this s))) (host s) (loop s).
Definition set_control (v : option JupyterSocket) (s : Sys) : Sys :=
  mkSys (mkKernel (_spec (this s)) (_runtimeId (this s)) (_lsp (this s)) (_process (this s)) (_logTail (this s)) (_status (this s)) v (_shell (this s)) (_stdin (this s)) (_iopub (this s)) (_heartbeat (this s)) (_inputRequests (this s)) (_heartbeatTimer (this s)) (_nextHeartbeat (this s)) (_lastHeartbeat (this s)) (_session (this s)) (_terminal (this s)) (_lspCommId (this s)) (status_listeners (this s))) (host s) (loop s).
Definition set_shell (v : option JupyterSocket) (s : Sys) : Sys :=
  mkSys (mkKernel (_spec (this s)) (_runtimeId (this s)) (_lsp (this s)) (_process (this s)) (_logTail (this s)) (_status (this s)) (_control (this s)) v (_stdin (this s)) (_iopub (this s)) (_heartbeat (this s)) (_inputRequests (this s)) (_heartbeatTimer (this s)) (_nextHeartbeat (this s)) (_lastHeartbeat (this s)) (_session (this s)) (_terminal (this s)) (_lspCommId (this s)) (status_listeners (this s))) (host s) (loop s).
Definition set_stdin (v : option JupyterSocket) (s : Sys) : Sys :=
  mkSys (mkKernel (_spec (this s)) (_runtimeId (this s)) (_lsp (this s)) (_process (this s)) (_logTail (this s)) (_status (this s)) (_control (this s)) (_shell (this s)) v (_iopub (this s)) (_heartbeat (this s)) (_inputRequests (this s)) (_heartbeatTimer (this s)) (_nextHeartbeat (this s)) (_lastHeartbeat (this s)) (_session (this s)) (_terminal (this s)) (_lspCommId (this s)) (status_listeners (this s))) (host s) (loop s).
Definition set_iopub (v : option JupyterSocket) (s : Sys) : Sys :=
  mkSys (mkKernel (_spec (this s)) (_runtimeId (this s)) (_lsp (this s)) (_process (this s)) (_logTail (this s)) (_status (this s)) (_control (this s)) (_shell (this s)) (_stdin (this s)) v (_heartbeat (this s)) (_inputRequests (this s)) (_heartbeatTimer (this s)) (_nextHeartbeat (this s)) (_lastHeartbeat (this s)) (_session (this s)) (_terminal (this s)) (_lspCommId (this s)) (status_listeners (this s))) (host s) (loop s).
Definition set_heartbeat (v : option JupyterSocket) (s : Sys) : Sys :=
  mkSys (mkKernel (_spec (this s)) (_runtimeId (this s)) (_lsp (this s)) (_process (this s)) (_logTail (this s)) (_status (this s)) (_control (this s)) (_shell (this s)) (_stdin (this s)) (_iopub (this s)) v (_inputRequests (this s)) (_heartbeatTimer (this s)) (_nextHeartbeat (this s)) (_lastHeartbeat (this s)) (_session (this s)) (_terminal (this s)) (_lspCommId (this s)) (status_listeners (this s))) (host s) (loop s).
Definition set_inputRequests (v : gmap string JupyterMessageHeader) (s : Sys) : Sys :=
  mkSys (mkKernel (_spec (this s)) (_runtimeId (this s)) (_lsp (this s)) (_process (this s)) (_logTail (this s)) (_status (this s)) (_control (this s)) (_shell (this s)) (_stdin (this s)) (_iopub (this s)) (_heartbeat (this s)) v (_heartbeatTimer (this s)) (_nextHeartbeat (this s)) (_lastHeartbeat (this s)) (_session (this s)) (_terminal (this s)) (_lspCommId (this s)) (status_listeners (this s))) (host s) (loop s).
Definition set_heartbeatTimer (v : option nat) (s : Sys) : Sys :=
  mkSys (mkKernel (_spec (this s)) (_runtimeId (this s)) (_lsp (this s)) (_process (this s)) (_logTail (this s)) (_status (this s)) (_control (this s)) (_shell (this s)) (_stdin (this s)) (_iopub (this s)) (_heartbeat (this s)) (_inputRequests (this s)) v (_nextHeartbeat (this s)) (_lastHeartbeat (this s)) (_session (this s)) (_terminal (this s)) (_lspCommId (this s)) (status_listeners (this s))) (host s) (loop s).
Definition set_nextHeartbeat (v : option nat) (s : Sys) : Sys :=
  mkSys (mkKernel (_spec (this s)) (_runtimeId (this s)) (_lsp (this s)) (_process (this s)) (_logTail (this s)) (_status (this s)) (_control (this s)) (_shell (this s)) (_stdin (this s)) (_iopub (this s)) (_heartbeat (this s)) (_inputRequests (this s)) (_heartbeatTimer (this s)) v (_lastHeartbeat (this s)) (_session (this s)) (_terminal (this s)) (_lspCommId (this s)) (status_listeners (this s))) (host s) (loop s).
Definition set_lastHeartbeat (v : Z) (s : Sys) : Sys :=
  mkSys (mkKernel (_spec (this s)) (_runtimeId (this s)) (_lsp (this s)) (_process (this s)) (_logTail (this s)) (_status (this s)) (_control (this s)) (_shell (this s)) (_stdin (this s)) (_iopub (this s)) (_heartbeat (this s)) (_inputRequests (this s)) (_heartbeatTimer (this s)) (_nextHeartbeat (this s)) v (_session (this s)) (_terminal (this s)) (_lspCommId (this s)) (status_listeners (this s))) (host s) (loop s).
Definition set_session (v : option JupyterSession) (s : Sys) : Sys :=
  mkSys (mkKernel (_spec (this s)) (_runtimeId (this s)) (_lsp (this s)) (_process (this s)) (_logTail (this s)) (_status (this s)) (_control (this s)) (_shell (this s)) (_stdin (this s)) (_iopub (this s)) (_heartbeat (this s)) (_inputRequests (this s)) (_heartbeatTimer (this s)) (_nextHeartbeat (this s)) (_lastHeartbeat (this s)) v (_terminal (this s)) (_lspCommId (this s)) (status_listeners (this s))) (host s) (loop s).
Definition set_terminal (v : option nat) (s : Sys) : Sys :=
  mkSys (mkKernel (_spec (this s)) (_runtimeId (this s)) (_lsp (this s)) (_process (this s)) (_logTail (this s)) (_status (this s)) (_control (this s)) (_shell (this s)) (_stdin (this s)) (_iopub (this s)) (_heartbeat (this s)) (_inputRequests (this s)) (_heartbeatTimer (this s)) (_nextHeartbeat (this s)) (_lastHeartbeat (this s)) (_session (this s)) v (_lspCommId (this s)) (status_listeners (this s))) (host s) (loop s).
Definition set_lspCommId (v : option string) (s : Sys) : Sys :=
  mkSys (mkKernel (_spec (this s)) (_runtimeId (this s)) (_lsp (this s)) (_process (this s)) (_logTail (this s)) (_status (this s)) (_control (this s)) (_shell (this s)) (_stdin (this s)) (_iopub (this s)) (_heartbeat (this s)) (_inputRequests (this s)) (_heartbeatTimer (this s)) (_nextHeartbeat (this s)) (_lastHeartbeat (this s)) (_session (this s)) (_terminal (this s)) v (status_listeners (this s))) (host s) (loop s).
Definition set_status_listeners (v : list StatusListener) (s : Sys) : Sys :=
  mkSys (mkKernel (_spec (this s)) (_runtimeId (this s)) (_lsp (this s)) (_process (this s)) (_logTail (this s)) (_status (this s)) (_control (this s)) (_shell (this s)) (_stdin (this s)) (_iopub (this s)) (_heartbeat (this s)) (_inputRequests (this s)) (_heartbeatTimer (this s)) (_nextHeartbeat (this s)) (_lastHeartbeat (this s)) (_session (this s)) (_terminal (this s)) (_lspCommId (this s)) v) (host s) (loop s).

Definition set_workspaceState (v : gmap string JupyterSessionState) (s : Sys) : Sys :=
  mkSys (this s) (mkHost v (terminals (host s)) (files (host s)) (channel (host s)) (created_terminals (host s)) (heartbeat_config (host s)) (os_username (host s)) (now (host s)) (timers (host s)) (fresh (host s))) (loop s).
Definition set_terminals (v : list Terminal) (s : Sys) : Sys :=
  mkSys (this s) (mkHost (workspaceState (host s)) v (files (host s)) (channel (host s)) (created_terminals (host s)) (heartbeat_config (host s)) (os_username (host s)) (now (host s)) (timers (host s)) (fresh (host s))) (loop s).
Definition set_files (v : gmap string File) (s : Sys) : Sys :=
  mkSys (this s) (mkHost (workspaceState (host s)) (terminals (host s)) v (channel (host s)) (created_terminals (host s)) (heartbeat_config (host s)) (os_username (host s)) (now (host s)) (timers (host s)) (fresh (host s))) (loop s).
Definition set_channel (v : list LogLine) (s : Sys) : Sys :=
  mkSys (this s) (mkHost (workspaceState (host s)) (terminals (host s)) (files (host s)) v (created_terminals (host s)) (heartbeat_config (host s)) (os_username (host s)) (now (host s)) (timers (host s)) (fresh (host s))) (loop s).
Definition set_created_terminals (v : list TerminalOptions) (s : Sys) : Sys :=
  mkSys (this s) (mkHost (workspaceState (host s)) (terminals (host s)) (files (host s)) (channel (host s)) v (heartbeat_config (host s)) (os_username (host s)) (now (host s)) (timers (host s)) (fresh (host s))) (loop s).
Definition set_now (v : Z) (s : Sys) : Sys :=
  mkSys (this s) (mkHost (workspaceState (host s)) (terminals (host s)) (files (host s)) (channel (host s)) (created_terminals (host s)) (heartbeat_config (host s)) (os_username (host s)) v (timers (host s)) (fresh (host s))) (loop s).
Definition set_timers (v : list Timer) (s : Sys) : Sys :=
  mkSys (this s) (mkHost (workspaceState (host s)) (terminals (host s)) (files (host s)) (channel (host s)) (created_terminals (host s)) (heartbeat_config (host s)) (os_username (host s)) (now (host s)) v (fresh (host s))) (loop s).
Definition set_fresh (v : nat) (s : Sys) : Sys :=
  mkSys (this s) (mkHost (workspaceState (host s)) (terminals (host s)) (files (host s)) (channel (host s)) (created_terminals (host s)) (heartbeat_config (host s)) (os_username (host s)) (now (host s)) (timers (host s)) v) (loop s).

Definition set_awaiting_session (v : list nat) (s : Sys) : Sys :=
  mkSys (this s) (host s) (mkLoop v (open_listeners (loop s)) (close_listeners (loop s)) (awaiting_connect (loop s)) (awaiting_port (loop s)) (scanning (loop s)) (promises (loop s)) (emitted (loop s)) (status_events (loop s)) (unhandled (loop s)) (raised (loop s)) (lsp_calls (loop s)) (disposed_sockets (loop s))).
Definition set_open_listeners (v : list OpenListener) (s : Sys) : Sys :=
  mkSys (this s) (host s) (mkLoop (awaiting_session (loop s)) v (close_listeners (loop s)) (awaiting_connect (loop s)) (awaiting_port (loop s)) (scanning (loop s)) (promises (loop s)) (emitted (loop s)) (status_events (loop s)) (unhandled (loop s)) (raised (loop s)) (lsp_calls (loop s)) (disposed_sockets (loop s))).
Definition set_close_listeners (v : list CloseListener) (s : Sys) : Sys :=
  mkSys (this s) (host s) (mkLoop (awaiting_session (loop s)) (open_listeners (loop s)) v (awaiting_connect (loop s)) (awaiting_port (loop s)) (scanning (loop s)) (promises (loop s)) (emitted (loop s)) (status_events (loop s)) (unhandled (loop s)) (raised (loop s)) (lsp_calls (loop s)) (disposed_sockets (loop s))).
Definition set_awaiting_connect (v : list PendingConnect) (s : Sys) : Sys :=
  mkSys (this s) (host s) (mkLoop (awaiting_session (loop s)) (open_listeners (loop s)) (close_listeners (loop s)) v (awaiting_port (loop s)) (scanning (loop s)) (promises (loop s)) (emitted (loop s)) (status_events (loop s)) (unhandled (loop s)) (raised (loop s)) (lsp_calls (loop s)) (disposed_sockets (loop s))).
Definition set_awaiting_port (v : nat) (s : Sys) : Sys :=
  mkSys (this s) (host s) (mkLoop (awaiting_session (loop s)) (open_listeners (loop s)) (close_listeners (loop s)) (awaiting_connect (loop s)) v (scanning (loop s)) (promises (loop s)) (emitted (loop s)) (status_events (loop s)) (unhandled (loop s)) (raised (loop s)) (lsp_calls (loop s)) (disposed_sockets (loop s))).
Definition set_scanning (v : option Scan) (s : Sys) : Sys :=
  mkSys (this s) (host s) (mkLoop (awaiting_session (loop s)) (open_listeners (loop s)) (close_listeners (loop s)) (awaiting_connect (loop s)) (awaiting_port (loop s)) v (promises (loop s)) (emitted (loop s)) (status_events (loop s)) (unhandled (loop s)) (raised (loop s)) (lsp_calls (loop s)) (disposed_sockets (loop s))).
Definition set_promises (v : gmap nat Settled) (s : Sys) : Sys :=
  mkSys (this s) (host s) (mkLoop (awaiting_session (loop s)) (open_listeners (loop s)) (close_listeners (loop s)) (awaiting_connect (loop s)) (awaiting_port (loop s)) (scanning (loop s)) v (emitted (loop s)) (status_events (loop s)) (unhandled (loop s)) (raised (loop s)) (lsp_calls (loop s)) (disposed_sockets (loop s))).
Definition set_emitted (v : list JupyterMessagePacket) (s : Sys) : Sys :=
  mkSys (this s) (host s) (mkLoop (awaiting_session (loop s)) (open_listeners (loop s)) (close_listeners (loop s)) (awaiting_connect (loop s)) (awaiting_port (loop s)) (scanning (loop s)) (promises (loop s)) v (status_events (loop s)) (unhandled (loop s)) (raised (loop s)) (lsp_calls (loop s)) (disposed_sockets (loop s))).
Definition set_status_events (v : list RuntimeState) (s : Sys) : Sys :=
  mkSys (this s) (host s) (mkLoop (awaiting_session (loop s)) (open_listeners (loop s)) (close_listeners (loop s)) (awaiting_connect (loop s)) (awaiting_port (loop s)) (scanning (loop s)) (promises (loop s)) (emitted (loop s)) v (unhandled (loop s)) (raised (loop s)) (lsp_calls (loop s)) (disposed_sockets (loop s))).
Definition set_unhandled (v : list JsError) (s : Sys) : Sys :=
  mkSys (this s) (host s) (mkLoop (awaiting_session (loop s)) (open_listeners (loop s)) (close_listeners (loop s)) (awaiting_connect (loop s)) (awaiting_port (loop s)) (scanning (loop s)) (promises (loop s)) (emitted (loop s)) (status_events (loop s)) v (raised (loop s)) (lsp_calls (loop s)) (disposed_sockets (loop s))).
Definition set_raised (v : list JsError) (s : Sys) : Sys :=
  mkSys (this s) (host s) (mkLoop (awaiting_session (loop s)) (open_listeners (loop s)) (close_listeners (loop s)) (awaiting_connect (loop s)) (awaiting_port (loop s)) (scanning (loop s)) (promises (loop s)) (emitted (loop s)) (status_events (loop s)) (unhandled (loop s)) v (lsp_calls (loop s)) (disposed_sockets (loop s))).
Definition set_lsp_calls (v : list N) (s : Sys) : Sys :=
  mkSys (this s) (host s) (mkLoop (awaiting_session (loop s)) (open_listeners (loop s)) (close_listeners (loop s)) (awaiting_connect (loop s)) (awaiting_port (loop s)) (scanning (loop s)) (promises (loop s)) (emitted (loop s)) (status_events (loop s)) (unhandled (loop s)) (raised (loop s)) v (disposed_sockets (loop s))).
Definition set_disposed_sockets (v : list JupyterSocket) (s : Sys) : Sys :=
  mkSys (this s) (host s) (mkLoop (awaiting_session (loop s)) (open_listeners (loop s)) (close_listeners (loop s)) (awaiting_connect (loop s)) (awaiting_port (loop s)) (scanning (loop s)) (promises (loop s)) (emitted (loop s)) (status_events (loop s)) (unhandled (loop s)) (raised (loop s)) (lsp_calls (loop s)) v).

(** ** Host primitives *)

Definition appendLine (l : LogLine) (s : Sys) : Sys :=
  set_channel (channel (host s) ++ [l]) s.

(** [setTimeout(callback, delay)]: returns the handle of the new timer. *)
Definition setTimeout (a : TimerAction) (ms : Z) (s : Sys) : nat * Sys :=
  let id := fresh (host s) in
  (id, set_fresh (S id) (set_timers (timers (host s) ++ [mkTimer id ms a]) s)).

(** [clearTimeout(handle)]: a handle that already fired is ignored. *)
Definition clearTimeout (id : nat) (s : Sys) : Sys :=
  set_timers (filter (λ t, timer_id t ≠ id) (timers (host s))) s.

(** [uuidv4()]: a fresh identifier; the model numbers them. *)
Definition uuidv4 (s : Sys) : string * Sys :=
  ("uuid-" +:+ pretty (fresh (host s)), set_fresh (S (fresh (host s))) s).

(** [vscode.workspace.getConfiguration('positron').get('heartbeat', 30)] *)
Definition heartbeat_seconds (s : Sys) : Z := default 30%Z (heartbeat_config (host s)).

(** [new Date().getUTCMilliseconds()]: the millisecond part of the clock. *)
Definition getUTCMilliseconds (s : Sys) : Z := (now (host s) mod 1000)%Z.

(** [vscode.window.terminals]: the terminals that are open. *)
Definition window_terminals (h : Host) : list nat :=
  filter (λ i, terminal_open <$> terminals h !! i = Some true) (seq 0 (length (terminals h))).

Definition dispose_terminal (i : nat) (s : Sys) : Sys :=
  set_terminals (alter terminal_dispose i (terminals (host s))) s.

(** Promise settlement: only the first one counts. *)
Definition settle (p : nat) (v : Settled) (s : Sys) : Sys :=
  match promises (loop s) !! p with
  | Some _ => s
  | None => set_promises (<[p := v]> (promises (loop s))) s
  end.

Definition settle_opt (p : option nat) (v : Settled) (s : Sys) : Sys :=
  match p, v with
  | Some p, _ => settle p v s
  | None, rejected e => set_unhandled (unhandled (loop s) ++ [e]) s
  | None, fulfilled => s
  end.

(** Modelled from the spec: [JupyterSession.dispose], whose file is not among
    the sources, removes the session's connection file and log file. *)
Definition JupyterSession_dispose (ss : JupyterSession) (s : Sys) : Sys :=
  set_files (delete (logFile (state ss)) (delete (connectionFile (state ss)) (files (host s)))) s.

(** ** Sockets of the kernel object *)

Definition get_socket (d : JupyterSockets.t) (k : JupyterKernel) : option JupyterSocket :=
  match d with
  | JupyterSockets.control => _control k
  | JupyterSockets.shell => _shell k
  | JupyterSockets.stdin => _stdin k
  | JupyterSockets.iopub => _iopub k
  | JupyterSockets.heartbeat => _heartbeat k
  end.

Definition set_socket (d : JupyterSockets.t) (v : option JupyterSocket) (s : Sys) : Sys :=
  match d with
  | JupyterSockets.control => set_control v s
  | JupyterSockets.shell => set_shell v s
  | JupyterSockets.stdin => set_stdin v s
  | JupyterSockets.iopub => set_iopub v s
  | JupyterSockets.heartbeat => set_heartbeat v s
  end.

(** [this._x?.socket().f(...)]: nothing happens when the field is null. *)
Definition with_socket (d : JupyterSockets.t) (f : JupyterSocket → JupyterSocket) (s : Sys) : Sys :=
  match get_socket d (this s) with
  | Some k => set_socket d (Some (f k)) s
  | None => s
  end.

(** [this._x?.dispose()] *)
Definition dispose_socket (d : JupyterSockets.t) (s : Sys) : Sys :=
  match get_socket d (this s) with
  | Some k => set_disposed_sockets (disposed_sockets (loop s) ++ [k]) s
  | None => s
  end.

Definition disposeAllSockets (s : Sys) : Sys :=
  let s := dispose_socket JupyterSockets.control s in
  let s := dispose_socket JupyterSockets.shell s in
  let s := dispose_socket JupyterSockets.stdin s in
  let s := dispose_socket JupyterSockets.heartbeat s in
  let s := dispose_socket JupyterSockets.iopub s in
  let s := set_control None s in
  let s := set_shell None s in
  let s := set_stdin None s in
  let s := set_heartbeat None s in
  set_iopub None s.

Definition disposeHeartbeatTimers (s : Sys) : Sys :=
  let s := match _heartbeatTimer (this s) with
           | Some t => set_heartbeatTimer None (clearTimeout t s)
           | None => s
           end in
  match _nextHeartbeat (this s) with
  | Some t => set_nextHeartbeat None (clearTimeout t s)
  | None => s
  end.

(** ** Sending *)

(** Sequencing of statements that may throw. *)
Definition and_then (r : Completion * Sys) (f : Sys → Completion * Sys) : Completion * Sys :=
  match r with
  | (Normal, s) => f s
  | (Throw e, s) => (Throw e, s)
  end.

Notation "r ;;; f" := (and_then r f) (at level 61, left associativity).

(** [generateMessageHeader]: [this._session!] is read, which throws when no
    session is bound. *)
Definition generateMessageHeader (id type : string) (s : Sys) : JsError + JupyterMessageHeader :=
  match _session (this s) with
  | None => inl (TypeError_null "this._session.sessionId")
  | Some ss => inr (mkHeader id type "5.0" (toISOString (now (host s)))
                             (sessionId (state ss)) (os_username (host s)))
  end.

(** [sendToSocket(id, type, dest, parent, message)].  The socket object [dest]
    is the value of one of the five fields at the call; the model passes the
    name of the field.  A null [dest] throws at [dest.title()].  The
    completion callback of the transport is not modelled. *)
Definition sendToSocket (id type : string) (dest : JupyterSockets.t)
    (parent : ParentHeader) (message : JupyterMessageSpec) (s : Sys) : Completion * Sys :=
  match generateMessageHeader id type s with
  | inl e => (Throw e, s)
  | inr h =>
      let msg := mkMessage [] message h [] parent in
      match get_socket dest (this s) with
      | None => (Throw (TypeError_null "dest.title"), s)
      | Some k =>
          let s := appendLine (log_send (msg_type (header msg)) (title k) msg) s in
          let signing_key := from_option (λ ss, key (state ss)) "" (_session (this s)) in
          (Normal, set_socket dest (Some (socket_send (serializeJupyterMessage msg signing_key) k)) s)
      end
  end.

(** [send]: a message with no parent; the parent slot holds [{}]. *)
Definition send (id type : string) (dest : JupyterSockets.t)
    (message : JupyterMessageSpec) (s : Sys) : Completion * Sys :=
  sendToSocket id type dest parent_empty message s.

Definition startLsp (clientAddress : string) (s : Sys) : Completion * Sys :=
  let s := appendLine (log_starting_lsp clientAddress) s in
  let '(id, s) := uuidv4 s in
  let s := set_lspCommId (Some id) s in
  let msg := comm_open "lsp" id (client_address clientAddress) in
  let '(u, s) := uuidv4 s in
  send u "comm_open" JupyterSockets.shell msg s.

Definition openComm (targetName id : string) (data : CommData) (s : Sys) : Completion * Sys :=
  let '(u, s) := uuidv4 s in
  send u "comm_open" JupyterSockets.shell (comm_open targetName id data) s.

Definition closeComm (id : string) (s : Sys) : Completion * Sys :=
  let '(u, s) := uuidv4 s in
  send u "comm_close" JupyterSockets.shell (comm_close id) s.

Definition sendCommMessage (id : string) (data : CommData) (s : Sys) : Completion * Sys :=
  let '(u, s) := uuidv4 s in
  send u "comm_msg" JupyterSockets.shell (comm_msg id data) s.

(** [emitMessage]: [msg.parent_header ? msg.parent_header.msg_id : ''] reads
    [msg_id] off any truthy value, the empty object included. *)
Definition emitMessage (socket : JupyterSockets.t) (msg : JupyterMessage) (s : Sys) : Sys :=
  let packet :=
    mkPacket "jupyter-message" (content msg) (msg_id (header msg)) (msg_type (header msg))
             (date (header msg))
             (match parent_header msg with
              | parent_missing => js_string ""
              | parent_empty => js_undefined
              | parent_of h => js_string (msg_id h)
              end)
             socket in
  let s := appendLine (log_recv (msg_type (header msg)) socket msg) s in
  set_emitted (emitted (loop s) ++ [packet]) s.

(** ** Disposal and status changes *)

Definition dispose (s : Sys) : Completion * Sys :=
  (match _lspCommId (this s) with
   | Some id => closeComm id s
   | None => (Normal, s)
   end) ;;; λ s,
  let s := match _logTail (this s) with
           | Some t => set_logTail (Some (mkTail (tail_path t) false)) s
           | None => s
           end in
  let s := disposeHeartbeatTimers s in
  (Normal, disposeAllSockets s).

(** [onStatusChange] is an [async] method: what it throws rejects a promise
    nobody holds.  The [Ready] branch suspends at
    [await findAvailablePort(...)]. *)
Definition onStatusChange (status : RuntimeState) (s : Sys) : Sys :=
  match status with
  | Exited =>
      let s := set_workspaceState (delete (_runtimeId (this s)) (workspaceState (host s))) s in
      let s := match _session (this s) with
               | Some ss => JupyterSession_dispose ss s
               | None => s
               end in
      let s := match _terminal (this s) with
               | Some i =>
                   match exitStatus <$> terminals (host s) !! i with
                   | Some None => dispose_terminal i s
                   | _ => s
                   end
               | None => s
               end in
      match dispose s with
      | (Normal, s) => s
      | (Throw e, s) => set_unhandled (unhandled (loop s) ++ [e]) s
      end
  | Ready =>
      if _lsp (this s) && bool_decide (is_Some (_session (this s)))
      then set_awaiting_port (S (awaiting_port (loop s))) s
      else s
  | _ => s
  end.

(** [callback] of a deferred start(), for the promise [p] start() returned. *)
Definition deferred_start_callback (p : nat) (status : RuntimeState) (s : Sys) : Sys :=
  match status with
  | Initializing => s
  | _ =>
      let s := set_status_listeners
                 (filter (λ l, l ≠ DeferredStart p) (status_listeners (this s))) s in
      match status with
      | Uninitialized =>
          let s := appendLine log_performing_deferred_start s in
          snd (setTimeout (run_deferred_start p) 0 s)
      | _ =>
          let s := appendLine (log_skipping_deferred_start status) s in
          settle p (rejected (Error_kernel_already status)) s
      end
  end.

Definition call_status_listener (l : StatusListener) (status : RuntimeState) (s : Sys) : Sys :=
  match l with
  | OnStatusChange => onStatusChange status s
  | DeferredStart p => deferred_start_callback p status s
  end.

(** [this.emit('status', status)]: the listeners registered when the event is
    emitted are called in order; the event is also what observers see. *)
Definition emit_status (status : RuntimeState) (s : Sys) : Sys :=
  let s := set_status_events (status_events (loop s) ++ [status]) s in
  foldl (λ s l, call_status_listener l status s) s (status_listeners (this s)).

(** [setStatus]: the event is emitted before the field is assigned. *)
Definition setStatus (status : RuntimeState) (s : Sys) : Sys :=
  let s := emit_status status s in
  set_status status s.

(** ** Heartbeat *)

Definition heartbeat (s : Sys) : Sys :=
  let seconds := heartbeat_seconds s in
  let s := set_lastHeartbeat (getUTCMilliseconds s) s in
  let s := appendLine log_send_heartbeat s in
  let s := with_socket JupyterSockets.heartbeat (socket_send hello) s in
  let '(t, s) := setTimeout run_heartbeat_timeout (seconds * 1000) s in
  set_heartbeatTimer (Some t) s.

Definition onHeartbeat (msg : string) (s : Sys) : Sys :=
  let s := match _heartbeatTimer (this s) with
           | Some t => clearTimeout t s
           | None => s
           end in
  let s := if bool_decide (_lastHeartbeat (this s) ≠ 0%Z)
           then let now := getUTCMilliseconds s in
                let diff := (now - _lastHeartbeat (this s))%Z in
                appendLine (log_heartbeat_received diff msg) s
           else s in
  let seconds := heartbeat_seconds s in
  let '(t, s) := setTimeout run_next_heartbeat (seconds * 1000) s in
  set_nextHeartbeat (Some t) s.

(** The [once] listener for the first heartbeat reply. *)
Definition initial_heartbeat (msg : string) (s : Sys) : Sys :=
  let s := appendLine (log_initial_heartbeat msg) s in
  let s := setStatus Ready s in
  let seconds := heartbeat_seconds s in
  let s := appendLine (log_starting_heartbeat seconds) s in
  let s := heartbeat s in
  with_socket JupyterSockets.heartbeat (socket_on OnHeartbeat) s.

(** ** Connecting *)

Definition streamLogFileToChannel (logFilePath : string) (s : Sys) : Sys :=
  let s := appendLine (log_streaming logFilePath) s in
  set_logTail (Some (mkTail logFilePath true)) s.

(** [connect], up to the point where the five [connect] promises are
    pending: the sockets are created first, then the connection file is read. *)
Definition connect (connectionJsonPath : string) (s : Sys) : Completion * Sys :=
  let s := set_control (Some (new_JupyterSocket "Control" "dealer")) s in
  let s := set_shell (Some (new_JupyterSocket "Shell" "dealer")) s in
  let s := set_stdin (Some (new_JupyterSocket "Stdin" "dealer")) s in
  let s := set_iopub (Some (new_JupyterSocket "I/O" "sub")) s in
  let s := set_heartbeat (Some (new_JupyterSocket "Heartbeat" "req")) s in
  let s := with_socket JupyterSockets.shell (setZmqIdentity "positron-shell") s in
  let s := with_socket JupyterSockets.stdin (setZmqIdentity "positron-shell") s in
  match files (host s) !! connectionJsonPath with
  | Some (connection_json c) =>
      let s := with_socket JupyterSockets.control (socket_connect (control_port c)) s in
      let s := with_socket JupyterSockets.shell (socket_connect (shell_port c)) s in
      let s := with_socket JupyterSockets.stdin (socket_connect (stdin_port c)) s in
      let s := with_socket JupyterSockets.iopub (socket_connect (iopub_port c)) s in
      let s := with_socket JupyterSockets.heartbeat (socket_connect (hb_port c)) s in
      (Normal, s)
  | _ => (Throw (Error_connection_file connectionJsonPath), s)
  end.

(** [connectToTerminal] up to [await this.connect(...)].  [resolver] is the
    start() promise that the returned promise settles, if there is one. *)
Definition connectToTerminal (terminal : nat) (session : JupyterSession)
    (resolver : option nat) (s : Sys) : Sys :=
  let s := set_session (Some session) s in
  let s := set_terminal (Some terminal) s in
  let listener := mkCloseListener (fresh (host s)) terminal in
  let s := set_fresh (S (fresh (host s))) s in
  let s := set_close_listeners (close_listeners (loop s) ++ [listener]) s in
  let s := appendLine (log_connecting_kernel (processId (state session))) s in
  let logFilePath := logFile (state session) in
  let s := if bool_decide (is_Some (files (host s) !! logFilePath))
           then streamLogFileToChannel logFilePath s
           else s in
  match connect (connectionFile (state session)) s with
  | (Throw e, s) => settle_opt resolver (rejected e) s
  | (Normal, s) =>
      let pending := mkPendingConnect (fresh (host s)) resolver in
      let s := set_fresh (S (fresh (host s))) s in
      set_awaiting_connect (awaiting_connect (loop s) ++ [pending]) s
  end.

(** The rest of [connectToTerminal], once all sockets are connected. *)
Definition connectToTerminal_connected (resolver : option nat) (s : Sys) : Sys :=
  let s := with_socket JupyterSockets.heartbeat (socket_on InitialHeartbeat) s in
  let s := with_socket JupyterSockets.heartbeat (socket_send hello) s in
  let s := with_socket JupyterSockets.iopub socket_subscribe s in
  let s := with_socket JupyterSockets.iopub (socket_on OnIopubMessage) s in
  let s := with_socket JupyterSockets.shell (socket_on OnShellMessage) s in
  let s := with_socket JupyterSockets.stdin (socket_on OnStdinMessage) s in
  settle_opt resolver fulfilled s.

(** [terminal.exitStatus?.code] *)
Definition exitStatus_code (t : option Terminal) : option Z :=
  match t with
  | Some t => match exitStatus t with Some (Some c) => Some c | _ => None end
  | None => None
  end.

(** The [onDidCloseTerminal] listener installed by [connectToTerminal];
    [closed] is the terminal of the event, [close_terminal l] the terminal the
    listener was created for. *)
Definition on_close_terminal (l : CloseListener) (closed : nat) (s : Sys) : Sys :=
  if bool_decide (name <$> terminals (host s) !! closed ≠ Some (display_name (_spec (this s))))
  then s
  else
    match exitStatus_code (terminals (host s) !! close_terminal l) with
    | None => s
    | Some exit_code =>
        let s := if bool_decide (_status (this s) = Starting)
                 then appendLine (log_failed_to_start exit_code) s
                 else let s := setStatus Exited s in
                      appendLine (log_exited_with_code exit_code) s in
        set_close_listeners
          (filter (λ x, close_id x ≠ close_id l) (close_listeners (loop s))) s
    end.

(** The socket listeners.  A message that does not decode is [None]. *)
Definition on_socket_message (socket : JupyterSockets.t) (decoded : option JupyterMessage)
    (s : Sys) : Sys :=
  match decoded with
  | None => s
  | Some msg =>
      let s := if bool_decide (socket = JupyterSockets.stdin)
                  && bool_decide (msg_type (header msg) = "input_request")
               then set_inputRequests
                      (<[msg_id (header msg) := header msg]> (_inputRequests (this s))) s
               else s in
      emitMessage socket msg s
  end.

(** ** Starting *)

(** [start()], up to [await createJupyterSession()].  [p] is the promise the
    call returns. *)
Definition start (p : nat) (s : Sys) : Sys :=
  if bool_decide (_status (this s) = Initializing) then
    let s := appendLine log_deferring s in
    set_status_listeners (status_listeners (this s) ++ [DeferredStart p]) s
  else if bool_decide (_status (this s) ≠ Uninitialized)
          && bool_decide (_status (this s) ≠ Exited) then
    let s := appendLine (log_already_ignoring (_status (this s))) s in
    settle p fulfilled s
  else
    let s := setStatus Initializing s in
    set_awaiting_session (awaiting_session (loop s) ++ [p]) s.

(** The argument template with its two placeholders resolved. *)
Definition resolve_arg (connnectionFile logFile arg : string) : string :=
  if bool_decide (arg = "{connection_file}") then connnectionFile
  else if bool_decide (arg = "{log_file}") then logFile
  else arg.

(** The rest of [start()] once the session exists, up to the wait for the
    terminal to open. *)
Definition start_with_session (p : nat) (session : JupyterSession) (s : Sys) : Sys :=
  let connnectionFile := connectionFile (state session) in
  let logFile := logFile (state session) in
  let spec := _spec (this s) in
  let s := if bool_decide ("{log_file}" ∈ argv spec)
           then set_files (<[logFile := text_file ""]> (files (host s))) s
           else s in
  let args := resolve_arg connnectionFile logFile <$> argv spec in
  let command := String.concat " " args in
  let s := setStatus Starting s in
  let s := appendLine (log_starting_kernel command) s in
  let s := if bool_decide (is_Some (env spec)) then appendLine log_environment s else s in
  let options := mkTerminalOptions (display_name spec) (head args) (tail args)
                   ("** " +:+ display_name spec +:+ " **") false false in
  let s := set_created_terminals (created_terminals (host s) ++ [options]) s in
  let listener := mkOpenListener (fresh (host s)) p session in
  let s := set_fresh (S (fresh (host s))) s in
  set_open_listeners (open_listeners (loop s) ++ [listener]) s.

(** The [onDidOpenTerminal] listener of [start()], with the process id of the
    opened terminal resolved. *)
Definition on_open_terminal (l : OpenListener) (opened : nat) (s : Sys) : Sys :=
  match terminals (host s) !! opened with
  | None => s
  | Some t =>
      if bool_decide (name t = display_name (_spec (this s))) then
        match terminal_processId t with
        | Some (Npos n) =>
            let pid := Some (Npos n) in
            let session := mkSession (with_processId pid (state (open_session l))) in
            let s := appendLine (log_writing_session_state (_runtimeId (this s)) (state session)) s in
            let s := set_workspaceState
                       (<[_runtimeId (this s) := state session]> (workspaceState (host s))) s in
            let s := set_open_listeners
                       (filter (λ x, open_id x ≠ open_id l) (open_listeners (loop s))) s in
            connectToTerminal opened session (Some (open_promise l)) s
        | _ => s
        end
      else s
  end.

(** ** Reconnecting *)

Definition reconnect (sessionState : JupyterSessionState) (s : Sys) : Sys :=
  let s := setStatus Initializing s in
  let allTerminals := window_terminals (host s) in
  let s := appendLine (log_found_record (processId sessionState) (length allTerminals)) s in
  set_scanning (Some (mkScan sessionState allTerminals)) s.

(** One terminal of the scan, with its process id resolved: a terminal with
    the kernel's name and another process id is disposed. *)
Definition scan_terminal (sessionState : JupyterSessionState) (i : nat) (s : Sys) : Sys :=
  match terminals (host s) !! i with
  | Some t =>
      if bool_decide (name t = display_name (_spec (this s)))
         && bool_decide (terminal_processId t ≠ processId sessionState)
      then dispose_terminal i s
      else s
  | None => s
  end.

Definition scan_matches (sessionState : JupyterSessionState) (h : Host) (all : list nat) : list nat :=
  filter (λ i, terminal_processId <$> terminals h !! i = Some (processId sessionState)) all.

(** The scan of [reconnect] once every process id is known. *)
Definition reconnect_scanned (sc : Scan) (s : Sys) : Sys :=
  let sessionState := scan_state sc in
  let found := scan_matches sessionState (host s) (scan_terminals sc) in
  let s := foldl (λ s i, scan_terminal sessionState i s) s (scan_terminals sc) in
  match found with
  | [] =>
      let s := appendLine (log_no_terminal_found (_runtimeId (this s)) sessionState) s in
      let s := set_workspaceState (delete (_runtimeId (this s)) (workspaceState (host s))) s in
      setStatus Uninitialized s
  | terminal :: _ =>
      let s := appendLine (log_connecting_terminal (language (_spec (this s)))
                             (from_option name "" (terminals (host s) !! terminal))
                             (processId sessionState)) s in
      snd (setTimeout (run_reconnect terminal sessionState) 0 s)
  end.

(** [new JupyterKernel(context, spec, runtimeId, channel, lsp)] in a host. *)
Definition new_JupyterKernel (context : Host) (spec : JupyterKernelSpec)
    (runtimeId : string) (lsp : bool) : Sys :=
  let k := mkKernel spec runtimeId lsp None None Uninitialized None None None None None
                    ∅ None None 0%Z None None None [OnStatusChange] in
  let s := mkSys k context (mkLoop [] [] [] [] 0 None ∅ [] [] [] [] [] []) in
  match workspaceState context !! runtimeId with
  | Some sessionState => reconnect sessionState s
  | None => s
  end.

(** ** Requests *)

Definition shutdown (restart : bool) (s : Sys) : Completion * Sys :=
  let s := setStatus Exiting s in
  let '(u, s) := uuidv4 s in
  send u "shutdown_request" JupyterSockets.control (shutdown_request restart) s.

(** [restart()]: after the shutdown request, a one-shot ['exit'] listener is
    put on [this._process], if there is such an object. *)
Definition restart (s : Sys) : Completion * Sys :=
  let s := setStatus Exiting s in
  shutdown true s ;;; λ s,
  (Normal,
   match _process (this s) with
   | Some proc => set_process (Some (mkChildProcess (S (once_exit proc)))) s
   | None => s
   end).

(** The ['exit'] listener of [restart()]: it calls start(), whose promise is
    dropped. *)
Definition on_process_exit (s : Sys) : Sys :=
  let s := appendLine log_waiting_to_restart s in
  let p := fresh (host s) in
  start p (set_fresh (S p) s).

Definition interrupt (s : Sys) : Completion * Sys :=
  let s := setStatus Interrupting s in
  let '(u, s) := uuidv4 s in
  send u "interrupt_request" JupyterSockets.control interrupt_request s.

Definition execute (code id : string) (mode : RuntimeCodeExecutionMode)
    (errorBehavior : RuntimeErrorBehavior) (s : Sys) : Completion * Sys :=
  let msg :=
    mkExecuteRequest code
      (bool_decide (mode ≠ Silent))
      (bool_decide (mode = Silent))
      (bool_decide (mode = Interactive))
      []
      (bool_decide (errorBehavior = Stop)) in
  send id "execute_request" JupyterSockets.shell (execute_request msg) s.

Definition replyToPrompt (id value : string) (s : Sys) : Completion * Sys :=
  let msg := input_reply value in
  match _inputRequests (this s) !! id with
  | Some parent =>
      let s := appendLine (log_sending_input_reply id value) s in
      let '(u, s) := uuidv4 s in
      sendToSocket u "input_reply" JupyterSockets.stdin (parent_of parent) msg s ;;; λ s,
      (Normal, set_inputRequests (delete id (_inputRequests (this s))) s)
  | None =>
      let s := appendLine (log_warn_no_parent id value) s in
      let '(u, s) := uuidv4 s in
      send u "input_reply" JupyterSockets.stdin msg s
  end.

Definition sendMessage (packet : JupyterMessagePacket) (s : Sys) : Completion * Sys :=
  match get_socket (socket packet) (this s) with
  | None => (Normal, appendLine (log_no_socket (socket packet)) s)
  | Some _ => send (msgId packet) (msgType packet) (socket packet) (message packet) s
  end.

(** The continuation of [onStatusChange(Ready)] once a port was found. *)
Definition on_port_found (lsp_port : N) (s : Sys) : Completion * Sys :=
  let s := appendLine (log_kernel_ready_lsp lsp_port) s in
  startLsp ("127.0.0.1:" +:+ pretty lsp_port) s ;;; λ s,
  (Normal, set_lsp_calls (lsp_calls (loop s) ++ [lsp_port]) s).

(** ** The event loop *)

Inductive Event :=
(* the clock *)
| tick (t : Z)
(* calls of the public methods *)
| call_start
| call_restart
| call_shutdown (restart : bool)
| call_interrupt
| call_execute (code id : string) (mode : RuntimeCodeExecutionMode)
               (errorBehavior : RuntimeErrorBehavior)
| call_replyToPrompt (id value : string)
| call_sendMessage (packet : JupyterMessagePacket)
| call_openComm (targetName id : string) (data : CommData)
| call_closeComm (id : string)
| call_sendCommMessage (id : string) (data : CommData)
| call_startLsp (clientAddress : string)
| call_dispose
(* completions and host events *)
| session_created (p : nat) (session : JupyterSession) (c : JupyterConnectionSpec)
| terminal_opened (t : Terminal)
| terminal_closed (i : nat) (exit : option (option Z))
| sockets_connected (id : nat)
| sockets_failed (id : nat) (reason : string)
| heartbeat_message (msg : string)
| socket_message (socket : JupyterSockets.t) (decoded : option JupyterMessage)
| timer_fired (id : nat)
| terminals_scanned
| port_found (lsp_port : N)
| process_exit.

(** An exception that reaches the caller of a public method. *)
Definition to_caller (r : Completion * Sys) : Sys :=
  match r with
  | (Normal, s) => s
  | (Throw e, s) => set_raised (raised (loop s) ++ [e]) s
  end.

(** A rejection in a callback nobody awaits. *)
Definition to_nobody (r : Completion * Sys) : Sys :=
  match r with
  | (Normal, s) => s
  | (Throw e, s) => set_unhandled (unhandled (loop s) ++ [e]) s
  end.

Definition run_timer (a : TimerAction) (s : Sys) : Sys :=
  match a with
  | run_deferred_start p => start p s
  | run_reconnect terminal st =>
      let s := setStatus Starting s in
      connectToTerminal terminal (mkSession st) None s
  | run_heartbeat_timeout => setStatus Offline s
  | run_next_heartbeat => heartbeat s
  end.

(** Delivery of a message to the listeners a socket had when it arrived; a
    [once] listener is removed before it runs. *)
Definition call_socket_listener (socket : JupyterSockets.t) (l : SocketListener)
    (msg : string) (decoded : option JupyterMessage) (s : Sys) : Sys :=
  match l with
  | InitialHeartbeat =>
      initial_heartbeat msg (with_socket socket (socket_off InitialHeartbeat) s)
  | OnHeartbeat => onHeartbeat msg s
  | OnIopubMessage | OnShellMessage | OnStdinMessage => on_socket_message socket decoded s
  end.

Definition deliver (socket : JupyterSockets.t) (msg : string)
    (decoded : option JupyterMessage) (s : Sys) : Sys :=
  match get_socket socket (this s) with
  | None => s
  | Some k => foldl (λ s l, call_socket_listener socket l msg decoded s) s (listeners k)
  end.

Definition step (e : Event) (s : Sys) : Sys :=
  match e with
  | tick t => set_now t s
  | call_start =>
      let p := fresh (host s) in
      start p (set_fresh (S p) s)
  | call_restart => to_caller (restart s)
  | call_shutdown r => to_caller (shutdown r s)
  | call_interrupt => to_caller (interrupt s)
  | call_execute code id mode errorBehavior => to_caller (execute code id mode errorBehavior s)
  | call_replyToPrompt id value => to_caller (replyToPrompt id value s)
  | call_sendMessage packet => to_caller (sendMessage packet s)
  | call_openComm targetName id data => to_caller (openComm targetName id data s)
  | call_closeComm id => to_caller (closeComm id s)
  | call_sendCommMessage id data => to_caller (sendCommMessage id data s)
  | call_startLsp clientAddress => to_caller (startLsp clientAddress s)
  | call_dispose => to_caller (dispose s)
  | session_created p session c =>
      if bool_decide (p ∈ awaiting_session (loop s)) then
        let s := set_awaiting_session (filter (λ x, x ≠ p) (awaiting_session (loop s))) s in
        let s := set_files (<[connectionFile (state session) := connection_json c]>
                              (files (host s))) s in
        start_with_session p session s
      else s
  | terminal_opened t =>
      let i := length (terminals (host s)) in
      let s := set_terminals (terminals (host s) ++ [t]) s in
      foldl (λ s l, on_open_terminal l i s) s (open_listeners (loop s))
  | terminal_closed i exit =>
      let s := set_terminals (alter (terminal_close exit) i (terminals (host s))) s in
      foldl (λ s l, on_close_terminal l i s) s (close_listeners (loop s))
  | sockets_connected id =>
      match filter (λ c, connect_id c = id) (awaiting_connect (loop s)) with
      | c :: _ =>
          let s := set_awaiting_connect
                     (filter (λ c, connect_id c ≠ id) (awaiting_connect (loop s))) s in
          connectToTerminal_connected (connect_promise c) s
      | [] => s
      end
  | sockets_failed id reason =>
      match filter (λ c, connect_id c = id) (awaiting_connect (loop s)) with
      | c :: _ =>
          let s := set_awaiting_connect
                     (filter (λ c, connect_id c ≠ id) (awaiting_connect (loop s))) s in
          settle_opt (connect_promise c) (rejected (Error_connect reason)) s
      | [] => s
      end
  | heartbeat_message msg => deliver JupyterSockets.heartbeat msg None s
  | socket_message socket decoded =>
      if bool_decide (socket = JupyterSockets.heartbeat) then s
      else deliver socket "" decoded s
  | timer_fired id =>
      match filter (λ t, timer_id t = id) (timers (host s)) with
      | t :: _ => run_timer (action t) (clearTimeout id s)
      | [] => s
      end
  | terminals_scanned =>
      match scanning (loop s) with
      | Some sc => reconnect_scanned sc (set_scanning None s)
      | None => s
      end
  | port_found lsp_port =>
      match awaiting_port (loop s) with
      | S n => to_nobody (on_port_found lsp_port (set_awaiting_port n s))
      | O => s
      end
  | process_exit =>
      match _process (this s) with
      | Some proc =>
          let s := set_process (Some (mkChildProcess 0)) s in
          Nat.iter (once_exit proc) on_process_exit s
      | None => s
      end
  end.

Definition run (es : list Event) (s : Sys) : Sys := foldl (λ s e, step e s) s es.

(** ** A running example

    A kernel specification with both placeholders, an empty host, and the
    events of an ordinary start: the session is created, the terminal opens
    with process id 4242, the sockets connect and the first heartbeat reply
    arrives. *)

Definition example_spec : JupyterKernelSpec :=
  mkKernelSpec "R" "r"
    ["/usr/bin/ark"; "--connection_file"; "{connection_file}"; "--log"; "{log_file}"] None.

Definition example_host : Host := mkHost ∅ [] ∅ [] [] None "user" 0 [] 0.

Definition example_state : JupyterSessionState :=
  mkSessionState "session-1" "secret" [5001; 5002; 5003; 5004; 5005]%N
                 "/tmp/kernel.json" "/tmp/kernel.log" None.

Definition example_ports : JupyterConnectionSpec := mkConnectionSpec 5001 5002 5003 5004 5005.

Definition example_terminal : Terminal := mkTerminal "R" (Some 4242%N) None true false.

Definition example_new : Sys := new_JupyterKernel example_host example_spec "r-runtime" false.

Definition example_startup : list Event :=
  [ call_start;
    session_created 0 (mkSession example_state) example_ports;
    terminal_opened example_terminal;
    sockets_connected 3;
    heartbeat_message "hello" ].

Definition example_ready : Sys := run example_startup example_new.

(** The start of the running example with the clock: the first heartbeat is
    sent at the time [sent] (in milliseconds), no reply comes within the 30
    seconds, and the time-out fires.  The reply comes 123 ms later. *)
Definition example_missed_heartbeat (sent : Z) : list Event :=
  [ call_start;
    session_created 0 (mkSession example_state) example_ports;
    terminal_opened example_terminal;
    sockets_connected 3;
    tick sent;
    heartbeat_message "hello";
    tick (sent + 30000);
    timer_fired 4 ].

Definition example_offline (sent : Z) : Sys := run (example_missed_heartbeat sent) example_new.

Definition example_late_reply (sent : Z) : Sys :=
  run [tick (sent + 30123); heartbeat_message "hello"] (example_offline sent).

(** A host that remembers a session of process 4242, where no terminal runs
    that process: one terminal bears the kernel's name with another process
    id, one is an unrelated shell. *)
Definition example_stale_host : Host :=
  mkHost {["r-runtime" := with_processId (Some 4242%N) example_state]}
         [mkTerminal "R" (Some 7%N) None true false;
          mkTerminal "bash" (Some 8%N) None true false]
         ∅ [] [] None "user" 0 [] 0.

Definition example_reconnecting : Sys :=
  new_JupyterKernel example_stale_host example_spec "r-runtime" false.

(** What was sent so far through one of the five sockets. *)
Definition sent_on (d : JupyterSockets.t) (s : Sys) : list Frames :=
  from_option sent [] (get_socket d (this s)).


(** The running example after the kernel has asked for input. *)
Definition example_input_request : JupyterMessage :=
  mkMessage [] (inbound "{prompt: '> ', password: false}")
    (mkHeader "req-7" "input_request" "5.0" (wire_date "2023-01-01T00:00:00Z") "session-1" "kernel")
    [] parent_empty.

Definition example_prompted : Sys :=
  step (socket_message JupyterSockets.stdin (Some example_input_request)) example_ready.

(** A kernel with a language server whose connection was disposed while a
    timer for the next heartbeat was pending that [dispose] does not know
    of: two replies came in a row on the heartbeat socket, so the handle of
    the first timer (7) was overwritten by the second (8).  [dispose] clears
    timer 8 and closes the LSP comm; then timer 7 fires and [heartbeat] arms
    the time-out (timer 10), with no socket left. *)
Definition example_orphaned_events : list Event :=
  [ call_start;
    session_created 0 (mkSession example_state) example_ports;
    terminal_opened example_terminal;
    sockets_connected 3;
    heartbeat_message "hello";
    port_found 9000;
    heartbeat_message "hello";
    heartbeat_message "hello";
    call_dispose;
    timer_fired 7 ].

Definition example_orphaned : Sys :=
  run example_orphaned_events (new_JupyterKernel example_host example_spec "r-runtime" true).

(** Every entry of the table is filed under its own message id, as the
    stdin listener files them. *)
Definition requests_keyed (s : Sys) : Prop :=
  ∀ id h, _inputRequests (this s) !! id = Some h → msg_id h = id.

(** ** Reasoning about handlers

    Most properties of the state machine are closure properties: a predicate
    on [Sys] that every handler keeps.  [Keeps P f] says so for a handler [f];
    [KeepsSnd] is the same for a handler that also returns a value or a
    completion. *)

Definition after {A} (P : Sys → Prop) (r : A * Sys) : Prop := P r.2.

Class Keeps (P : Sys → Prop) (f : Sys → Sys) : Prop :=
  keeps : ∀ s, P s → P (f s).

Class KeepsSnd {A} (P : Sys → Prop) (f : Sys → A * Sys) : Prop :=
  keeps_snd : ∀ s, P s → after P (f s).

(** The part of the state that only the lifecycle methods write: the process
    handle, the status, the status events shown to observers, the terminals
    asked for, and the listeners of the status event. *)
Definition core (s : Sys) :
    option ChildProcess * RuntimeState * list RuntimeState * list TerminalOptions
    * list StatusListener :=
  (_process (this s), _status (this s), status_events (loop s), created_terminals (host s),
   status_listeners (this s)).

Definition core_is c (s : Sys) : Prop := core s = c.

(** The same without the listeners. *)
Definition lifecycle_is c (s : Sys) : Prop :=
  (_process (this s), _status (this s), status_events (loop s), created_terminals (host s)) = c.

Class CoreFrame (f : Sys → Sys) : Prop :=
  core_frame : ∀ s, core (f s) = core s.

Class CoreFrameSnd {A} (f : Sys → A * Sys) : Prop :=
  core_frame_snd : ∀ s, core (f s).2 = core s.

(** A predicate that looks at the core only. *)
Class CoreOnly (P : Sys → Prop) : Prop :=
  core_only : ∀ s s', core s = core s' → P s → P s'.

(** ** Reachable states and what holds in all of them *)

(** A state the object can be in: built by the constructor in some host, then
    driven by events. *)
Definition reachable (s : Sys) : Prop :=
  ∃ context spec runtimeId lsp es,
    s = run es (new_JupyterKernel context spec runtimeId lsp).

(** Nothing ever assigns [_process]. *)
Definition process_unset (s : Sys) : Prop := _process (this s) = None.

Definition process_is (c : option ChildProcess) (s : Sys) : Prop := _process (this s) = c.

(** The listeners of the status event are the constructor's listener followed
    by the callbacks of deferred starts, and there are deferred starts only
    while the status is [Initializing]. *)
Definition listeners_wf (s : Sys) : Prop :=
  (∃ ps, status_listeners (this s) = OnStatusChange :: (DeferredStart <$> ps))
  ∧ (_status (this s) ≠ Initializing → status_listeners (this s) = [OnStatusChange]).

(** What one listener call does to the list of listeners. *)
Definition listeners_after (st : RuntimeState) (l : StatusListener)
    (ls : list StatusListener) : list StatusListener :=
  match l with
  | OnStatusChange => ls
  | DeferredStart p =>
      if bool_decide (st = Initializing) then ls else filter (λ x, x ≠ DeferredStart p) ls
  end.

(** The status events that [s'] shows beyond those of [s]. *)
Definition new_status_events (s s' : Sys) : list RuntimeState :=
  drop (length (status_events (loop s))) (status_events (loop s')).

(** Since the events [ev], no [Exited] was emitted. *)
Definition no_exit_since (ev : list RuntimeState) (s : Sys) : Prop :=
  ∃ more, status_events (loop s) = (ev ++ more)%list ∧ Exited ∉ more.

(** [s'] is [s] with more lines of the given kind in the output channel and
    other close listeners, and nothing else changed. *)
Definition only_logged (allowed : LogLine → Prop) (s s' : Sys) : Prop :=
  ∃ lines ls, Forall allowed lines
              ∧ s' = set_close_listeners ls (set_channel (channel (host s) ++ lines) s).

Definition is_failed_to_start (l : LogLine) : Prop := ∃ exit_code, l = log_failed_to_start exit_code.

(** The connection as the request methods see it: the five sockets, the
    session, the pending input requests, the clock and the user name. *)
Definition connection (s : Sys) :=
  (_control (this s), _shell (this s), _stdin (this s), _iopub (this s), _heartbeat (this s),
   _session (this s), _inputRequests (this s), now (host s), os_username (host s)).

Definition connection_is c (s : Sys) : Prop := connection s = c.

(** ** The terminal scan of [reconnect] as a function on the terminal table *)

(** A terminal that bears the kernel's name but not the persisted process id. *)
Definition is_stale (display_name : string) (sessionState : JupyterSessionState)
    (t : Terminal) : bool :=
  bool_decide (name t = display_name)
  && bool_decide (terminal_processId t ≠ processId sessionState).

Definition scan_step (display_name : string) (sessionState : JupyterSessionState)
    (i : nat) (table : list Terminal) : list Terminal :=
  match table !! i with
  | Some t => if is_stale display_name sessionState t
              then alter terminal_dispose i table else table
  | None => table
  end.

(** ** Disposal *)

(** [dispose] after the LSP comm is closed: the log tail, the heartbeat
    timers and the sockets. *)
Definition dispose_rest (s : Sys) : Sys :=
  let s := match _logTail (this s) with
           | Some t => set_logTail (Some (mkTail (tail_path t) false)) s
           | None => s
           end in
  let s := disposeHeartbeatTimers s in
  disposeAllSockets s.

(** The connection state is disposed already: no socket, no heartbeat timer
    handle, no log tail that still watches. *)
Definition connection_disposed (s : Sys) : Prop :=
  (∀ d, get_socket d (this s) = None)
  ∧ _heartbeatTimer (this s) = None
  ∧ _nextHeartbeat (this s) = None
  ∧ (∀ t, _logTail (this s) = Some t → watching t = false).

(** [dispose] can run to its end: there is no LSP comm to close, or the
    [comm_close] can be sent; or there is nothing left to dispose. *)
Definition disposable (s : Sys) : Prop :=
  _lspCommId (this s) = None
  ∨ (is_Some (_shell (this s)) ∧ is_Some (_session (this s)))
  ∨ connection_disposed s.

(** What the clean-up on [Exited] is about. *)
Definition cleanup_view (s : Sys) :=
  (workspaceState (host s), files (host s), terminals (host s), timers (host s),
   _logTail (this s), _heartbeatTimer (this s), _nextHeartbeat (this s),
   (_control (this s), _shell (this s), _stdin (this s), _iopub (this s), _heartbeat (this s)),
   disposed_sockets (loop s)).

Definition cleanup_is c (s : Sys) : Prop := cleanup_view s = c.

(** The socket [k'] is the socket [k], possibly after more was sent. *)
Definition same_socket (k k' : JupyterSocket) : Prop :=
  title k' = title k ∧ zmq_type k' = zmq_type k ∧ zmq_identity k' = zmq_identity k
  ∧ port k' = port k ∧ listeners k' = listeners k.

(** The first three steps of [onStatusChange(Exited)]: the persisted session
    state is deleted, the session is disposed, and the terminal, if it is
    still open, is closed. *)
Definition forget_session (s : Sys) : Sys :=
  let s := set_workspaceState (delete (_runtimeId (this s)) (workspaceState (host s))) s in
  let s := match _session (this s) with
           | Some ss => JupyterSession_dispose ss s
           | None => s
           end in
  match _terminal (this s) with
  | Some i =>
      match exitStatus <$> terminals (host s) !! i with
      | Some None => dispose_terminal i s
      | _ => s
      end
  | None => s
  end.

(** What the transition to [Exited] has to leave behind, relative to the
    state [s] before it. *)
Definition cleaned_up (s s' : Sys) : Prop :=
  workspaceState (host s') = delete (_runtimeId (this s)) (workspaceState (host s))
  ∧ (∀ ss, _session (this s) = Some ss →
           files (host s')
           = delete (logFile (state ss)) (delete (connectionFile (state ss)) (files (host s))))
  ∧ (∀ i t, _terminal (this s) = Some i → terminals (host s) !! i = Some t →
            exitStatus t = None → terminals (host s') !! i = Some (terminal_dispose t))
  ∧ _logTail (this s') = (λ t, mkTail (tail_path t) false) <$> _logTail (this s)
  ∧ _heartbeatTimer (this s') = None
  ∧ _nextHeartbeat (this s') = None
  ∧ (∀ t, t ∈ timers (host s') →
          t ∈ timers (host s)
          ∧ Some (timer_id t) ≠ _heartbeatTimer (this s)
          ∧ Some (timer_id t) ≠ _nextHeartbeat (this s))
  ∧ (∀ d, get_socket d (this s') = None)
  ∧ (∀ d k, get_socket d (this s) = Some k →
            ∃ k', k' ∈ disposed_sockets (loop s') ∧ same_socket k k').
(** ** Further invariants of the reachable states *)

(** The five sockets exist together, and only once a session is bound. *)
Definition sockets_wf (s : Sys) : Prop :=
  ((∀ d, is_Some (get_socket d (this s))) ∧ is_Some (_session (this s)))
  ∨ (∀ d, get_socket d (this s) = None).

(** The statuses that [setStatus] is called with somewhere in the class. *)
Definition announced (st : RuntimeState) : bool :=
  match st with
  | Idle | Busy => false
  | _ => true
  end.

Class Announced (st : RuntimeState) : Prop := is_announced : announced st = true.

(** The status field is the last status announced, and every status that was
    announced is one the class sets. *)
Definition status_wf (s : Sys) : Prop :=
  _status (this s) = default Uninitialized (last (status_events (loop s)))
  ∧ Forall Announced (status_events (loop s)).

(** The table of pending input requests holds headers of input requests,
    each under its own message id. *)
Definition requests_wf (s : Sys) : Prop :=
  ∀ id h, _inputRequests (this s) !! id = Some h →
          msg_id h = id ∧ msg_type h = "input_request".

(** The socket each ['message'] listener is written for. *)
Definition listener_of (d : JupyterSockets.t) (l : SocketListener) : bool :=
  match d, l with
  | JupyterSockets.heartbeat, (InitialHeartbeat | OnHeartbeat) => true
  | JupyterSockets.iopub, OnIopubMessage => true
  | JupyterSockets.shell, OnShellMessage => true
  | JupyterSockets.stdin, OnStdinMessage => true
  | _, _ => false
  end.

Definition socket_listeners_wf (s : Sys) : Prop :=
  ∀ d k, get_socket d (this s) = Some k → Forall (λ l, listener_of d l = true) (listeners k).

(** A packet as [emitMessage] builds them for the three channels that are
    listened to. *)
Definition is_inbound_packet (p : JupyterMessagePacket) : Prop :=
  type p = "jupyter-message"
  ∧ (socket p = JupyterSockets.iopub ∨ socket p = JupyterSockets.shell
     ∨ socket p = JupyterSockets.stdin).

Definition emitted_wf (s : Sys) : Prop :=
  socket_listeners_wf s ∧ Forall is_inbound_packet (emitted (loop s)).

(** An operation on a socket that leaves its listeners among those written
    for the socket [d]. *)
Class ListenerSafe (d : JupyterSockets.t) (f : JupyterSocket → JupyterSocket) : Prop :=
  listener_safe : ∀ k, Forall (λ l, listener_of d l = true) (listeners k) →
                       Forall (λ l, listener_of d l = true) (listeners (f k)).

Class ListenerOf (d : JupyterSockets.t) (l : SocketListener) : Prop :=
  is_listener_of : listener_of d l = true.

(** The running example before its terminal opens, and with a session whose
    connection file was never written. *)
Definition example_starting : Sys :=
  run [call_start; session_created 0 (mkSession example_state) example_ports] example_new.

(** What a status change to a status other than [Exited] and [Uninitialized]
    leaves alone: everything but the status, the status events, the
    listeners of the status event, the output channel, the promises, and the
    count of port searches under way. *)
Definition quiet_view (s : Sys) :=
  (_spec (this s), _runtimeId (this s), _lsp (this s), _process (this s), _logTail (this s),
   (_control (this s), _shell (this s), _stdin (this s), _iopub (this s), _heartbeat (this s)),
   _inputRequests (this s), _heartbeatTimer (this s), _nextHeartbeat (this s),
   _lastHeartbeat (this s), _session (this s), _terminal (this s), _lspCommId (this s),
   (workspaceState (host s), terminals (host s), files (host s), created_terminals (host s),
    heartbeat_config (host s), os_username (host s), now (host s), timers (host s),
    fresh (host s)),
   (awaiting_session (loop s), open_listeners (loop s), close_listeners (loop s),
    awaiting_connect (loop s), scanning (loop s), emitted (loop s), unhandled (loop s),
    raised (loop s), lsp_calls (loop s), disposed_sockets (loop s))).

(** Since the events [ev], the status [st0] was not announced. *)
Definition quiet_since (st0 : RuntimeState) (ev : list RuntimeState) (s : Sys) : Prop :=
  ∃ more, status_events (loop s) = ev ++ more ∧ st0 ∉ more.

Class Differs (st st0 : RuntimeState) : Prop := differs : st ≠ st0.


(** ** Closure lemmas and the tactic that walks a handler *)

#[global] Arguments setStatus : simpl never.
#[global] Arguments emit_status : simpl never.

Lemma after_eq {A} (P : Sys → Prop) (r : A * Sys) a s' :
  r = (a, s') → after P r → P s'.
Proof. by intros ->. Qed.

Lemma after_pair {A} (P : Sys → Prop) (a : A) s : P s → after P (a, s).
Proof. done. Qed.

Lemma after_and_then (P : Sys → Prop) r f :
  after P r → (∀ s, P s → after P (f s)) → after P (r ;;; f).
Proof. destruct r as [[|e] s]; simpl; auto. Qed.

Lemma keeps_foldl {B} (P : Sys → Prop) (f : Sys → B → Sys) l s :
  (∀ b s, P s → P (f s b)) → P s → P (foldl f s l).
Proof.
  intros Hf. revert s. induction l as [|b l IH]; intros s H; simpl; [done|].
  by apply IH, Hf.
Qed.

Lemma keeps_iter (P : Sys → Prop) (f : Sys → Sys) n s :
  (∀ s, P s → P (f s)) → P s → P (Nat.iter n f s).
Proof. intros Hf H. induction n as [|n IH]; simpl; [done|]. by apply Hf. Qed.

Lemma keeps_to_caller (P : Sys → Prop) r :
  (∀ v s, P s → P (set_raised v s)) → after P r → P (to_caller r).
Proof. intros Hs. destruct r as [[|e] s]; simpl; auto. Qed.

Lemma keeps_to_nobody (P : Sys → Prop) r :
  (∀ v s, P s → P (set_unhandled v s)) → after P r → P (to_nobody r).
Proof. intros Hs. destruct r as [[|e] s]; simpl; auto. Qed.

(** [open f] unfolds [f] and keeps its [let]s. *)
Ltac open f := cbv delta [f]; cbv beta.

(** A [let] of an intermediate state is cut at that state. *)
Ltac cut_state P G E B :=
  let H := fresh "HP" in
  assert (H : P E);
  [ | let t := eval cbv beta in (B E) in
      change (G t); revert H; generalize E; intros ? H ].

(** A call that returns a pair is named, and [P] is carried to its state. *)
Ltac cut_pair P E :=
  let Heq := fresh "Heq" in
  let H := fresh "HP" in
  let a := fresh "a" in
  let s' := fresh "s" in
  destruct E as [a s'] eqn:Heq;
  assert (H : P s'); [ apply (after_eq P _ _ _ Heq); clear Heq | clear Heq ].

Ltac peel_body P G :=
  lazymatch goal with
  | |- G (let x := ?E in @?B x) =>
      lazymatch type of E with
      | Sys => cut_state P G E B
      | _ => let t := eval cbv beta in (B E) in change (G t)
      end
  | |- G (match ?E with _ => _ end) =>
      lazymatch type of E with
      | (_ * Sys)%type => cut_pair P E
      | _ => destruct E eqn:?
      end
  end.

Ltac peel_leaf P :=
  lazymatch goal with
  | |- P (foldl _ _ _) => apply (keeps_foldl P); [ intros ? ? ? | ]
  | |- P (Nat.iter _ _ _) => apply (keeps_iter P); [ intros ? ? | ]
  | |- P (to_caller _) => apply (keeps_to_caller P); [ intros ? ? ? | ]
  | |- P (to_nobody _) => apply (keeps_to_nobody P); [ intros ? ? ? | ]
  | |- after P (_ ;;; _) => apply (after_and_then P); [ | intros ? ? ]
  | |- after P (_, _) => apply (after_pair P)
  | |- P (snd ?r) => change (after P r)
  | |- after P (?f ?s) => apply (keeps_snd (P:=P) (f:=f))
  | |- P (?f ?s) =>
      first [ assumption
            | match goal with H : P s |- _ => exact H end
            | apply (keeps (P:=P) (f:=f)) ]
  | |- P ?s => assumption
  end.

Ltac peel P :=
  repeat first [ peel_body P P | peel_body P (@after Completion P)
               | peel_body P (@after nat P) | peel_body P (@after string P)
               | peel_leaf P ].

(** A predicate on the core is kept by whatever leaves the core alone. *)
#[global] Instance CoreOnly_core_is c : CoreOnly (core_is c).
Proof. intros s s' Heq H. unfold core_is in *. congruence. Qed.

#[global] Instance Keeps_CoreFrame P f `{!CoreOnly P, !CoreFrame f} : Keeps P f | 100.
Proof. intros s H. eapply core_only; [|exact H]. symmetry. apply core_frame. Qed.

#[global] Instance KeepsSnd_CoreFrameSnd {A} P (f : Sys → A * Sys)
    `{!CoreOnly P, !CoreFrameSnd f} : KeepsSnd P f | 100.
Proof.
  intros s H. unfold after. eapply core_only; [|exact H]. symmetry. apply core_frame_snd.
Qed.

(** To show that a handler leaves the core alone, walk it with the predicate
    "the core is what it was". *)
Ltac core_frame h :=
  let s := fresh "s" in
  intros s;
  lazymatch goal with
  | |- core (?f s) = core s => change (core_is (core s) (f s))
  | |- core (?f s).2 = core s => change (after (core_is (core s)) (f s))
  end;
  assert (core_is (core s) s) by reflexivity;
  open h; peel (core_is (core s)).

Section core_frames.
#[global] Instance set_logTail_core v : CoreFrame (set_logTail v).
Proof. by intros s. Qed.
#[global] Instance set_control_core v : CoreFrame (set_control v).
Proof. by intros s. Qed.
#[global] Instance set_shell_core v : CoreFrame (set_shell v).
Proof. by intros s. Qed.
#[global] Instance set_stdin_core v : CoreFrame (set_stdin v).
Proof. by intros s. Qed.
#[global] Instance set_iopub_core v : CoreFrame (set_iopub v).
Proof. by intros s. Qed.
#[global] Instance set_heartbeat_core v : CoreFrame (set_heartbeat v).
Proof. by intros s. Qed.
#[global] Instance set_inputRequests_core v : CoreFrame (set_inputRequests v).
Proof. by intros s. Qed.
#[global] Instance set_heartbeatTimer_core v : CoreFrame (set_heartbeatTimer v).
Proof. by intros s. Qed.
#[global] Instance set_nextHeartbeat_core v : CoreFrame (set_nextHeartbeat v).
Proof. by intros s. Qed.
#[global] Instance set_lastHeartbeat_core v : CoreFrame (set_lastHeartbeat v).
Proof. by intros s. Qed.
#[global] Instance set_session_core v : CoreFrame (set_session v).
Proof. by intros s. Qed.
#[global] Instance set_terminal_core v : CoreFrame (set_terminal v).
Proof. by intros s. Qed.
#[global] Instance set_lspCommId_core v : CoreFrame (set_lspCommId v).
Proof. by intros s. Qed.
#[global] Instance set_workspaceState_core v : CoreFrame (set_workspaceState v).
Proof. by intros s. Qed.
#[global] Instance set_terminals_core v : CoreFrame (set_terminals v).
Proof. by intros s. Qed.
#[global] Instance set_files_core v : CoreFrame (set_files v).
Proof. by intros s. Qed.
#[global] Instance set_channel_core v : CoreFrame (set_channel v).
Proof. by intros s. Qed.
#[global] Instance set_now_core v : CoreFrame (set_now v).
Proof. by intros s. Qed.
#[global] Instance set_timers_core v : CoreFrame (set_timers v).
Proof. by intros s. Qed.
#[global] Instance set_fresh_core v : CoreFrame (set_fresh v).
Proof. by intros s. Qed.
#[global] Instance set_awaiting_session_core v : CoreFrame (set_awaiting_session v).
Proof. by intros s. Qed.
#[global] Instance set_open_listeners_core v : CoreFrame (set_open_listeners v).
Proof. by intros s. Qed.
#[global] Instance set_close_listeners_core v : CoreFrame (set_close_listeners v).
Proof. by intros s. Qed.
#[global] Instance set_awaiting_connect_core v : CoreFrame (set_awaiting_connect v).
Proof. by intros s. Qed.
#[global] Instance set_awaiting_port_core v : CoreFrame (set_awaiting_port v).
Proof. by intros s. Qed.
#[global] Instance set_scanning_core v : CoreFrame (set_scanning v).
Proof. by intros s. Qed.
#[global] Instance set_promises_core v : CoreFrame (set_promises v).
Proof. by intros s. Qed.
#[global] Instance set_emitted_core v : CoreFrame (set_emitted v).
Proof. by intros s. Qed.
#[global] Instance set_unhandled_core v : CoreFrame (set_unhandled v).
Proof. by intros s. Qed.
#[global] Instance set_raised_core v : CoreFrame (set_raised v).
Proof. by intros s. Qed.
#[global] Instance set_lsp_calls_core v : CoreFrame (set_lsp_calls v).
Proof. by intros s. Qed.
#[global] Instance set_disposed_sockets_core v : CoreFrame (set_disposed_sockets v).
Proof. by intros s. Qed.

#[global] Instance appendLine_core l : CoreFrame (appendLine l).
Proof. core_frame appendLine. Qed.
#[global] Instance setTimeout_core a ms : CoreFrameSnd (setTimeout a ms).
Proof. core_frame setTimeout. Qed.
#[global] Instance clearTimeout_core id : CoreFrame (clearTimeout id).
Proof. core_frame clearTimeout. Qed.
#[global] Instance uuidv4_core : CoreFrameSnd uuidv4.
Proof. core_frame uuidv4. Qed.
#[global] Instance dispose_terminal_core i : CoreFrame (dispose_terminal i).
Proof. core_frame dispose_terminal. Qed.
#[global] Instance settle_core p v : CoreFrame (settle p v).
Proof. core_frame settle. Qed.
#[global] Instance settle_opt_core p v : CoreFrame (settle_opt p v).
Proof. core_frame settle_opt. Qed.
#[global] Instance JupyterSession_dispose_core ss : CoreFrame (JupyterSession_dispose ss).
Proof. core_frame JupyterSession_dispose. Qed.
#[global] Instance set_socket_core d v : CoreFrame (set_socket d v).
Proof. core_frame set_socket. Qed.
#[global] Instance with_socket_core d f : CoreFrame (with_socket d f).
Proof. core_frame with_socket. Qed.
#[global] Instance dispose_socket_core d : CoreFrame (dispose_socket d).
Proof. core_frame dispose_socket. Qed.
#[global] Instance disposeAllSockets_core : CoreFrame disposeAllSockets.
Proof. core_frame disposeAllSockets. Qed.
#[global] Instance disposeHeartbeatTimers_core : CoreFrame disposeHeartbeatTimers.
Proof. core_frame disposeHeartbeatTimers. Qed.
#[global] Instance sendToSocket_core id type dest parent message :
  CoreFrameSnd (sendToSocket id type dest parent message).
Proof. core_frame sendToSocket. Qed.
#[global] Instance send_core id type dest message : CoreFrameSnd (send id type dest message).
Proof. core_frame send. Qed.
#[global] Instance startLsp_core a : CoreFrameSnd (startLsp a).
Proof. core_frame startLsp. Qed.
#[global] Instance openComm_core t i d : CoreFrameSnd (openComm t i d).
Proof. core_frame openComm. Qed.
#[global] Instance closeComm_core i : CoreFrameSnd (closeComm i).
Proof. core_frame closeComm. Qed.
#[global] Instance sendCommMessage_core i d : CoreFrameSnd (sendCommMessage i d).
Proof. core_frame sendCommMessage. Qed.
#[global] Instance emitMessage_core k m : CoreFrame (emitMessage k m).
Proof. core_frame emitMessage. Qed.
#[global] Instance dispose_core : CoreFrameSnd dispose.
Proof. core_frame dispose. Qed.
#[global] Instance onStatusChange_core st : CoreFrame (onStatusChange st).
Proof. core_frame onStatusChange. Qed.
#[global] Instance heartbeat_core : CoreFrame heartbeat.
Proof. core_frame heartbeat. Qed.
#[global] Instance onHeartbeat_core msg : CoreFrame (onHeartbeat msg).
Proof. core_frame onHeartbeat. Qed.
#[global] Instance streamLogFileToChannel_core p : CoreFrame (streamLogFileToChannel p).
Proof. core_frame streamLogFileToChannel. Qed.
#[global] Instance connect_core p : CoreFrameSnd (connect p).
Proof. core_frame connect. Qed.
#[global] Instance connectToTerminal_core t ss r : CoreFrame (connectToTerminal t ss r).
Proof. core_frame connectToTerminal. Qed.
#[global] Instance connectToTerminal_connected_core r : CoreFrame (connectToTerminal_connected r).
Proof. core_frame connectToTerminal_connected. Qed.
#[global] Instance on_socket_message_core k m : CoreFrame (on_socket_message k m).
Proof. core_frame on_socket_message. Qed.
#[global] Instance on_open_terminal_core l i : CoreFrame (on_open_terminal l i).
Proof. core_frame on_open_terminal. Qed.
#[global] Instance scan_terminal_core st i : CoreFrame (scan_terminal st i).
Proof. core_frame scan_terminal. Qed.
#[global] Instance execute_core c i m b : CoreFrameSnd (execute c i m b).
Proof. core_frame execute. Qed.
#[global] Instance replyToPrompt_core i v : CoreFrameSnd (replyToPrompt i v).
Proof. core_frame replyToPrompt. Qed.
#[global] Instance sendMessage_core p : CoreFrameSnd (sendMessage p).
Proof. core_frame sendMessage. Qed.
#[global] Instance on_port_found_core p : CoreFrameSnd (on_port_found p).
Proof. core_frame on_port_found. Qed.
End core_frames.

(** ** What [setStatus] does to the core *)

(** The listeners of the status event write neither the process handle, nor
    the status, nor the status events, nor the terminals asked for. *)

#[global] Instance CoreOnly_lifecycle_is c : CoreOnly (lifecycle_is c).
Proof. intros s s' Heq H. unfold lifecycle_is, core in *. congruence. Qed.

#[global] Instance deferred_start_callback_lifecycle c p st :
  Keeps (lifecycle_is c) (deferred_start_callback p st).
Proof. intros s H. open deferred_start_callback. peel (lifecycle_is c). Qed.

#[global] Instance call_status_listener_lifecycle c l st :
  Keeps (lifecycle_is c) (call_status_listener l st).
Proof. intros s H. open call_status_listener. peel (lifecycle_is c). Qed.

Lemma emit_status_lifecycle st s :
  lifecycle_is (_process (this s), _status (this s), (status_events (loop s) ++ [st])%list,
                created_terminals (host s)) (emit_status st s).
Proof.
  unfold emit_status. apply keeps_foldl; [|reflexivity].
  intros l s2 H. by apply (keeps (f:=call_status_listener l st)).
Qed.

Lemma setStatus_lifecycle st s :
  lifecycle_is (_process (this s), st, (status_events (loop s) ++ [st])%list,
                created_terminals (host s)) (setStatus st s).
Proof.
  unfold setStatus. pose proof (emit_status_lifecycle st s) as H.
  unfold lifecycle_is in *. simpl. congruence.
Qed.

Lemma emit_status_events st s :
  status_events (loop (emit_status st s)) = (status_events (loop s) ++ [st])%list.
Proof. pose proof (emit_status_lifecycle st s) as H. unfold lifecycle_is in H. congruence. Qed.

Lemma setStatus_status st s : _status (this (setStatus st s)) = st.
Proof. pose proof (setStatus_lifecycle st s) as H. unfold lifecycle_is in H. congruence. Qed.

Lemma setStatus_events st s :
  status_events (loop (setStatus st s)) = (status_events (loop s) ++ [st])%list.
Proof. pose proof (setStatus_lifecycle st s) as H. unfold lifecycle_is in H. congruence. Qed.

Lemma setStatus_created st s :
  created_terminals (host (setStatus st s)) = created_terminals (host s).
Proof. pose proof (setStatus_lifecycle st s) as H. unfold lifecycle_is in H. congruence. Qed.

Lemma setStatus_process st s : _process (this (setStatus st s)) = _process (this s).
Proof. pose proof (setStatus_lifecycle st s) as H. unfold lifecycle_is in H. congruence. Qed.

(** ** Closure under the events

    A predicate on the core that [setStatus] keeps for every status but
    [Exited], and that the other writers of the core keep, is kept by every
    event except the closing of a terminal. *)

Section lifecycle.
Context (P : Sys → Prop) `{!CoreOnly P}.
Context (Hstatus : ∀ st, st ≠ Exited → Keeps P (setStatus st)).
Context (Hcreated : ∀ v, Keeps P (set_created_terminals v)).
Context (Hprocess : ∀ v s, is_Some (_process (this s)) → P s → P (set_process v s)).
Context (Hdeferred : ∀ p s, _status (this s) = Initializing → P s →
           P (set_status_listeners (status_listeners (this s) ++ [DeferredStart p]) s)).

Ltac lifecycle h :=
  let s := fresh "s" in
  let H := fresh "H" in
  intros s H; try unfold after; open h;
  repeat first
    [ peel_body P P | peel_body P (@after Completion P)
    | lazymatch goal with
      | |- P (setStatus ?st _) => apply (Hstatus st); [done|]
      | |- P (set_created_terminals _ _) => apply Hcreated
      | |- P (set_process _ _) => apply Hprocess; [eauto|]
      end
    | peel_leaf P ].

#[local] Instance initial_heartbeat_keeps msg : Keeps P (initial_heartbeat msg).
Proof. lifecycle initial_heartbeat. Qed.

#[local] Instance start_keeps p : Keeps P (start p).
Proof.
  intros s H. unfold start.
  destruct (bool_decide (_status (this s) = Initializing)) eqn:Hi.
  - apply bool_decide_eq_true_1 in Hi.
    apply (Hdeferred p (appendLine log_deferring s)); [exact Hi|].
    by apply (keeps (P:=P)).
  - destruct (_ && _).
    + by do 2 apply (keeps (P:=P)).
    + apply (keeps (P:=P)). by apply (Hstatus Initializing).
Qed.

#[local] Instance start_with_session_keeps p ss : Keeps P (start_with_session p ss).
Proof. lifecycle start_with_session. Qed.

#[local] Instance reconnect_keeps st : Keeps P (reconnect st).
Proof. lifecycle reconnect. Qed.

#[local] Instance reconnect_scanned_keeps sc : Keeps P (reconnect_scanned sc).
Proof. lifecycle reconnect_scanned. Qed.

#[local] Instance shutdown_keeps r : KeepsSnd P (shutdown r).
Proof. lifecycle shutdown. Qed.

#[local] Instance restart_keeps : KeepsSnd P restart.
Proof. lifecycle restart. Qed.

#[local] Instance interrupt_keeps : KeepsSnd P interrupt.
Proof. lifecycle interrupt. Qed.

#[local] Instance on_process_exit_keeps : Keeps P on_process_exit.
Proof. lifecycle on_process_exit. Qed.

#[local] Instance run_timer_keeps a : Keeps P (run_timer a).
Proof. lifecycle run_timer. Qed.

#[local] Instance call_socket_listener_keeps k l msg decoded :
  Keeps P (call_socket_listener k l msg decoded).
Proof. lifecycle call_socket_listener. Qed.

#[local] Instance deliver_keeps k msg decoded : Keeps P (deliver k msg decoded).
Proof. lifecycle deliver. Qed.

Lemma new_JupyterKernel_keeps context spec runtimeId lsp :
  P (mkSys (mkKernel spec runtimeId lsp None None Uninitialized None None None None None
                     ∅ None None 0%Z None None None [OnStatusChange])
           context (mkLoop [] [] [] [] 0 None ∅ [] [] [] [] [] [])) →
  P (new_JupyterKernel context spec runtimeId lsp).
Proof.
  revert context spec runtimeId lsp.
  intros context spec runtimeId lsp H. open new_JupyterKernel.
  repeat first [ peel_body P P | peel_leaf P ].
Qed.

(** Every event but [terminal_closed]. *)
Theorem step_keeps e s :
  (∀ i exit, e ≠ terminal_closed i exit) → P s → P (step e s).
Proof.
  intros Hne H. destruct e; simpl;
    try (by destruct (Hne _ _ eq_refl));
    repeat first
      [ peel_body P P | peel_body P (@after Completion P)
      | lazymatch goal with
        | |- P (setStatus ?st _) => apply (Hstatus st); [done|]
        | |- P (set_created_terminals _ _) => apply Hcreated
        | |- P (set_process _ _) => apply Hprocess; [eauto|]
        end
      | peel_leaf P ].
Qed.

(** The closing of a terminal, when [setStatus Exited] keeps [P] too. *)
Lemma on_close_terminal_keeps l i :
  Keeps P (setStatus Exited) → Keeps P (on_close_terminal l i).
Proof. intros Hex. lifecycle on_close_terminal. Qed.

Theorem step_keeps_all e s : Keeps P (setStatus Exited) → P s → P (step e s).
Proof.
  intros Hex H. destruct e as [| | | | | | | | | | | | | | |i exit| | | | | | | |];
    try (apply step_keeps; [done|exact H]).
  simpl. apply keeps_foldl.
  - intros l s' H'. by apply on_close_terminal_keeps.
  - by apply (keeps (P:=P)).
Qed.

Theorem run_keeps es s : Keeps P (setStatus Exited) → P s → P (run es s).
Proof.
  intros Hex. unfold run. revert s.
  induction es as [|e es IH]; intros s H; simpl; [done|].
  by apply IH, step_keeps_all.
Qed.
End lifecycle.

(** ** The listeners of the status event *)

Lemma call_status_listener_listeners l st s :
  status_listeners (this (call_status_listener l st s))
  = listeners_after st l (status_listeners (this s)).
Proof.
  destruct l as [|p]; simpl.
  - pose proof (core_frame (f:=onStatusChange st) s) as H. unfold core in H. congruence.
  - unfold deferred_start_callback, listeners_after.
    destruct st; simpl; try reflexivity;
      match goal with
      | |- context [settle ?p ?v ?s] =>
          pose proof (core_frame (f:=settle p v) s) as H; unfold core in H; simpl in H;
          congruence
      end.
Qed.

Lemma foldl_status_listeners st snapshot s :
  status_listeners (this (foldl (λ s l, call_status_listener l st s) s snapshot))
  = foldl (λ ls l, listeners_after st l ls) (status_listeners (this s)) snapshot.
Proof.
  revert s. induction snapshot as [|l snapshot IH]; intros s; simpl; [done|].
  by rewrite IH, call_status_listener_listeners.
Qed.

Lemma emit_status_listeners st s :
  status_listeners (this (emit_status st s))
  = foldl (λ ls l, listeners_after st l ls) (status_listeners (this s))
          (status_listeners (this s)).
Proof. unfold emit_status. by rewrite foldl_status_listeners. Qed.

Lemma listeners_after_Initializing snapshot ls :
  foldl (λ ls l, listeners_after Initializing l ls) ls snapshot = ls.
Proof.
  revert ls. induction snapshot as [|[|p] snapshot IH]; intros ls; simpl; by rewrite ?IH.
Qed.

Lemma filter_deferred p (ps : list nat) :
  filter (λ x, x ≠ DeferredStart p) (OnStatusChange :: (DeferredStart <$> ps))
  = OnStatusChange :: (DeferredStart <$> filter (λ q, q ≠ p) ps).
Proof.
  rewrite filter_cons_True by done. f_equal.
  induction ps as [|q ps IH]; [done|]. rewrite fmap_cons.
  destruct (decide (q = p)) as [->|Hne].
  - rewrite !filter_cons_False by (intros H; by apply H). exact IH.
  - rewrite !filter_cons_True by congruence. by rewrite fmap_cons, IH.
Qed.

(** Once every callback of the snapshot has run for a status other than
    [Initializing], no deferred start is left. *)
Lemma listeners_after_all st (snapshot : list nat) (qs : list nat) :
  st ≠ Initializing →
  (∀ q, q ∈ qs → q ∈ snapshot) →
  foldl (λ ls l, listeners_after st l ls) (OnStatusChange :: (DeferredStart <$> qs))
        (DeferredStart <$> snapshot)
  = [OnStatusChange].
Proof.
  intros Hst. revert qs. induction snapshot as [|p snapshot IH]; intros qs Hsub; simpl.
  - destruct qs as [|q qs]; [done|]. by destruct (not_elem_of_nil q); apply Hsub; left.
  - rewrite bool_decide_eq_false_2 by done. rewrite filter_deferred. apply IH.
    intros q [Hq Hin]%list_elem_of_filter.
    apply Hsub in Hin. by inversion Hin; subst.
Qed.

Lemma emit_status_listeners_wf st s :
  listeners_wf s →
  status_listeners (this (emit_status st s))
  = if bool_decide (st = Initializing) then status_listeners (this s) else [OnStatusChange].
Proof.
  intros [[ps Hps] _]. rewrite emit_status_listeners. case_bool_decide as Hst.
  - subst st. apply listeners_after_Initializing.
  - rewrite Hps. simpl. by apply listeners_after_all.
Qed.

Lemma setStatus_listeners st s :
  listeners_wf s →
  status_listeners (this (setStatus st s))
  = if bool_decide (st = Initializing) then status_listeners (this s) else [OnStatusChange].
Proof. intros H. unfold setStatus. simpl. by apply emit_status_listeners_wf. Qed.

#[global] Instance CoreOnly_listeners_wf : CoreOnly listeners_wf.
Proof.
  intros s s' Heq H. unfold listeners_wf, core in *.
  assert (status_listeners (this s') = status_listeners (this s)) as -> by congruence.
  assert (_status (this s') = _status (this s)) as -> by congruence. exact H.
Qed.

#[global] Instance setStatus_listeners_wf st : Keeps listeners_wf (setStatus st).
Proof.
  intros s H. pose proof (setStatus_listeners st s H) as Hl.
  pose proof (setStatus_status st s) as Hs. destruct H as [[ps Hps] Hidle].
  unfold listeners_wf. rewrite Hl, Hs. case_bool_decide as Hst.
  - subst st. split; [by exists ps|done].
  - split; [by exists []|done].
Qed.

(** Every reachable state has well-formed listeners. *)
Theorem reachable_listeners_wf s : reachable s → listeners_wf s.
Proof.
  intros (context & spec & runtimeId & lsp & es & ->).
  apply (run_keeps listeners_wf).
  - intros st _. apply _.
  - by intros v s H.
  - by intros v s _ H.
  - intros p s Hi [[ps Hps] _]. split; [|by simpl].
    exists (ps ++ [p]). simpl. by rewrite Hps, fmap_app.
  - apply _.
  - apply (new_JupyterKernel_keeps listeners_wf).
    + intros st _. apply _.
    + split; [by exists []|done].
Qed.

(** ** The process handle *)

#[global] Instance CoreOnly_process_unset : CoreOnly process_unset.
Proof. intros s s' Heq H. unfold process_unset, core in *. congruence. Qed.

#[global] Instance setStatus_process_unset st : Keeps process_unset (setStatus st).
Proof. intros s H. unfold process_unset. by rewrite setStatus_process. Qed.

Lemma set_process_unset v s :
  is_Some (_process (this s)) → process_unset s → process_unset (set_process v s).
Proof. intros [x Hx] H. unfold process_unset in H. congruence. Qed.

(** Without a process handle there is none after any events either. *)
Lemma run_process_unset es s : process_unset s → process_unset (run es s).
Proof.
  apply (run_keeps process_unset).
  - intros st _. apply _.
  - by intros v s' H.
  - apply set_process_unset.
  - by intros p s' _ H.
  - apply _.
Qed.

(** No reachable state has a process handle: the constructor sets the field
    to null and no method assigns it. *)
Theorem reachable_process_unset s : reachable s → process_unset s.
Proof.
  intros (context & spec & runtimeId & lsp & es & ->).
  apply run_process_unset.
  apply (new_JupyterKernel_keeps process_unset); [|done].
  intros st _. apply _.
Qed.

(** ** Runs *)

Lemma run_app es1 es2 s : run (es1 ++ es2) s = run es2 (run es1 s).
Proof. apply foldl_app. Qed.

Lemma reachable_run es s : reachable s → reachable (run es s).
Proof.
  intros (context & spec & runtimeId & lsp & es0 & ->).
  exists context, spec, runtimeId, lsp, (es0 ++ es). by rewrite run_app.
Qed.

Lemma reachable_step e s : reachable s → reachable (step e s).
Proof. apply (reachable_run [e]). Qed.

Lemma example_ready_reachable : reachable example_ready.
Proof. by exists example_host, example_spec, "r-runtime", false, example_startup. Qed.

(** ** [setStatus] when no start is deferred *)

Lemma emit_status_idle st s :
  status_listeners (this s) = [OnStatusChange] →
  emit_status st s
  = onStatusChange st (set_status_events (status_events (loop s) ++ [st]) s).
Proof. intros H. unfold emit_status. simpl. by rewrite H. Qed.

Lemma setStatus_idle st s :
  status_listeners (this s) = [OnStatusChange] →
  setStatus st s
  = set_status st (onStatusChange st (set_status_events (status_events (loop s) ++ [st]) s)).
Proof. intros H. unfold setStatus. by rewrite emit_status_idle. Qed.

(** In a reachable state that is not [Initializing], no start is deferred. *)
Lemma reachable_idle s :
  reachable s → _status (this s) ≠ Initializing →
  status_listeners (this s) = [OnStatusChange].
Proof. intros Hr Hst. by apply (reachable_listeners_wf s Hr). Qed.
(** ** Basic facts *)

Lemma example_ready_status :
  _status (this example_ready) = Ready
  ∧ status_events (loop example_ready) = [Initializing; Starting; Ready]
  ∧ length (created_terminals (host example_ready)) = 1.
Proof. vm_compute. done. Qed.

Lemma get_set_socket d v s : get_socket d (this (set_socket d v s)) = v.
Proof. by destruct d. Qed.

Lemma get_set_socket_ne d d' v s :
  d ≠ d' → get_socket d' (this (set_socket d v s)) = get_socket d' (this s).
Proof. by destruct d, d'. Qed.

Lemma set_socket_inputRequests d v s :
  _inputRequests (this (set_socket d v s)) = _inputRequests (this s).
Proof. by destruct d. Qed.

Lemma set_socket_emitted d v s : emitted (loop (set_socket d v s)) = emitted (loop s).
Proof. by destruct d. Qed.

(** With a session bound and the destination socket in place, [sendToSocket]
    completes: it logs the message and hands its frames to the socket. *)
Lemma sendToSocket_connected id type dest parent message s k ss :
  get_socket dest (this s) = Some k →
  _session (this s) = Some ss →
  let h := mkHeader id type "5.0" (toISOString (now (host s)))
                    (sessionId (state ss)) (os_username (host s)) in
  let msg := mkMessage [] message h [] parent in
  sendToSocket id type dest parent message s
  = (Normal,
     set_socket dest (Some (socket_send (serializeJupyterMessage msg (key (state ss))) k))
       (appendLine (log_send type (title k) msg) s)).
Proof.
  intros Hk Hs. unfold sendToSocket, generateMessageHeader.
  rewrite Hs. simpl. rewrite Hk. simpl. by rewrite Hs.
Qed.

(** Without a session, or without the socket, it throws and sends nothing. *)
Lemma sendToSocket_disconnected id type dest parent message s :
  _session (this s) = None ∨ get_socket dest (this s) = None →
  ∃ e, sendToSocket id type dest parent message s = (Throw e, s).
Proof.
  intros H. unfold sendToSocket, generateMessageHeader.
  destruct (_session (this s)) as [ss|] eqn:Hs; simpl; [|eauto].
  destruct H as [H|H]; [done|]. rewrite H. eauto.
Qed.

(** ** Execute requests *)

(** C4: [execute(code, id, mode, errorBehavior)], on a kernel whose shell
    socket is connected and whose session is bound, sends on the shell
    channel one [execute_request] with the given id whose content has the
    given code, [allow_stdin] true iff the mode is not [Silent], [silent] true
    iff the mode is [Silent], [store_history] true iff the mode is
    [Interactive] and [stop_on_error] true iff the error behaviour is [Stop];
    for [Interactive] and [Stop] the content is
    [{code, allow_stdin: true, silent: false, store_history: true,
    stop_on_error: true}]. *)
Theorem execute_request_content (source id : string) mode errorBehavior s :
  is_Some (_shell (this s)) →
  is_Some (_session (this s)) →
  ∃ s' m signing_key r,
    execute source id mode errorBehavior s = (Normal, s')
    ∧ sent_on JupyterSockets.shell s'
      = (sent_on JupyterSockets.shell s ++ [serializeJupyterMessage m signing_key])%list
    ∧ msg_type (header m) = "execute_request"
    ∧ msg_id (header m) = id
    ∧ content m = execute_request r
    ∧ code r = source
    ∧ (allow_stdin r = true ↔ mode ≠ Silent)
    ∧ (silent r = true ↔ mode = Silent)
    ∧ (store_history r = true ↔ mode = Interactive)
    ∧ (stop_on_error r = true ↔ errorBehavior = Stop)
    ∧ (mode = Interactive → errorBehavior = Stop →
       r = mkExecuteRequest source true false true [] true).
Proof.
  intros [k Hk] [ss Hs]. unfold execute, send.
  rewrite (sendToSocket_connected _ _ JupyterSockets.shell _ _ s k ss Hk Hs).
  do 4 eexists. split; [reflexivity|].
  unfold sent_on. rewrite get_set_socket. simpl. rewrite Hk. simpl.
  repeat split; try apply bool_decide_eq_true;
    try (intros ?; by apply bool_decide_eq_true).
  intros -> ->. reflexivity.
Qed.

(** The scenario of the specification, on the running example. *)
Lemma execute_request_content_witness :
  ∃ s' m signing_key r,
    execute "1+1" "abc" Interactive Stop example_ready = (Normal, s')
    ∧ sent_on JupyterSockets.shell s'
      = (sent_on JupyterSockets.shell example_ready ++ [serializeJupyterMessage m signing_key])%list
    ∧ msg_type (header m) = "execute_request"
    ∧ msg_id (header m) = "abc"
    ∧ content m = execute_request r
    ∧ code r = "1+1"
    ∧ (allow_stdin r = true ↔ Interactive ≠ Silent)
    ∧ (silent r = true ↔ Interactive = Silent)
    ∧ (store_history r = true ↔ Interactive = Interactive)
    ∧ (stop_on_error r = true ↔ Stop = Stop)
    ∧ (Interactive = Interactive → Stop = Stop →
       r = mkExecuteRequest "1+1" true false true [] true).
Proof.
  apply (execute_request_content "1+1" "abc" Interactive Stop example_ready);
    vm_compute; eauto.
Defined.

(** Without a shell socket the call throws to its caller and nothing is sent. *)
Lemma execute_not_connected code id mode errorBehavior s :
  _shell (this s) = None →
  ∃ e, execute code id mode errorBehavior s = (Throw e, s).
Proof. intros H. apply sendToSocket_disconnected. by right. Qed.

(** ** Input requests and replies *)

(** The stdin listener records the header of an [input_request] under the
    message id of the request. *)
Lemma input_request_recorded (request : JupyterMessage) s :
  msg_type (header request) = "input_request" →
  _inputRequests (this (on_socket_message JupyterSockets.stdin (Some request) s))
    !! msg_id (header request) = Some (header request).
Proof.
  intros H. unfold on_socket_message, emitMessage. rewrite H. simpl.
  apply lookup_insert_eq.
Qed.


Lemma requests_keyed_on_socket_message socket decoded s :
  requests_keyed s → requests_keyed (on_socket_message socket decoded s).
Proof.
  intros Hk. unfold on_socket_message, emitMessage.
  destruct decoded as [msg|]; [|done].
  destruct (bool_decide (socket = JupyterSockets.stdin)
            && bool_decide (msg_type (header msg) = "input_request")); [|exact Hk].
  intros id h. simpl. intros [[<- <-]|[_ H]]%lookup_insert_Some; [done|by apply Hk].
Qed.

(** C5: [replyToPrompt(id, value)], on a kernel whose stdin socket is
    connected and whose session is bound, sends one [input_reply] carrying the
    value.  When [id] is in the table of pending input requests, the parent
    header of the reply is the recorded request header, and the entry is
    removed, so a later lookup of [id] finds nothing; when it is not, the
    reply is sent all the same, with the empty parent of a message that has no
    parent, and the table is unchanged. *)
Theorem replyToPrompt_correlates id value s :
  is_Some (_stdin (this s)) →
  is_Some (_session (this s)) →
  ∃ s' m signing_key,
    replyToPrompt id value s = (Normal, s')
    ∧ sent_on JupyterSockets.stdin s'
      = (sent_on JupyterSockets.stdin s ++ [serializeJupyterMessage m signing_key])%list
    ∧ msg_type (header m) = "input_reply"
    ∧ content m = input_reply value
    ∧ match _inputRequests (this s) !! id with
      | Some request =>
          parent_header m = parent_of request
          ∧ _inputRequests (this s') = delete id (_inputRequests (this s))
          ∧ _inputRequests (this s') !! id = None
      | None =>
          parent_header m = parent_empty
          ∧ _inputRequests (this s') = _inputRequests (this s)
      end.
Proof.
  intros [k Hk] [ss Hs]. unfold replyToPrompt, send.
  destruct (_inputRequests (this s) !! id) as [request|] eqn:Hid; simpl.
  - erewrite (sendToSocket_connected _ _ JupyterSockets.stdin); [|exact Hk|exact Hs].
    simpl. do 3 eexists. split; [reflexivity|].
    unfold sent_on. simpl. rewrite Hk. simpl.
    repeat split. apply lookup_delete_eq.
  - erewrite (sendToSocket_connected _ _ JupyterSockets.stdin); [|exact Hk|exact Hs].
    do 3 eexists. split; [reflexivity|].
    unfold sent_on. simpl. rewrite Hk. simpl. done.
Qed.



Lemma replyToPrompt_correlates_witness :
  ∃ s' m signing_key,
    replyToPrompt "req-7" "42" example_prompted = (Normal, s')
    ∧ sent_on JupyterSockets.stdin s'
      = (sent_on JupyterSockets.stdin example_prompted ++ [serializeJupyterMessage m signing_key])%list
    ∧ msg_type (header m) = "input_reply"
    ∧ content m = input_reply "42"
    ∧ match _inputRequests (this example_prompted) !! "req-7" with
      | Some request =>
          parent_header m = parent_of request
          ∧ _inputRequests (this s') = delete "req-7" (_inputRequests (this example_prompted))
          ∧ _inputRequests (this s') !! "req-7" = None
      | None =>
          parent_header m = parent_empty
          ∧ _inputRequests (this s') = _inputRequests (this example_prompted)
      end.
Proof.
  apply (replyToPrompt_correlates "req-7" "42" example_prompted); vm_compute; eauto.
Defined.

(** In the example the request was recorded, so the reply names it. *)
Lemma example_reply_parent :
  _inputRequests (this example_prompted) !! "req-7" = Some (header example_input_request)
  ∧ ∃ s' m signing_key,
      replyToPrompt "req-7" "42" example_prompted = (Normal, s')
      ∧ last (sent_on JupyterSockets.stdin s') = Some (serializeJupyterMessage m signing_key)
      ∧ parent_header m = parent_of (header example_input_request)
      ∧ _inputRequests (this s') !! "req-7" = None.
Proof.
  split; [by vm_compute|].
  do 3 eexists. split; [vm_compute; reflexivity|].
  split; [vm_compute; reflexivity|]. split; [reflexivity|]. by vm_compute.
Qed.

(** When the reply cannot be sent, the call throws before the entry is
    removed. *)
Lemma replyToPrompt_not_connected id value s :
  _stdin (this s) = None →
  ∃ e s', replyToPrompt id value s = (Throw e, s')
          ∧ _inputRequests (this s') = _inputRequests (this s).
Proof.
  intros H. unfold replyToPrompt, send, sendToSocket, generateMessageHeader.
  destruct (_inputRequests (this s) !! id) as [request|]; simpl;
    destruct (_session (this s)); simpl; rewrite ?H; simpl; eauto.
Qed.

(** ** Message emission *)

(** What [emitMessage] packages: one packet per message, with the channel
    tag, the content, the id, the type and the date of the message header.
    The origin id is the parent's message id when the parent slot holds a
    header, and the empty string when the slot is missing. *)
Lemma emitMessage_packet (tag : JupyterSockets.t) msg s :
  ∃ p, emitted (loop (emitMessage tag msg s)) = (emitted (loop s) ++ [p])%list
       ∧ type p = "jupyter-message"
       ∧ socket p = tag
       ∧ message p = content msg
       ∧ msgId p = msg_id (header msg)
       ∧ msgType p = msg_type (header msg)
       ∧ when p = date (header msg)
       ∧ (∀ h, parent_header msg = parent_of h → originId p = js_string (msg_id h))
       ∧ (parent_header msg = parent_missing → originId p = js_string "").
Proof.
  eexists. split; [reflexivity|]. simpl.
  repeat split; intros; by match goal with H : parent_header _ = _ |- _ => rewrite H end.
Qed.

(** A decoded message reaches [emitMessage] exactly once; a message that does
    not decode is dropped. *)
Lemma on_socket_message_emits socket msg s :
  emitted (loop (on_socket_message socket (Some msg) s))
  = emitted (loop (emitMessage socket msg s))
  ∧ length (emitted (loop (on_socket_message socket (Some msg) s)))
    = S (length (emitted (loop s)))
  ∧ emitted (loop (on_socket_message socket None s)) = emitted (loop s).
Proof.
  unfold on_socket_message, emitMessage.
  destruct (bool_decide _ && bool_decide _); simpl; rewrite length_app; simpl;
    repeat split; lia.
Qed.

(** C9: an inbound message that has no parent carries the empty object in its
    parent slot, as the messages this class sends do; [emitMessage] packages
    it with the origin id [undefined], not with the empty string. *)
Theorem emitMessage_origin_without_parent socket payload h s :
  let msg := mkMessage [] payload h [] parent_empty in
  ∃ p, emitted (loop (on_socket_message socket (Some msg) s))
       = (emitted (loop s) ++ [p])%list
       ∧ msgId p = msg_id h
       ∧ originId p = js_undefined
       ∧ originId p ≠ js_string "".
Proof.
  intros msg. eexists. split.
  - unfold on_socket_message, emitMessage.
    destruct (bool_decide _ && bool_decide _); reflexivity.
  - done.
Qed.

(** ** A terminal closes *)

#[global] Instance CoreOnly_no_exit_since ev : CoreOnly (no_exit_since ev).
Proof.
  intros s s' Heq (more & H & Hm). exists more. split; [|done].
  unfold core in Heq. congruence.
Qed.

Lemma setStatus_no_exit_since ev st :
  st ≠ Exited → Keeps (no_exit_since ev) (setStatus st).
Proof.
  intros Hst s (more & H & Hm). exists (more ++ [st]).
  rewrite setStatus_events, H, app_assoc. split; [done|].
  rewrite elem_of_app, list_elem_of_singleton. intros [?|?]; [done|congruence].
Qed.

(** No event but the closing of a terminal emits [Exited]. *)
Lemma step_no_exit e s :
  (∀ i exit, e ≠ terminal_closed i exit) →
  Exited ∉ new_status_events s (step e s).
Proof.
  intros Hne.
  assert (no_exit_since (status_events (loop s)) (step e s)) as (more & H & Hm).
  { apply (step_keeps (no_exit_since (status_events (loop s)))).
    - intros st Hst. by apply setStatus_no_exit_since.
    - by intros v s' H.
    - by intros v s' _ H.
    - by intros p s' _ H.
    - exact Hne.
    - exists []. split; [by rewrite app_nil_r|apply not_elem_of_nil]. }
  unfold new_status_events. by rewrite H, drop_app_length.
Qed.

(** The listener, for a close event it does not ignore. *)
Lemma on_close_terminal_exited l closed exit_code s :
  name <$> terminals (host s) !! closed = Some (display_name (_spec (this s))) →
  exitStatus_code (terminals (host s) !! close_terminal l) = Some exit_code →
  on_close_terminal l closed s
  = let s := if bool_decide (_status (this s) = Starting)
             then appendLine (log_failed_to_start exit_code) s
             else appendLine (log_exited_with_code exit_code) (setStatus Exited s) in
    set_close_listeners (filter (λ x, close_id x ≠ close_id l) (close_listeners (loop s))) s.
Proof.
  intros Hname Hcode. unfold on_close_terminal.
  rewrite bool_decide_eq_false_2 by (intros H; by apply H).
  by rewrite Hcode.
Qed.

Lemma on_close_terminal_starting l closed s0 s :
  _status (this s0) = Starting →
  only_logged is_failed_to_start s0 s →
  only_logged is_failed_to_start s0 (on_close_terminal l closed s).
Proof.
  intros Hst (lines & ls & Hlines & ->). unfold on_close_terminal.
  case_bool_decide; [by exists lines, ls|].
  destruct (exitStatus_code _) as [exit_code|]; [|by exists lines, ls].
  simpl. rewrite bool_decide_eq_true_2 by done.
  eexists (lines ++ [log_failed_to_start exit_code]), _. split.
  - apply Forall_app. split; [done|]. apply Forall_singleton. by eexists.
  - unfold appendLine. simpl. rewrite <-app_assoc. reflexivity.
Qed.

Lemma only_logged_core allowed s s' :
  only_logged allowed s s' →
  _status (this s') = _status (this s)
  ∧ status_events (loop s') = status_events (loop s)
  ∧ this s' = this s
  ∧ workspaceState (host s') = workspaceState (host s)
  ∧ files (host s') = files (host s)
  ∧ terminals (host s') = terminals (host s)
  ∧ timers (host s') = timers (host s).
Proof. by intros (lines & ls & _ & ->). Qed.

(** C10: while the status is [Starting], the closing of the kernel's terminal
    with an exit code makes no transition: the failure is written to the
    output channel, the listener is removed, and status, sockets, session
    files, storage and timers are as before.  In any other status the same
    event makes the transition to [Exited].  No other event ever emits
    [Exited], and a close event emits it only when the status is not
    [Starting]. *)
Theorem terminal_closed_while_starting :
  (∀ l closed exit_code s,
     name <$> terminals (host s) !! closed = Some (display_name (_spec (this s))) →
     exitStatus_code (terminals (host s) !! close_terminal l) = Some exit_code →
     _status (this s) = Starting →
     on_close_terminal l closed s
     = set_close_listeners (filter (λ x, close_id x ≠ close_id l) (close_listeners (loop s)))
         (appendLine (log_failed_to_start exit_code) s))
  ∧ (∀ i exit s,
       _status (this s) = Starting →
       let closed := set_terminals (alter (terminal_close exit) i (terminals (host s))) s in
       let s' := step (terminal_closed i exit) s in
       _status (this s') = Starting
       ∧ new_status_events s s' = []
       ∧ only_logged is_failed_to_start closed s')
  ∧ (∀ l closed exit_code s,
       name <$> terminals (host s) !! closed = Some (display_name (_spec (this s))) →
       exitStatus_code (terminals (host s) !! close_terminal l) = Some exit_code →
       _status (this s) ≠ Starting →
       let s' := on_close_terminal l closed s in
       _status (this s') = Exited ∧ new_status_events s s' = [Exited])
  ∧ (∀ e s,
       Exited ∈ new_status_events s (step e s) →
       (∃ i exit, e = terminal_closed i exit) ∧ _status (this s) ≠ Starting).
Proof.
  assert (∀ i exit s, _status (this s) = Starting →
            only_logged is_failed_to_start
              (set_terminals (alter (terminal_close exit) i (terminals (host s))) s)
              (step (terminal_closed i exit) s)) as Hquiet.
  { intros i exit s Hst. simpl.
    set (s0 := set_terminals _ s).
    change (close_listeners (loop s)) with (close_listeners (loop s0)).
    generalize (close_listeners (loop s0)). intros listeners.
    apply (keeps_foldl (only_logged is_failed_to_start s0)).
    - intros l s1 H. by apply on_close_terminal_starting.
    - exists [], (close_listeners (loop s0)). split; [done|].
      by rewrite app_nil_r. }
  split; [|split; [|split]].
  - intros l closed exit_code s Hname Hcode Hst.
    rewrite (on_close_terminal_exited _ _ exit_code) by done.
    simpl. by rewrite bool_decide_eq_true_2.
  - intros i exit s Hst closed s'. subst closed s'.
    destruct (only_logged_core _ _ _ (Hquiet i exit s Hst)) as (Hs & He & _).
    split; [by rewrite Hs|]. split; [|by apply Hquiet].
    unfold new_status_events. rewrite He. simpl. apply drop_all.
  - intros l closed exit_code s Hname Hcode Hst s'. subst s'.
    rewrite (on_close_terminal_exited _ _ exit_code) by done.
    simpl. rewrite bool_decide_eq_false_2 by done. simpl.
    split; [done|].
    unfold new_status_events. simpl.
    by rewrite ?setStatus_events, ?emit_status_events, drop_app_length.
  - intros e s Hin.
    assert ((∃ i exit, e = terminal_closed i exit) ∨ ∀ i exit, e ≠ terminal_closed i exit)
      as [(i & exit & ->)|Hne] by (destruct e; eauto).
    + split; [by eauto|]. intros Hst.
      destruct (only_logged_core _ _ _ (Hquiet i exit s Hst)) as (_ & He & _).
      unfold new_status_events in Hin. rewrite He in Hin. simpl in Hin.
      rewrite drop_all in Hin. by apply not_elem_of_nil in Hin.
    + by destruct (step_no_exit e s).
Qed.

(** ** Starting a kernel that is running *)

(** C8 (as stated): start() in state [Ready] is not rejected.  In the running
    example the promise of the call is fulfilled and nothing is raised to the
    caller. *)
Lemma start_when_ready_is_not_rejected :
  _status (this example_ready) = Ready
  ∧ promises (loop (step call_start example_ready)) !! fresh (host example_ready)
    = Some fulfilled
  ∧ (¬ ∃ e, promises (loop (step call_start example_ready)) !! fresh (host example_ready)
            = Some (rejected e))
  ∧ raised (loop (step call_start example_ready)) = [].
Proof.
  split; [by vm_compute|].
  assert (promises (loop (step call_start example_ready)) !! fresh (host example_ready)
          = Some fulfilled) as H by (by vm_compute).
  split; [exact H|]. split; [|by vm_compute].
  intros [e He]. congruence.
Qed.

(** C8 (amended): start() in a state other than [Uninitialized], [Exited] and
    [Initializing] is a logged no-op.  The attempt is written to the output
    channel with the current state, the promise of the call is fulfilled, and
    the state, the status events, the terminals asked for and the pending
    session requests are as before. *)
Theorem start_when_running_is_ignored p s :
  _status (this s) ≠ Uninitialized →
  _status (this s) ≠ Exited →
  _status (this s) ≠ Initializing →
  promises (loop s) !! p = None →
  start p s = settle p fulfilled (appendLine (log_already_ignoring (_status (this s))) s)
  ∧ promises (loop (start p s)) !! p = Some fulfilled
  ∧ channel (host (start p s)) = channel (host s) ++ [log_already_ignoring (_status (this s))]
  ∧ this (start p s) = this s
  ∧ status_events (loop (start p s)) = status_events (loop s)
  ∧ created_terminals (host (start p s)) = created_terminals (host s)
  ∧ awaiting_session (loop (start p s)) = awaiting_session (loop s)
  ∧ timers (host (start p s)) = timers (host s).
Proof.
  intros Hu He Hi Hp.
  assert (start p s
          = settle p fulfilled (appendLine (log_already_ignoring (_status (this s))) s)) as ->.
  { unfold start. rewrite bool_decide_eq_false_2 by done.
    by rewrite !bool_decide_eq_true_2 by done. }
  unfold settle. simpl. rewrite Hp. simpl.
  split_and!; try done. apply lookup_insert_eq.
Qed.

Lemma start_when_running_is_ignored_witness :
  start 6 example_ready
  = settle 6 fulfilled (appendLine (log_already_ignoring (_status (this example_ready)))
                                   example_ready)
  ∧ promises (loop (start 6 example_ready)) !! 6 = Some fulfilled
  ∧ channel (host (start 6 example_ready))
    = channel (host example_ready) ++ [log_already_ignoring (_status (this example_ready))]
  ∧ this (start 6 example_ready) = this example_ready
  ∧ status_events (loop (start 6 example_ready)) = status_events (loop example_ready)
  ∧ created_terminals (host (start 6 example_ready)) = created_terminals (host example_ready)
  ∧ awaiting_session (loop (start 6 example_ready)) = awaiting_session (loop example_ready)
  ∧ timers (host (start 6 example_ready)) = timers (host example_ready).
Proof.
  apply (start_when_running_is_ignored 6 example_ready); by vm_compute.
Defined.

(** ** Shutdown and restart *)

(** A status change other than to [Exited] leaves the connection alone. *)
Lemma call_status_listener_connection c l st :
  st ≠ Exited → Keeps (connection_is c) (call_status_listener l st).
Proof.
  intros Hst s H. destruct l as [|p]; simpl.
  - destruct st; try done. simpl. by destruct (_ && _).
  - unfold deferred_start_callback, settle.
    destruct st; try done; simpl;
      repeat match goal with |- context [match ?x with _ => _ end] => destruct x end;
      exact H.
Qed.

Lemma setStatus_connection st s : st ≠ Exited → connection (setStatus st s) = connection s.
Proof.
  intros Hst. unfold setStatus, emit_status.
  change (connection_is (connection s)
            (set_status st
               (foldl (λ s l, call_status_listener l st s)
                      (set_status_events (status_events (loop s) ++ [st]) s)
                      (status_listeners (this s))))).
  assert (∀ s', connection_is (connection s) s' → connection_is (connection s) (set_status st s'))
    as Hset by (by intros s' H).
  apply Hset, (keeps_foldl (connection_is (connection s))); [|done].
  intros l s' H. by apply call_status_listener_connection.
Qed.

(** [shutdown] sets the status to [Exiting] and, with the control socket and
    a session in place, sends one [shutdown_request] on the control channel. *)
Lemma shutdown_sends r s :
  is_Some (_control (this s)) →
  is_Some (_session (this s)) →
  ∃ s' m signing_key,
    shutdown r s = (Normal, s')
    ∧ _status (this s') = Exiting
    ∧ new_status_events s s' = [Exiting]
    ∧ sent_on JupyterSockets.control s'
      = sent_on JupyterSockets.control s ++ [serializeJupyterMessage m signing_key]
    ∧ msg_type (header m) = "shutdown_request"
    ∧ content m = shutdown_request r.
Proof.
  intros [k Hk] [ss Hs]. unfold shutdown.
  pose proof (setStatus_connection Exiting s ltac:(done)) as Hc.
  pose proof (setStatus_status Exiting s) as Hst.
  pose proof (setStatus_events Exiting s) as Hev.
  revert Hc Hst Hev. generalize (setStatus Exiting s). intros s1 Hc Hst Hev.
  assert (_control (this s1) = Some k ∧ _session (this s1) = Some ss) as [Hk1 Hs1].
  { unfold connection in Hc. split; [rewrite <-Hk|rewrite <-Hs]; congruence. }
  unfold uuidv4, send.
  erewrite (sendToSocket_connected _ _ JupyterSockets.control); [|exact Hk1|exact Hs1].
  do 3 eexists. split; [reflexivity|]. simpl. split; [exact Hst|].
  split; [unfold new_status_events; simpl; by rewrite Hev, drop_app_length|].
  unfold sent_on. simpl. by rewrite Hk.
Qed.

#[global] Instance CoreOnly_process_is c : CoreOnly (process_is c).
Proof. intros s s' Heq H. unfold process_is, core in *. congruence. Qed.

#[global] Instance setStatus_process_is c st : Keeps (process_is c) (setStatus st).
Proof. intros s H. unfold process_is. by rewrite setStatus_process. Qed.

Lemma shutdown_process r s : _process (this (shutdown r s).2) = _process (this s).
Proof.
  change (after (process_is (_process (this s))) (shutdown r s)).
  assert (process_is (_process (this s)) s) by done.
  open shutdown. peel (process_is (_process (this s))).
Qed.

(** When the object has no process handle, [restart] is the status change
    and the shutdown request, and nothing more. *)
Lemma restart_without_process s :
  _process (this s) = None →
  restart s = shutdown true (setStatus Exiting s).
Proof.
  intros Hp. unfold restart.
  pose proof (shutdown_process true (setStatus Exiting s)) as Hp'.
  rewrite setStatus_process, Hp in Hp'.
  destruct (shutdown true (setStatus Exiting s)) as [[|e] s']; simpl; [|done].
  simpl in Hp'. by rewrite Hp'.
Qed.

(** C3: in every state the object can reach, [restart] does set the status
    to [Exiting] and go through [shutdown], but the listener for the exit of
    the process is never registered, because there is no process handle: the
    handle is still missing after [restart], and in no later state does the
    exit of the process start the kernel again. *)
Theorem restart_never_starts_again context spec runtimeId lsp es :
  let s := run es (new_JupyterKernel context spec runtimeId lsp) in
  restart s = shutdown true (setStatus Exiting s)
  ∧ _process (this (restart s).2) = None
  ∧ ∀ later, step process_exit (run later (restart s).2) = run later (restart s).2.
Proof.
  intros s.
  assert (reachable s) as Hr by (by exists context, spec, runtimeId, lsp, es).
  pose proof (reachable_process_unset s Hr) as Hp.
  assert (reachable (step call_restart s)) as Hr' by (by apply reachable_step).
  split; [by apply restart_without_process|].
  assert (_process (this (restart s).2) = None) as Hp'.
  { pose proof (reachable_process_unset _ Hr') as H. simpl in H.
    unfold process_unset in H. by destruct (restart s) as [[|e] s']. }
  split; [exact Hp'|]. intros later.
  assert (process_unset (run later (restart s).2)) as H
    by (by apply run_process_unset).
  unfold process_unset in H. simpl. by rewrite H.
Qed.

(** The running example: restart, then the terminal closes with exit code 0
    and the process is gone.  The shutdown request went out and the status
    went through [Exiting] to [Exited]; no second terminal was asked for, no
    start is under way, and nothing is left that could start one. *)
Lemma example_restart :
  let s := run [call_restart; terminal_closed 0 (Some (Some 0%Z)); process_exit] example_ready in
  _status (this s) = Exited
  ∧ status_events (loop s) = [Initializing; Starting; Ready; Exiting; Exiting; Exited]
  ∧ length (created_terminals (host s)) = 1
  ∧ awaiting_session (loop s) = []
  ∧ open_listeners (loop s) = []
  ∧ timers (host s) = []
  ∧ status_listeners (this s) = [OnStatusChange].
Proof. by vm_compute. Qed.

(** ** A start that arrives while the kernel is initializing *)

(** Queued: the call only writes a line and subscribes to the status event. *)
Lemma start_deferred p s :
  _status (this s) = Initializing →
  start p s
  = set_status_listeners (status_listeners (this s) ++ [DeferredStart p])
      (appendLine log_deferring s).
Proof. intros H. unfold start. by rewrite bool_decide_eq_true_2. Qed.

(** The subscription ignores [Initializing]. *)
Lemma deferred_start_callback_Initializing p s :
  deferred_start_callback p Initializing s = s.
Proof. reflexivity. Qed.

(** On [Uninitialized] it unsubscribes and schedules one timer that will run
    the start again; nothing of the start runs in the callback itself. *)
Lemma deferred_start_callback_Uninitialized p s :
  deferred_start_callback p Uninitialized s
  = set_fresh (S (fresh (host s)))
      (set_timers (timers (host s) ++ [mkTimer (fresh (host s)) 0 (run_deferred_start p)])
         (appendLine log_performing_deferred_start
            (set_status_listeners
               (filter (λ l, l ≠ DeferredStart p) (status_listeners (this s))) s))).
Proof. reflexivity. Qed.

(** On any other status it unsubscribes and rejects the promise of the call
    with an error that names the status. *)
Lemma deferred_start_callback_other p st s :
  st ≠ Initializing → st ≠ Uninitialized →
  deferred_start_callback p st s
  = settle p (rejected (Error_kernel_already st))
      (appendLine (log_skipping_deferred_start st)
         (set_status_listeners
            (filter (λ l, l ≠ DeferredStart p) (status_listeners (this s))) s)).
Proof. intros Hi Hu. by destruct st. Qed.

(** A timer that is pending fires by running its action, once. *)
Lemma timer_fired_runs id ms a s :
  filter (λ t, timer_id t = id) (timers (host s)) = [mkTimer id ms a] →
  step (timer_fired id) s = run_timer a (clearTimeout id s)
  ∧ ∀ t, t ∈ timers (host (clearTimeout id s)) → timer_id t ≠ id.
Proof.
  intros H. simpl. rewrite H. split; [done|].
  intros t. unfold clearTimeout. simpl. by intros [? _]%list_elem_of_filter.
Qed.

(** Two calls of start() in a row on a kernel that is not running, then the
    session of the first call is ready. *)
Lemma start_twice s session c :
  status_listeners (this s) = [OnStatusChange] →
  _status (this s) = Uninitialized ∨ _status (this s) = Exited →
  promises (loop s) !! S (fresh (host s)) = None →
  let first := fresh (host s) in
  let second := S (fresh (host s)) in
  let s1 := run [call_start; call_start] s in
  let s2 := step (session_created first session c) s1 in
  _status (this s1) = Initializing
  ∧ created_terminals (host s1) = created_terminals (host s)
  ∧ awaiting_session (loop s1) = awaiting_session (loop s) ++ [first]
  ∧ status_listeners (this s1) = [OnStatusChange; DeferredStart second]
  ∧ promises (loop s1) = promises (loop s)
  ∧ _status (this s2) = Starting
  ∧ (∃ options, created_terminals (host s2) = created_terminals (host s) ++ [options]
                ∧ opt_name options = display_name (_spec (this s)))
  ∧ promises (loop s2) !! second = Some (rejected (Error_kernel_already Starting))
  ∧ status_listeners (this s2) = [OnStatusChange]
  ∧ new_status_events s s2 = [Initializing; Starting].
Proof.
  intros Hl Hst Hp first second s1 s2.
  assert (step call_start s
          = set_awaiting_session (awaiting_session (loop s) ++ [first])
              (set_status Initializing
                 (set_status_events (status_events (loop s) ++ [Initializing])
                    (set_fresh (S first) s)))) as Ha.
  { simpl. unfold start. simpl.
    rewrite ?setStatus_idle, ?emit_status_idle by exact Hl.
    by destruct Hst as [-> | ->]. }
  assert (s1 = set_status_listeners [OnStatusChange; DeferredStart second]
                 (appendLine log_deferring
                    (set_fresh (S second) (step call_start s)))) as Hb.
  { subst s1. change (run [call_start; call_start] s) with (step call_start (step call_start s)).
    rewrite Ha. simpl. unfold start. simpl. by rewrite Hl. }
  assert (_status (this s1) = Initializing) as Hs1 by (by rewrite Hb, Ha).
  assert (created_terminals (host s1) = created_terminals (host s)) as Hc1
    by (by rewrite Hb, Ha).
  assert (awaiting_session (loop s1) = awaiting_session (loop s) ++ [first]) as Ha1
    by (by rewrite Hb, Ha).
  assert (status_listeners (this s1) = [OnStatusChange; DeferredStart second]) as Hl1
    by (by rewrite Hb).
  assert (promises (loop s1) = promises (loop s)) as Hp1 by (by rewrite Hb, Ha).
  assert (status_events (loop s1) = status_events (loop s) ++ [Initializing]) as He1
    by (by rewrite Hb, Ha).
  assert (_spec (this s1) = _spec (this s)) as Hspec by (by rewrite Hb, Ha).
  assert (s2 = start_with_session first session
                 (set_files (<[connectionFile (state session) := connection_json c]>
                               (files (host s1)))
                    (set_awaiting_session
                       (filter (λ x, x ≠ first) (awaiting_session (loop s1))) s1))) as Hs2.
  { subst s2. simpl. by rewrite bool_decide_eq_true_2
      by (rewrite Ha1; apply elem_of_app; right; by left). }
  clearbody s1 s2. subst s2. unfold start_with_session.
  set (s3 := if bool_decide (_ ∈ _) then _ else _).
  assert (status_listeners (this s3) = [OnStatusChange; DeferredStart second]
          ∧ promises (loop s3) !! second = None
          ∧ status_events (loop s3) = status_events (loop s) ++ [Initializing]
          ∧ created_terminals (host s3) = created_terminals (host s)
          ∧ _spec (this s3) = _spec (this s)) as (Hl3 & Hp3 & He3 & Hc3 & Hspec3).
  { subst s3. destruct (bool_decide _); simpl; by rewrite Hl1, Hp1, He1, Hc1, Hspec. }
  clearbody s3.
  assert (setStatus Starting s3
          = set_status Starting
              (settle second (rejected (Error_kernel_already Starting))
                 (appendLine (log_skipping_deferred_start Starting)
                    (set_status_listeners [OnStatusChange]
                       (set_status_events (status_events (loop s3) ++ [Starting]) s3)))))
    as Hstart.
  { unfold setStatus, emit_status. simpl. rewrite Hl3. simpl. rewrite Hl3.
    rewrite filter_cons_True by done.
    by rewrite filter_cons_False by (intros H; by apply H). }
  simpl. rewrite Hstart. unfold settle. simpl. rewrite Hp3. simpl.
  destruct (bool_decide (is_Some (env _))); simpl;
    (split_and!; try done;
     first [ rewrite Hc3, Hspec; by eexists
           | apply lookup_insert_eq
           | unfold new_status_events; simpl;
             by rewrite He3, <-app_assoc, drop_app_length ]).
Qed.

(** C1: a start() that arrives while the status is [Initializing] runs none
    of the start logic: it writes a line and subscribes to the status event,
    and status, status events, pending sessions, timers, promises and the
    terminals asked for are as before.  The subscription ignores
    [Initializing]; on [Uninitialized] it unsubscribes and schedules exactly
    one timer whose action runs the start again on a later tick; on any other
    status it unsubscribes and rejects the promise of the call with an error
    naming that status.  Hence, in any reachable state that is
    [Uninitialized] or [Exited], two calls of start() in a row ask for
    exactly one terminal: the second call is queued and, when the first call
    moves on to [Starting], rejected. *)
Theorem start_while_initializing :
  (∀ p s,
     _status (this s) = Initializing →
     start p s = set_status_listeners (status_listeners (this s) ++ [DeferredStart p])
                   (appendLine log_deferring s)
     ∧ _status (this (start p s)) = Initializing
     ∧ status_events (loop (start p s)) = status_events (loop s)
     ∧ created_terminals (host (start p s)) = created_terminals (host s)
     ∧ awaiting_session (loop (start p s)) = awaiting_session (loop s)
     ∧ timers (host (start p s)) = timers (host s)
     ∧ promises (loop (start p s)) = promises (loop s))
  ∧ (∀ p s,
       deferred_start_callback p Initializing s = s
       ∧ let s' := deferred_start_callback p Uninitialized s in
         timers (host s') = timers (host s) ++ [mkTimer (fresh (host s)) 0 (run_deferred_start p)]
         ∧ (DeferredStart p ∉ status_listeners (this s'))
         ∧ promises (loop s') = promises (loop s)
         ∧ created_terminals (host s') = created_terminals (host s)
         ∧ awaiting_session (loop s') = awaiting_session (loop s)
         ∧ _status (this s') = _status (this s)
         ∧ ∀ s'', run_timer (run_deferred_start p) s'' = start p s'')
  ∧ (∀ p st s,
       st ≠ Initializing → st ≠ Uninitialized →
       promises (loop s) !! p = None →
       let s' := deferred_start_callback p st s in
       promises (loop s') !! p = Some (rejected (Error_kernel_already st))
       ∧ Error_message (Error_kernel_already st) = "Kernel already '" +:+ RuntimeState_value st +:+ "'"
       ∧ (DeferredStart p ∉ status_listeners (this s'))
       ∧ timers (host s') = timers (host s)
       ∧ created_terminals (host s') = created_terminals (host s))
  ∧ (∀ s session c,
       reachable s →
       _status (this s) = Uninitialized ∨ _status (this s) = Exited →
       promises (loop s) !! S (fresh (host s)) = None →
       let s1 := run [call_start; call_start] s in
       let s2 := step (session_created (fresh (host s)) session c) s1 in
       created_terminals (host s1) = created_terminals (host s)
       ∧ status_listeners (this s1) = [OnStatusChange; DeferredStart (S (fresh (host s)))]
       ∧ (∃ options, created_terminals (host s2) = created_terminals (host s) ++ [options]
                     ∧ opt_name options = display_name (_spec (this s)))
       ∧ promises (loop s2) !! S (fresh (host s))
         = Some (rejected (Error_kernel_already Starting))
       ∧ status_listeners (this s2) = [OnStatusChange]).
Proof.
  split_and!.
  - intros p s H. by rewrite start_deferred.
  - intros p s. split; [done|]. simpl. split_and!; try done.
    intros [H _]%list_elem_of_filter. by apply H.
  - intros p st s Hi Hu Hp s'. subst s'. rewrite deferred_start_callback_other by done.
    unfold settle. simpl. rewrite Hp. simpl. split_and!; try done.
    + apply lookup_insert_eq.
    + intros [H _]%list_elem_of_filter. by apply H.
  - intros s session c Hr Hst Hp s1 s2.
    assert (status_listeners (this s) = [OnStatusChange]) as Hl.
    { apply reachable_idle; [done|]. by destruct Hst as [-> | ->]. }
    pose proof (start_twice s session c Hl Hst Hp) as H. simpl in H.
    by destruct H as (_ & ? & _ & ? & _ & _ & ? & ? & ? & _).
Qed.

(** The retry, in an example: a kernel is constructed over a persisted session
    whose terminal is gone, start() is called at once and is queued; the scan
    comes back empty, the status returns to [Uninitialized], the queued start
    is scheduled, and when its timer fires it runs as an ordinary start.  One
    terminal is asked for. *)
Lemma example_deferred_retry :
  _status (this example_reconnecting) = Initializing
  ∧ (let s := step call_start example_reconnecting in
     status_listeners (this s) = [OnStatusChange; DeferredStart 0]
     ∧ created_terminals (host s) = [])
  ∧ (let s := run [call_start; terminals_scanned] example_reconnecting in
     _status (this s) = Uninitialized
     ∧ timers (host s) = [mkTimer 1 0 (run_deferred_start 0)]
     ∧ status_listeners (this s) = [OnStatusChange]
     ∧ created_terminals (host s) = [])
  ∧ (let s := run [call_start; terminals_scanned; timer_fired 1;
                   session_created 0 (mkSession example_state) example_ports]
                  example_reconnecting in
     _status (this s) = Starting
     ∧ status_events (loop s) = [Initializing; Uninitialized; Initializing; Starting]
     ∧ length (created_terminals (host s)) = 1
     ∧ timers (host s) = []).
Proof. by vm_compute. Qed.

(** ** Reconnecting *)

Lemma window_terminals_spec h i :
  i ∈ window_terminals h ↔ ∃ t, terminals h !! i = Some t ∧ terminal_open t = true.
Proof.
  unfold window_terminals. rewrite list_elem_of_filter, elem_of_seq. split.
  - intros [H _]. destruct (terminals h !! i) as [t|] eqn:Ht; [|done].
    exists t. split; [done|]. simpl in H. congruence.
  - intros (t & Ht & Hopen). split; [rewrite Ht; simpl; congruence|].
    apply lookup_lt_Some in Ht. lia.
Qed.

Lemma scan_terminal_table st i s :
  scan_terminal st i s
  = set_terminals (scan_step (display_name (_spec (this s))) st i (terminals (host s))) s.
Proof.
  unfold scan_terminal, scan_step, is_stale, dispose_terminal.
  destruct (terminals (host s) !! i) as [t|]; [|done]. by destruct (_ && _).
Qed.

Lemma scan_fold_table st ids s :
  foldl (λ s i, scan_terminal st i s) s ids
  = set_terminals
      (foldl (λ table i, scan_step (display_name (_spec (this s))) st i table)
             (terminals (host s)) ids) s.
Proof.
  revert s. induction ids as [|i ids IH]; intros s; simpl; [done|].
  rewrite scan_terminal_table, IH. reflexivity.
Qed.

Lemma is_stale_dispose dn st t : is_stale dn st (terminal_dispose t) = is_stale dn st t.
Proof. reflexivity. Qed.

Lemma scan_step_lookup dn st i table j :
  scan_step dn st i table !! j
  = (λ t, if bool_decide (j = i) && is_stale dn st t then terminal_dispose t else t)
      <$> table !! j.
Proof.
  unfold scan_step. destruct (decide (j = i)) as [->|Hne].
  - rewrite bool_decide_eq_true_2 by done. simpl.
    destruct (table !! i) as [t|] eqn:Ht; simpl; [|by rewrite Ht].
    destruct (is_stale dn st t); [|by rewrite Ht].
    by rewrite list_lookup_alter_eq, Ht.
  - rewrite bool_decide_eq_false_2 by done. simpl.
    destruct (table !! i) as [t|] eqn:Ht; [|by destruct (table !! j)].
    destruct (is_stale dn st t); [|by destruct (table !! j)].
    rewrite list_lookup_alter_ne by done. by destruct (table !! j).
Qed.

(** After the scan, exactly the stale terminals among those scanned have been
    disposed; every other entry of the table is as it was. *)
Lemma scan_table_lookup dn st ids table j :
  foldl (λ table i, scan_step dn st i table) table ids !! j
  = (λ t, if bool_decide (j ∈ ids) && is_stale dn st t then terminal_dispose t else t)
      <$> table !! j.
Proof.
  revert table. induction ids as [|i ids IH]; intros table; simpl.
  - by destruct (table !! j).
  - rewrite IH, scan_step_lookup. destruct (table !! j) as [t|]; [|done]. simpl. f_equal.
    destruct (is_stale dn st t) eqn:Hs.
    + repeat case_bool_decide; simpl; rewrite ?is_stale_dispose, ?Hs; simpl;
        try done; exfalso;
        match goal with
        | H : ¬ (_ ∈ _ :: _) |- _ => apply H; subst; first [by left | by right]
        | H : _ ∈ _ :: _ |- _ => by apply elem_of_cons in H as [?|?]
        end.
    + repeat case_bool_decide; simpl; by rewrite ?Hs.
Qed.

(** The state the constructor leaves when it finds persisted session state. *)
Lemma new_JupyterKernel_reconnecting context spec runtimeId lsp sessionState :
  workspaceState context !! runtimeId = Some sessionState →
  new_JupyterKernel context spec runtimeId lsp
  = set_scanning (Some (mkScan sessionState (window_terminals context)))
      (appendLine (log_found_record (processId sessionState)
                                    (length (window_terminals context)))
         (set_status Initializing
            (set_status_events [Initializing]
               (mkSys (mkKernel spec runtimeId lsp None None Uninitialized None None None None
                                None ∅ None None 0%Z None None None [OnStatusChange])
                      context (mkLoop [] [] [] [] 0 None ∅ [] [] [] [] [] []))))).
Proof.
  intros H. unfold new_JupyterKernel. rewrite H. unfold reconnect.
  by rewrite !setStatus_idle, ?emit_status_idle.
Qed.

(** C6: a supervisor constructed over persisted session state is
    [Initializing].  Once the process ids of the open terminals are known,
    every open terminal that bears the kernel's display name with a process
    id other than the persisted one has been disposed; and when no open
    terminal has the persisted process id, the supervisor is back at
    [Uninitialized], having gone through [Initializing], and the persisted
    session state of the runtime id is deleted; no connection is scheduled
    and no terminal is asked for. *)
Theorem reconnect_without_terminal context spec runtimeId lsp sessionState :
  workspaceState context !! runtimeId = Some sessionState →
  let s0 := new_JupyterKernel context spec runtimeId lsp in
  let s1 := step terminals_scanned s0 in
  _status (this s0) = Initializing
  ∧ status_events (loop s0) = [Initializing]
  ∧ (∀ i t,
       terminals context !! i = Some t → terminal_open t = true →
       name t = display_name spec → terminal_processId t ≠ processId sessionState →
       terminals (host s1) !! i = Some (terminal_dispose t))
  ∧ ((∀ i t,
        terminals context !! i = Some t → terminal_open t = true →
        terminal_processId t ≠ processId sessionState) →
     _status (this s1) = Uninitialized
     ∧ status_events (loop s1) = [Initializing; Uninitialized]
     ∧ workspaceState (host s1) = delete runtimeId (workspaceState context)
     ∧ workspaceState (host s1) !! runtimeId = None
     ∧ timers (host s1) = timers context
     ∧ created_terminals (host s1) = created_terminals context).
Proof.
  intros Hw s0 s1. subst s1 s0.
  rewrite (new_JupyterKernel_reconnecting _ _ _ _ _ Hw).
  split; [done|]. split; [done|].
  simpl. unfold reconnect_scanned. simpl. rewrite scan_fold_table. simpl.
  set (table := foldl _ (terminals context) (window_terminals context)).
  assert (∀ i t,
            terminals context !! i = Some t → terminal_open t = true →
            name t = display_name spec → terminal_processId t ≠ processId sessionState →
            table !! i = Some (terminal_dispose t)) as Hstale.
  { intros i t Ht Hopen Hname Hpid. subst table.
    rewrite scan_table_lookup, Ht. simpl.
    rewrite bool_decide_eq_true_2 by (apply window_terminals_spec; eauto).
    unfold is_stale. by rewrite !bool_decide_eq_true_2. }
  split.
  - intros i t Ht Hopen Hname Hpid.
    destruct (scan_matches _ _ _); simpl; rewrite ?setStatus_idle by done; simpl;
      by apply Hstale.
  - intros Hnone.
    assert (scan_matches sessionState context (window_terminals context) = []) as Hm.
    { unfold scan_matches.
      destruct (filter _ _) as [|i rest] eqn:Hf; [done|].
      assert (i ∈ filter (λ i, terminal_processId <$> terminals context !! i
                               = Some (processId sessionState))
                         (window_terminals context)) as Hin
        by (rewrite Hf; by left).
      apply list_elem_of_filter in Hin as [Hpid (t & Ht & Hopen)%window_terminals_spec].
      rewrite Ht in Hpid. simpl in Hpid. destruct (Hnone i t Ht Hopen). congruence. }
    unfold scan_matches in *. simpl. rewrite Hm. rewrite setStatus_idle by done. simpl.
    split_and!; try done. apply lookup_delete_eq.
Qed.

Lemma reconnect_without_terminal_witness :
  let s0 := new_JupyterKernel example_stale_host example_spec "r-runtime" false in
  let s1 := step terminals_scanned s0 in
  _status (this s0) = Initializing
  ∧ status_events (loop s0) = [Initializing]
  ∧ terminals (host s1) !! 0 = Some (terminal_dispose (mkTerminal "R" (Some 7%N) None true false))
  ∧ _status (this s1) = Uninitialized
  ∧ status_events (loop s1) = [Initializing; Uninitialized]
  ∧ workspaceState (host s1) !! "r-runtime" = None.
Proof.
  destruct (reconnect_without_terminal example_stale_host example_spec "r-runtime" false
              (with_processId (Some 4242%N) example_state) eq_refl)
    as (H0 & He0 & Hstale & Hnone).
  split; [exact H0|]. split; [exact He0|].
  split; [by apply Hstale|].
  destruct Hnone as (H1 & He1 & _ & Hw & _).
  - intros [|[|i]] t; simpl; intros [= <-] _; done.
  - done.
Defined.

(** The example, evaluated: the stale terminal named after the kernel is
    disposed, the unrelated shell is not, and the stored state is gone. *)
Lemma example_reconnect_scan :
  let s := step terminals_scanned example_reconnecting in
  _status (this s) = Uninitialized
  ∧ status_events (loop s) = [Initializing; Uninitialized]
  ∧ workspaceState (host s) !! "r-runtime" = None
  ∧ terminal_disposed <$> terminals (host s) = [true; false].
Proof. by vm_compute. Qed.

(** ** The transition to [Exited] *)

#[global] Arguments dispose_rest : simpl never.
#[global] Arguments forget_session : simpl never.

Lemma dispose_unfold s :
  dispose s
  = (match _lspCommId (this s) with
     | Some id => closeComm id s
     | None => (Normal, s)
     end) ;;; λ s, (Normal, dispose_rest s).
Proof. reflexivity. Qed.

(** The rest of [dispose]: what it leaves. *)
Lemma dispose_rest_sockets s d : get_socket d (this (dispose_rest s)) = None.
Proof. by destruct d. Qed.

Lemma disposeAllSockets_frame s :
  (host (disposeAllSockets s)) = host s
  ∧ _logTail (this (disposeAllSockets s)) = _logTail (this s)
  ∧ _heartbeatTimer (this (disposeAllSockets s)) = _heartbeatTimer (this s)
  ∧ _nextHeartbeat (this (disposeAllSockets s)) = _nextHeartbeat (this s).
Proof.
  unfold disposeAllSockets, dispose_socket.
  repeat (simpl; match goal with |- context [match ?x with _ => _ end] => destruct x end);
    done.
Qed.

Lemma disposeAllSockets_disposed s d k :
  get_socket d (this s) = Some k → k ∈ disposed_sockets (loop (disposeAllSockets s)).
Proof.
  intros Hd. unfold disposeAllSockets, dispose_socket.
  repeat (simpl; match goal with
                 | |- context [match ?x with _ => _ end] => destruct x eqn:?
                 end);
    simpl in *; destruct d; simpl in *; simplify_eq;
    rewrite ?elem_of_app, ?list_elem_of_singleton; intuition congruence.
Qed.

Lemma disposeHeartbeatTimers_spec s :
  let s' := disposeHeartbeatTimers s in
  _heartbeatTimer (this s') = None
  ∧ _nextHeartbeat (this s') = None
  ∧ (∀ t, t ∈ timers (host s') →
          t ∈ timers (host s)
          ∧ Some (timer_id t) ≠ _heartbeatTimer (this s)
          ∧ Some (timer_id t) ≠ _nextHeartbeat (this s))
  ∧ _logTail (this s') = _logTail (this s)
  ∧ (∀ d, get_socket d (this s') = get_socket d (this s))
  ∧ workspaceState (host s') = workspaceState (host s)
  ∧ files (host s') = files (host s)
  ∧ terminals (host s') = terminals (host s)
  ∧ disposed_sockets (loop s') = disposed_sockets (loop s).
Proof.
  unfold disposeHeartbeatTimers, clearTimeout.
  destruct (_heartbeatTimer (this s)) as [a|] eqn:Ha,
    (_nextHeartbeat (this s)) as [b|] eqn:Hb; simpl; rewrite ?Ha, ?Hb; simpl;
    (split_and!; try done; try (by intros []);
     intros t; rewrite ?list_elem_of_filter; simpl; intros H; split_and!;
     try tauto; try done; intros [= ?]; tauto).
Qed.

Lemma dispose_rest_spec s :
  let s' := dispose_rest s in
  (∀ d, get_socket d (this s') = None)
  ∧ _heartbeatTimer (this s') = None
  ∧ _nextHeartbeat (this s') = None
  ∧ _logTail (this s') = (λ t, mkTail (tail_path t) false) <$> _logTail (this s)
  ∧ (∀ t, t ∈ timers (host s') →
          t ∈ timers (host s)
          ∧ Some (timer_id t) ≠ _heartbeatTimer (this s)
          ∧ Some (timer_id t) ≠ _nextHeartbeat (this s))
  ∧ (∀ d k, get_socket d (this s) = Some k → k ∈ disposed_sockets (loop s'))
  ∧ workspaceState (host s') = workspaceState (host s)
  ∧ files (host s') = files (host s)
  ∧ terminals (host s') = terminals (host s).
Proof.
  unfold dispose_rest.
  set (s1 := match _logTail (this s) with Some _ => _ | None => s end).
  assert (_logTail (this s1) = (λ t, mkTail (tail_path t) false) <$> _logTail (this s)
          ∧ host s1 = host s ∧ loop s1 = loop s
          ∧ _heartbeatTimer (this s1) = _heartbeatTimer (this s)
          ∧ _nextHeartbeat (this s1) = _nextHeartbeat (this s)
          ∧ ∀ d, get_socket d (this s1) = get_socket d (this s))
    as (Ht1 & Hh1 & Hl1 & Ha1 & Hb1 & Hk1).
  { subst s1. destruct (_logTail (this s)) eqn:Heq; simpl; rewrite ?Heq;
      split_and!; try done; by intros []. }
  clearbody s1.
  destruct (disposeHeartbeatTimers_spec s1) as (Ha & Hb & Ht & Hl & Hk & Hw & Hf & Hterm & Hd).
  destruct (disposeAllSockets_frame (disposeHeartbeatTimers s1)) as (Hh & Hl' & Ha' & Hb').
  cbv zeta. split_and!.
  - intros d. by destruct d.
  - by rewrite Ha'.
  - by rewrite Hb'.
  - by rewrite Hl', Hl.
  - intros t. rewrite Hh. intros Hin. apply Ht in Hin. by rewrite <-Hh1, <-Ha1, <-Hb1.
  - intros d k Hdk. apply (disposeAllSockets_disposed _ d). by rewrite Hk, Hk1.
  - by rewrite Hh, Hw, Hh1.
  - by rewrite Hh, Hf, Hh1.
  - by rewrite Hh, Hterm, Hh1.
Qed.

Lemma onStatusChange_Exited_unfold s :
  onStatusChange Exited s = to_nobody (dispose (forget_session s)).
Proof. reflexivity. Qed.

Lemma forget_session_spec s :
  let s' := forget_session s in
  this s' = this s
  ∧ loop s' = loop s
  ∧ timers (host s') = timers (host s)
  ∧ workspaceState (host s') = delete (_runtimeId (this s)) (workspaceState (host s))
  ∧ (∀ ss, _session (this s) = Some ss →
           files (host s')
           = delete (logFile (state ss)) (delete (connectionFile (state ss)) (files (host s))))
  ∧ (∀ i t, _terminal (this s) = Some i → terminals (host s) !! i = Some t →
            exitStatus t = None → terminals (host s') !! i = Some (terminal_dispose t)).
Proof.
  unfold forget_session.
  set (s0 := set_workspaceState _ s).
  assert (this s0 = this s ∧ loop s0 = loop s ∧ timers (host s0) = timers (host s)
          ∧ workspaceState (host s0) = delete (_runtimeId (this s)) (workspaceState (host s))
          ∧ files (host s0) = files (host s)
          ∧ terminals (host s0) = terminals (host s))
    as (Ht0 & Hl0 & Htm0 & Hw0 & Hf0 & Hterm0) by done.
  clearbody s0. cbv zeta.
  set (s1 := match _session (this s0) with Some _ => _ | None => s0 end).
  assert (this s1 = this s ∧ loop s1 = loop s ∧ timers (host s1) = timers (host s)
          ∧ workspaceState (host s1) = delete (_runtimeId (this s)) (workspaceState (host s))
          ∧ (∀ ss, _session (this s) = Some ss →
                   files (host s1)
                   = delete (logFile (state ss))
                       (delete (connectionFile (state ss)) (files (host s))))
          ∧ terminals (host s1) = terminals (host s))
    as (Ht1 & Hl1 & Htm1 & Hw1 & Hf1 & Hterm1).
  { subst s1. rewrite Ht0. destruct (_session (this s)) as [ss|]; simpl;
      rewrite ?Ht0, ?Hl0, ?Htm0, ?Hw0, ?Hf0, ?Hterm0; split_and!; try done.
    by intros ? [= <-]. }
  clearbody s1. rewrite Ht1, Hterm1.
  destruct (_terminal (this s)) as [i|] eqn:Hi; [|by split_and!].
  destruct (terminals (host s) !! i) as [t|] eqn:Hti; simpl; [case_match|];
    simpl; rewrite ?Ht1, ?Hl1, ?Htm1, ?Hw1, ?Hterm1;
    (split_and!; [done|done|done|done|done|]);
    intros i' t' [= <-] Ht' He'; simplify_eq.
  by rewrite list_lookup_alter_eq, Hti.
Qed.

(** Closing the LSP comm, when it can be sent, touches the shell socket, the
    output channel and the counter of fresh identifiers only. *)
Lemma closeComm_connected id s :
  is_Some (_shell (this s)) → is_Some (_session (this s)) →
  ∃ s1, closeComm id s = (Normal, s1)
        ∧ workspaceState (host s1) = workspaceState (host s)
        ∧ files (host s1) = files (host s)
        ∧ terminals (host s1) = terminals (host s)
        ∧ timers (host s1) = timers (host s)
        ∧ _logTail (this s1) = _logTail (this s)
        ∧ _heartbeatTimer (this s1) = _heartbeatTimer (this s)
        ∧ _nextHeartbeat (this s1) = _nextHeartbeat (this s)
        ∧ disposed_sockets (loop s1) = disposed_sockets (loop s)
        ∧ (∀ d k, get_socket d (this s) = Some k →
                  ∃ k', get_socket d (this s1) = Some k' ∧ same_socket k k').
Proof.
  intros [k Hk] [ss Hs]. unfold closeComm, uuidv4, send.
  erewrite (sendToSocket_connected _ _ JupyterSockets.shell); [|exact Hk|exact Hs].
  eexists. split; [reflexivity|]. simpl. split_and!; try done.
  intros d k0 Hd. destruct d; simpl in *; simplify_eq; eexists; by split.
Qed.

Lemma same_socket_refl k : same_socket k k.
Proof. by repeat split. Qed.

(** [dispose], when it can run to its end or has nothing left to do. *)
Lemma dispose_disposable s :
  disposable s →
  let s' := (dispose s).2 in
  workspaceState (host s') = workspaceState (host s)
  ∧ files (host s') = files (host s)
  ∧ terminals (host s') = terminals (host s)
  ∧ _logTail (this s') = (λ t, mkTail (tail_path t) false) <$> _logTail (this s)
  ∧ _heartbeatTimer (this s') = None
  ∧ _nextHeartbeat (this s') = None
  ∧ (∀ t, t ∈ timers (host s') →
          t ∈ timers (host s)
          ∧ Some (timer_id t) ≠ _heartbeatTimer (this s)
          ∧ Some (timer_id t) ≠ _nextHeartbeat (this s))
  ∧ (∀ d, get_socket d (this s') = None)
  ∧ (∀ d k, get_socket d (this s) = Some k →
            ∃ k', k' ∈ disposed_sockets (loop s') ∧ same_socket k k').
Proof.
  intros Hd. rewrite dispose_unfold.
  destruct (_lspCommId (this s)) as [id|] eqn:Hid.
  - destruct Hd as [Hd|[[Hk Hs]|Hd]]; [congruence| |].
    + destruct (closeComm_connected id s Hk Hs)
        as (s1 & -> & Hw & Hf & Ht & Htm & Hl & Ha & Hb & Hds & Hsock).
      intros s'. assert (s' = dispose_rest s1) as Hs' by reflexivity.
      clearbody s'. subst s'.
      destruct (dispose_rest_spec s1) as (H1 & H2 & H3 & H4 & H5 & H6 & H7 & H8 & H9).
      split_and!; try congruence.
      * intros t Hin. apply H5 in Hin. by rewrite <-Htm, <-Ha, <-Hb.
      * intros d k Hdk. destruct (Hsock d k Hdk) as (k' & Hk' & Hsame).
        exists k'. split; [by eapply H6|done].
    + destruct Hd as (Hsock & Ha & Hb & Hl).
      unfold closeComm, uuidv4, send.
      edestruct (sendToSocket_disconnected) as [e ->]; [right; apply (Hsock JupyterSockets.shell)|].
      simpl. split_and!; try done.
      * destruct (_logTail (this s)) as [t|]; [|done]. simpl. f_equal.
        specialize (Hl t eq_refl). by destruct t; simpl in *; subst.
      * intros t Hin. by rewrite Ha, Hb.
      * intros d k Hdk. by rewrite Hsock in Hdk.
  - intros s'. assert (s' = dispose_rest s) as Hs' by reflexivity.
    clearbody s'. subst s'.
    destruct (dispose_rest_spec s) as (H1 & H2 & H3 & H4 & H5 & H6 & H7 & H8 & H9).
    split_and!; try done.
    intros d k Hdk. exists k. split; [by eapply H6|apply same_socket_refl].
Qed.

(** The clean-up of [onStatusChange(Exited)]. *)
Lemma onStatusChange_Exited_cleaned_up s :
  disposable s → cleaned_up s (onStatusChange Exited s).
Proof.
  intros Hd. rewrite onStatusChange_Exited_unfold.
  destruct (forget_session_spec s) as (Hthis & Hloop & Htm & Hw & Hf & Ht).
  assert (disposable (forget_session s)) as Hd'.
  { unfold disposable, connection_disposed in *. by rewrite Hthis. }
  destruct (dispose_disposable _ Hd') as (H1 & H2 & H3 & H4 & H5 & H6 & H7 & H8 & H9).
  assert (∀ r, cleaned_up s r.2 → cleaned_up s (to_nobody r)) as Hswallow.
  { intros [[|e] r]; [done|]. simpl. by intros ?. }
  apply Hswallow. unfold cleaned_up. rewrite Hthis in *. rewrite Htm in H7.
  split_and!; try done; try congruence.
  - intros ss Hss. rewrite H2. by apply Hf.
  - intros i t Hi Hti He. rewrite H3. by eapply Ht.
Qed.

(** The clean-up is read off the state before and the clean-up view of the
    state after. *)
Lemma cleaned_up_view s0 s s1 s2 :
  this s0 = this s → host s0 = host s →
  cleanup_view s1 = cleanup_view s2 →
  cleaned_up s0 s1 → cleaned_up s s2.
Proof.
  intros Hthis Hhost Hview. unfold cleanup_view in Hview.
  injection Hview as Hw Hf Ht Htm Hl Ha Hb Hc Hsh Hsi Hio Hhb Hds.
  unfold cleaned_up. rewrite Hthis, Hhost, Hw, Hf, Ht, Htm, Hl, Ha, Hb, Hds.
  intros (H1 & H2 & H3 & H4 & H5 & H6 & H7 & H8 & H9). split_and!; try done.
  intros d. specialize (H8 d). destruct d; simpl in *; congruence.
Qed.

(** The callback of a deferred start takes no part in the clean-up. *)
Lemma deferred_start_callback_cleanup p s :
  cleanup_view (deferred_start_callback p Exited s) = cleanup_view s.
Proof.
  unfold deferred_start_callback, settle, appendLine. simpl.
  by destruct (promises (loop s) !! p).
Qed.

Lemma deferred_callbacks_cleanup ps s :
  cleanup_view (foldl (λ s l, call_status_listener l Exited s) s (DeferredStart <$> ps))
  = cleanup_view s.
Proof.
  revert s. induction ps as [|p ps IH]; intros s; [done|].
  simpl. rewrite IH. apply deferred_start_callback_cleanup.
Qed.

Lemma setStatus_Exited_unfold ps s :
  status_listeners (this s) = OnStatusChange :: (DeferredStart <$> ps) →
  setStatus Exited s
  = set_status Exited
      (foldl (λ s l, call_status_listener l Exited s)
         (onStatusChange Exited (set_status_events (status_events (loop s) ++ [Exited]) s))
         (DeferredStart <$> ps)).
Proof. intros H. unfold setStatus, emit_status. simpl. by rewrite H. Qed.

(** When the [comm_close] cannot be sent, [closeComm] throws and has used
    up one fresh identifier only. *)
Lemma closeComm_disconnected id s :
  _shell (this s) = None ∨ _session (this s) = None →
  ∃ e, closeComm id s = (Throw e, set_fresh (S (fresh (host s))) s).
Proof.
  intros H. unfold closeComm, uuidv4, send.
  edestruct sendToSocket_disconnected as [e ->]; [|by eexists].
  destruct H as [H|H]; [right|left]; exact H.
Qed.

(** [onStatusChange(Exited)]: the session is forgotten whatever happens in
    [dispose]; the connection state is cleaned up exactly when [dispose] can
    run to its end. *)
Lemma onStatusChange_Exited_spec s :
  let s' := onStatusChange Exited s in
  workspaceState (host s') = delete (_runtimeId (this s)) (workspaceState (host s))
  ∧ (∀ ss, _session (this s) = Some ss →
           files (host s')
           = delete (logFile (state ss)) (delete (connectionFile (state ss)) (files (host s))))
  ∧ (∀ i t, _terminal (this s) = Some i → terminals (host s) !! i = Some t →
            exitStatus t = None → terminals (host s') !! i = Some (terminal_dispose t))
  ∧ (cleaned_up s s' ↔ disposable s).
Proof.
  cbv zeta.
  assert (disposable s → cleaned_up s (onStatusChange Exited s)) as Hyes
    by apply onStatusChange_Exited_cleaned_up.
  assert (∀ s', cleaned_up s s' →
            workspaceState (host s') = delete (_runtimeId (this s)) (workspaceState (host s))
            ∧ (∀ ss, _session (this s) = Some ss →
                     files (host s')
                     = delete (logFile (state ss))
                         (delete (connectionFile (state ss)) (files (host s))))
            ∧ (∀ i t, _terminal (this s) = Some i → terminals (host s) !! i = Some t →
                      exitStatus t = None →
                      terminals (host s') !! i = Some (terminal_dispose t))) as Hthree.
  { intros s' (H1 & H2 & H3 & _). by split_and!. }
  assert (disposable s ∨
            (∃ id, _lspCommId (this s) = Some id)
            ∧ (_shell (this s) = None ∨ _session (this s) = None)) as [Hd|[[id Hid] Hno]].
  { unfold disposable.
    destruct (_lspCommId (this s)) as [id|]; [|by left; left].
    destruct (_shell (this s)) as [k|]; [|by right; eauto].
    destruct (_session (this s)) as [ss|]; [|by right; eauto].
    left. right. left. by split. }
  - destruct (Hthree _ (Hyes Hd)) as (H1 & H2 & H3). by split_and!.
  - destruct (forget_session_spec s) as (Hthis & Hloop & Htm & Hw & Hf & Ht).
    destruct (closeComm_disconnected id (forget_session s)) as [e He];
      [by rewrite Hthis|].
    assert (onStatusChange Exited s
            = set_unhandled (unhandled (loop (forget_session s)) ++ [e])
                (set_fresh (S (fresh (host (forget_session s)))) (forget_session s)))
      as Heq.
    { rewrite onStatusChange_Exited_unfold, dispose_unfold, Hthis, Hid, He. reflexivity. }
    split_and!; [by rewrite Heq|by rewrite Heq|by rewrite Heq|].
    split; [|exact Hyes].
    rewrite Heq. unfold cleaned_up. simpl. rewrite Hthis.
    intros (_ & _ & _ & Hl & Ha & Hb & _ & Hsock & _).
    right. right. split_and!; [done|done|done|].
    intros t Htail. rewrite Htail in Hl. simpl in Hl. by injection Hl as ->.
Qed.



(** At [example_ready]: the persisted state, both files, the heartbeat timer
    and the sockets are gone, and the terminal is disposed. *)
Lemma example_exited :
  let s' := setStatus Exited example_ready in
  workspaceState (host s') = ∅
  ∧ files (host s') = ∅
  ∧ terminals (host s') = [terminal_dispose example_terminal]
  ∧ timers (host s') = []
  ∧ length (disposed_sockets (loop s')) = 5.
Proof. by vm_compute. Qed.

(** ** The heartbeat cycle *)

(** What the status listeners leave alone when the status is [Offline]. *)
Lemma call_status_listener_Offline l s :
  let s' := call_status_listener l Offline s in
  timers (host s') = timers (host s)
  ∧ now (host s') = now (host s)
  ∧ _lastHeartbeat (this s') = _lastHeartbeat (this s)
  ∧ get_socket JupyterSockets.heartbeat (this s')
    = get_socket JupyterSockets.heartbeat (this s).
Proof.
  destruct l as [|p]; simpl; [done|].
  unfold deferred_start_callback, settle, appendLine. simpl.
  by destruct (promises (loop s) !! p).
Qed.

Lemma setStatus_Offline_frame s :
  let s' := setStatus Offline s in
  timers (host s') = timers (host s)
  ∧ now (host s') = now (host s)
  ∧ _lastHeartbeat (this s') = _lastHeartbeat (this s)
  ∧ get_socket JupyterSockets.heartbeat (this s')
    = get_socket JupyterSockets.heartbeat (this s).
Proof.
  unfold setStatus, emit_status.
  set (s0 := set_status_events _ s).
  change (timers (host s)) with (timers (host s0)).
  change (now (host s)) with (now (host s0)).
  change (_lastHeartbeat (this s)) with (_lastHeartbeat (this s0)).
  change (get_socket JupyterSockets.heartbeat (this s))
    with (get_socket JupyterSockets.heartbeat (this s0)).
  generalize (status_listeners (this s0)). clearbody s0.
  intros ls. revert s0. induction ls as [|l ls IH]; intros s0; [done|].
  cbn [foldl]. cbv zeta in *.
  destruct (call_status_listener_Offline l s0) as (H1 & H2 & H3 & H4).
  destruct (IH (call_status_listener l Offline s0)) as (I1 & I2 & I3 & I4).
  split_and!; etransitivity; eauto.
Qed.

(** A send: the time is noted, and one time-out is set. *)
Lemma heartbeat_sends s :
  let s1 := heartbeat s in
  timers (host s1)
  = timers (host s)
      ++ [mkTimer (fresh (host s)) (heartbeat_seconds s * 1000) run_heartbeat_timeout]
  ∧ _heartbeatTimer (this s1) = Some (fresh (host s))
  ∧ _lastHeartbeat (this s1) = (now (host s) mod 1000)%Z
  ∧ now (host s1) = now (host s)
  ∧ _status (this s1) = _status (this s)
  ∧ status_events (loop s1) = status_events (loop s).
Proof.
  unfold heartbeat, with_socket, setTimeout, appendLine, heartbeat_seconds. simpl.
  by destruct (_heartbeat (this s)).
Qed.

(** The time-out, when it fires. *)
Lemma heartbeat_timeout_fires id ms s :
  filter (λ t, timer_id t = id) (timers (host s)) = [mkTimer id ms run_heartbeat_timeout] →
  let s1 := step (timer_fired id) s in
  s1 = setStatus Offline (clearTimeout id s)
  ∧ _status (this s1) = Offline
  ∧ new_status_events s s1 = [Offline]
  ∧ step (timer_fired id) s1 = s1.
Proof.
  intros H. destruct (timer_fired_runs id ms _ s H) as [Hstep Hgone].
  cbv zeta. rewrite Hstep. cbn [run_timer].
  split; [done|]. split; [apply setStatus_status|]. split.
  { unfold new_status_events. rewrite setStatus_events.
    change (status_events (loop (clearTimeout id s))) with (status_events (loop s)).
    by rewrite drop_app_length. }
  cbn [step].
  destruct (setStatus_Offline_frame (clearTimeout id s)) as (-> & _).
  destruct (filter _ (timers (host (clearTimeout id s)))) as [|t ts] eqn:Hf; [done|].
  assert (t ∈ filter (λ t, timer_id t = id) (timers (host (clearTimeout id s)))) as Hin
    by (rewrite Hf; left).
  apply list_elem_of_filter in Hin as [Hid Hin]. by apply Hgone in Hin.
Qed.

(** A reply: the time-out is cleared, the reply is logged if the time noted
    at the send is not zero, and the next send is scheduled. *)
Lemma onHeartbeat_reply msg s :
  let s1 := onHeartbeat msg s in
  _status (this s1) = _status (this s)
  ∧ status_events (loop s1) = status_events (loop s)
  ∧ channel (host s1)
    = channel (host s)
        ++ (if bool_decide (_lastHeartbeat (this s) ≠ 0%Z)
            then [log_heartbeat_received (now (host s) mod 1000 - _lastHeartbeat (this s)) msg]
            else [])
  ∧ timers (host s1)
    = filter (λ t, Some (timer_id t) ≠ _heartbeatTimer (this s)) (timers (host s))
        ++ [mkTimer (fresh (host s)) (heartbeat_seconds s * 1000) run_next_heartbeat].
Proof.
  unfold onHeartbeat, clearTimeout, setTimeout, appendLine, heartbeat_seconds,
    getUTCMilliseconds.
  destruct (_heartbeatTimer (this s)) as [id|] eqn:Hid; simpl;
    destruct (bool_decide (_lastHeartbeat (this s) ≠ 0%Z)) eqn:Hl; simpl;
    rewrite ?Hl; simpl; rewrite ?app_nil_r; split_and!; try done; f_equal.
  all: try (apply list_filter_iff; intros t; split; intros ? ?; congruence).
  all: induction (timers (host s)) as [|t ts IH]; [done|];
    rewrite filter_cons; destruct (decide _) as [|[]]; [by f_equal|done].
Qed.

Lemma example_offline_reachable sent : reachable (example_offline sent).
Proof.
  by exists example_host, example_spec, "r-runtime", false, (example_missed_heartbeat sent).
Qed.

(** C2: a send notes the millisecond part of the clock and sets one time-out,
    of 30 seconds unless configured; the time-out, when it fires, sets the
    status to [Offline] with one status event and is gone afterwards; a
    reply never changes the status.  But a reply is logged only if the time
    noted at the send is not zero: when the heartbeat was sent on a full
    second and the reply comes after the time-out, the status stays
    [Offline] and nothing is logged. *)
Theorem late_heartbeat_reply :
  (∀ s, let s1 := heartbeat s in
        timers (host s1)
        = timers (host s)
            ++ [mkTimer (fresh (host s)) (heartbeat_seconds s * 1000) run_heartbeat_timeout]
        ∧ (heartbeat_config (host s) = None → heartbeat_seconds s * 1000 = 30000)%Z
        ∧ _heartbeatTimer (this s1) = Some (fresh (host s))
        ∧ _lastHeartbeat (this s1) = (now (host s) mod 1000)%Z
        ∧ new_status_events s s1 = [])
  ∧ (∀ s id ms,
        filter (λ t, timer_id t = id) (timers (host s))
        = [mkTimer id ms run_heartbeat_timeout] →
        let s1 := step (timer_fired id) s in
        _status (this s1) = Offline
        ∧ new_status_events s s1 = [Offline]
        ∧ step (timer_fired id) s1 = s1)
  ∧ (∀ s msg, let s1 := onHeartbeat msg s in
        _status (this s1) = _status (this s)
        ∧ new_status_events s s1 = []
        ∧ channel (host s1)
          = channel (host s)
              ++ (if bool_decide (_lastHeartbeat (this s) ≠ 0%Z)
                  then [log_heartbeat_received
                          (now (host s) mod 1000 - _lastHeartbeat (this s)) msg]
                  else []))
  ∧ (let sent := 1700000000000%Z in
     reachable (example_offline sent)
     ∧ _status (this (example_offline sent)) = Offline
     ∧ _lastHeartbeat (this (example_offline sent)) = 0%Z
     ∧ _status (this (example_late_reply sent)) = Offline
     ∧ channel (host (example_late_reply sent)) = channel (host (example_offline sent))).
Proof.
  split_and!.
  - intros s. destruct (heartbeat_sends s) as (H1 & H2 & H3 & H4 & H5 & H6).
    cbv zeta. split_and!; try done.
    + unfold heartbeat_seconds. by intros ->.
    + unfold new_status_events. rewrite H6. apply drop_all.
  - intros s id ms H. destruct (heartbeat_timeout_fires id ms s H) as (_ & H1 & H2 & H3).
    by split_and!.
  - intros s msg. destruct (onHeartbeat_reply msg s) as (H1 & H2 & H3 & H4).
    cbv zeta. split_and!; try done.
    unfold new_status_events. rewrite H2. apply drop_all.
  - split; [apply example_offline_reachable|]. by vm_compute.
Qed.

(** The same missed cycle a quarter of a second later: the reply is logged
    (with the difference of the millisecond parts). *)
Lemma example_late_reply_logged :
  let sent := 1700000000250%Z in
  _status (this (example_late_reply sent)) = Offline
  ∧ channel (host (example_late_reply sent))
    = channel (host (example_offline sent)) ++ [log_heartbeat_received 123 "hello"].
Proof. by vm_compute. Qed.

(** The status events of the missed cycle: one [Offline], and none for the
    late reply. *)
Lemma example_missed_cycle_events :
  let sent := 1700000000000%Z in
  status_events (loop (example_offline sent)) = [Initializing; Starting; Ready; Offline]
  ∧ status_events (loop (example_late_reply sent)) = [Initializing; Starting; Ready; Offline]
  ∧ step (timer_fired 4) (example_offline sent) = example_offline sent.
Proof. by vm_compute. Qed.
(** ** Walking the handlers with any predicate

    [walk P] goes through a handler as [peel P] does; a call of a handler for
    which nothing is known about [P] is unfolded and walked in turn, and a
    field update that [P] does not look at is closed by conversion. *)

Ltac head_of t := lazymatch t with ?f _ => head_of f | _ => t end.

(** The state a handler is applied to is itself the result of a call: [P] is
    shown for it first. *)
Ltac walk_arg P G f x :=
  lazymatch type of x with
  | Sys =>
      tryif is_var x then fail
      else (let H := fresh "HP" in
            assert (H : P x); [ | change (G (f x)); revert H; generalize x; intros ? H ])
  end.

Ltac walk_leaf P :=
  lazymatch goal with
  | |- P (foldl _ _ _) => apply (keeps_foldl P); [ intros ? ? ? | ]
  | |- P (Nat.iter _ _ _) => apply (keeps_iter P); [ intros ? ? | ]
  | |- P (to_caller _) => apply (keeps_to_caller P); [ intros ? ? ? | ]
  | |- P (to_nobody _) => apply (keeps_to_nobody P); [ intros ? ? ? | ]
  | |- after P (_ ;;; _) => apply (after_and_then P); [ | intros ? ? ]
  | |- after P (_, _) => apply (after_pair P)
  | |- P (snd ?r) => change (after P r)
  | |- after P (?f ?s) =>
      first [ apply (keeps_snd (P:=P) (f:=f))
            | walk_arg P (@after Completion P) f s
            | walk_arg P (@after nat P) f s
            | walk_arg P (@after string P) f s
            | let h := head_of f in progress (open h) ]
  | |- P (?f ?s) =>
      first [ assumption
            | apply (keeps (P:=P) (f:=f))
            | walk_arg P P f s
            | let h := head_of f in progress (open h) ]
  | |- P ?s => assumption
  end.

Ltac walk P :=
  repeat first [ peel_body P P | peel_body P (@after Completion P)
               | peel_body P (@after nat P) | peel_body P (@after string P)
               | walk_leaf P ].

(** An event, walked. *)
Ltac walk_step P :=
  lazymatch goal with
  | |- P (step ?e _) => destruct e; cbv beta iota delta [step]; walk P
  end.

(** What holds after the constructor and is kept by every event holds in
    every reachable state. *)
Lemma reachable_ind (P : Sys → Prop) :
  (∀ context spec runtimeId lsp, P (new_JupyterKernel context spec runtimeId lsp)) →
  (∀ e s, P s → P (step e s)) →
  ∀ s, reachable s → P s.
Proof.
  intros Hnew Hstep s (context & spec & runtimeId & lsp & es & ->).
  unfold run. generalize (Hnew context spec runtimeId lsp).
  generalize (new_JupyterKernel context spec runtimeId lsp).
  induction es as [|e es IH]; intros s H; simpl; [done|]. by apply IH, Hstep.
Qed.
(** ** The sockets *)

#[global] Instance set_session_sockets_wf ss : Keeps sockets_wf (set_session (Some ss)).
Proof.
  intros s [[H _]|H]; [left|right]; [split; [exact H|by eexists]|exact H].
Qed.

#[global] Instance with_socket_sockets_wf d f : Keeps sockets_wf (with_socket d f).
Proof.
  intros s H. unfold with_socket.
  destruct (get_socket d (this s)) as [k|] eqn:Hk; [|exact H].
  destruct H as [[H Hs]|H]; [|by rewrite H in Hk].
  left. split; [|by destruct d].
  intros d'. destruct (decide (d = d')) as [<-|Hne].
  - rewrite get_set_socket. by eexists.
  - rewrite get_set_socket_ne by done. apply H.
Qed.

#[global] Instance sendToSocket_sockets_wf id type dest parent message :
  KeepsSnd sockets_wf (sendToSocket id type dest parent message).
Proof.
  intros s H. unfold after, sendToSocket.
  destruct (generateMessageHeader id type s) as [e|h]; [exact H|].
  destruct (get_socket dest (this s)) as [k|] eqn:Hk; [|exact H]. simpl.
  destruct H as [[H Hs]|H]; [|by rewrite H in Hk].
  left. split; [|by destruct dest].
  intros d'. destruct (decide (dest = d')) as [<-|Hne].
  - rewrite get_set_socket. by eexists.
  - rewrite get_set_socket_ne by done. apply H.
Qed.

#[global] Instance disposeAllSockets_sockets_wf : Keeps sockets_wf disposeAllSockets.
Proof. intros s _. right. by intros []. Qed.

(** [connect] creates all five sockets, also when it throws, and leaves the
    session alone. *)
Lemma connect_sockets p s :
  (∀ d, is_Some (get_socket d (this (connect p s).2)))
  ∧ _session (this (connect p s).2) = _session (this s).
Proof.
  unfold connect. cbv zeta.
  destruct (files _ !! p) as [[c|]|]; (split; [intros []; cbv; eauto|reflexivity]).
Qed.

#[global] Instance connectToTerminal_sockets_wf t ss r :
  Keeps sockets_wf (connectToTerminal t ss r).
Proof.
  intros s _. left. unfold connectToTerminal. cbv zeta.
  match goal with |- context [connect ?p ?s1] => set (pre := s1) end.
  assert (_session (this pre) = Some ss) as Hs
    by (subst pre; unfold streamLogFileToChannel; by destruct (bool_decide _)).
  clearbody pre.
  destruct (connect_sockets (connectionFile (state ss)) pre) as [Hk Hs'].
  rewrite Hs in Hs'. destruct (connect _ pre) as [[|e] s2]; simpl in Hk, Hs'.
  - split; [exact Hk|]. change (is_Some (_session (this s2))). by rewrite Hs'.
  - cbv beta iota.
    assert (∀ s3, this (settle_opt r (rejected e) s3) = this s3) as ->.
    { intros s3. destruct r; simpl; [|done]. unfold settle. by destruct (_ !! _). }
    split; [exact Hk|by rewrite Hs'].
Qed.

Lemma step_sockets_wf e s : sockets_wf s → sockets_wf (step e s).
Proof. intros H. walk_step sockets_wf. Qed.

Lemma new_sockets_wf context spec runtimeId lsp :
  sockets_wf (new_JupyterKernel context spec runtimeId lsp).
Proof. open new_JupyterKernel. walk sockets_wf. right. by intros []. Qed.

Lemma reachable_sockets_wf s : reachable s → sockets_wf s.
Proof. apply reachable_ind; [apply new_sockets_wf|apply step_sockets_wf]. Qed.

(** ** The status *)

#[global] Hint Extern 0 (Announced _) => exact eq_refl : typeclass_instances.

#[global] Instance setStatus_status_wf st `{!Announced st} : Keeps status_wf (setStatus st).
Proof.
  intros s [_ H]. unfold status_wf.
  rewrite setStatus_status, setStatus_events, last_snoc. split; [done|].
  apply Forall_app. by split; [|constructor].
Qed.

Lemma step_status_wf e s : status_wf s → status_wf (step e s).
Proof. intros H. walk_step status_wf. Qed.

Lemma new_status_wf context spec runtimeId lsp :
  status_wf (new_JupyterKernel context spec runtimeId lsp).
Proof. open new_JupyterKernel. walk status_wf. by split. Qed.

Lemma reachable_status_wf s : reachable s → status_wf s.
Proof. apply reachable_ind; [apply new_status_wf|apply step_status_wf]. Qed.

(** ** The pending input requests *)

Lemma sendToSocket_inputRequests id type dest parent message s :
  _inputRequests (this (sendToSocket id type dest parent message s).2)
  = _inputRequests (this s).
Proof.
  unfold sendToSocket. destruct (generateMessageHeader id type s); [done|].
  destruct (get_socket dest (this s)); [|done]. simpl. by rewrite set_socket_inputRequests.
Qed.

#[global] Instance sendToSocket_requests_wf id type dest parent message :
  KeepsSnd requests_wf (sendToSocket id type dest parent message).
Proof.
  intros s H. unfold after, requests_wf. by rewrite sendToSocket_inputRequests.
Qed.

#[global] Instance with_socket_requests_wf d f : Keeps requests_wf (with_socket d f).
Proof.
  intros s H. unfold with_socket. destruct (get_socket d (this s)); [|done].
  unfold requests_wf. by rewrite set_socket_inputRequests.
Qed.

#[global] Instance on_socket_message_requests_wf socket decoded :
  Keeps requests_wf (on_socket_message socket decoded).
Proof.
  intros s H. unfold on_socket_message, emitMessage.
  destruct decoded as [msg|]; [|done].
  destruct (bool_decide (socket = JupyterSockets.stdin)); simpl; [|exact H].
  destruct (bool_decide (msg_type (header msg) = "input_request")) eqn:Ht; [|exact H].
  apply bool_decide_eq_true_1 in Ht.
  intros id h. simpl. intros [[<- <-]|[_ Hin]]%lookup_insert_Some; [done|by apply H].
Qed.

#[global] Instance replyToPrompt_requests_wf id value :
  KeepsSnd requests_wf (replyToPrompt id value).
Proof.
  intros s H. unfold after, replyToPrompt.
  destruct (_inputRequests (this s) !! id) as [parent|]; unfold uuidv4, send; cbv zeta.
  - match goal with |- context [sendToSocket ?a ?b ?c ?d ?e ?s0] =>
      pose proof (sendToSocket_inputRequests a b c d e s0) as Hr;
      destruct (sendToSocket a b c d e s0) as [[|err] s1]
    end; simpl in *.
    + intros id' h Hin. cbn in Hin. rewrite ?Hr in Hin. cbn in Hin.
      apply lookup_delete_Some in Hin as [_ Hin]. by apply H.
    + unfold requests_wf. by rewrite Hr.
  - unfold requests_wf. by rewrite sendToSocket_inputRequests.
Qed.

Lemma step_requests_wf e s : requests_wf s → requests_wf (step e s).
Proof. intros H. walk_step requests_wf. Qed.

Lemma new_requests_wf context spec runtimeId lsp :
  requests_wf (new_JupyterKernel context spec runtimeId lsp).
Proof. open new_JupyterKernel. walk requests_wf. by intros id h. Qed.

Lemma reachable_requests_wf s : reachable s → requests_wf s.
Proof. apply reachable_ind; [apply new_requests_wf|apply step_requests_wf]. Qed.

(** ** The listeners of the sockets and the packets emitted *)

#[global] Hint Extern 0 (ListenerOf _ _) => exact eq_refl : typeclass_instances.

#[global] Instance socket_send_safe d fr : ListenerSafe d (socket_send fr).
Proof. by intros k H. Qed.
#[global] Instance socket_subscribe_safe d : ListenerSafe d socket_subscribe.
Proof. by intros k H. Qed.
#[global] Instance setZmqIdentity_safe d id : ListenerSafe d (setZmqIdentity id).
Proof. by intros k H. Qed.
#[global] Instance socket_connect_safe d p : ListenerSafe d (socket_connect p).
Proof. by intros k H. Qed.
#[global] Instance socket_off_safe d l : ListenerSafe d (socket_off l).
Proof.
  intros k H. simpl. apply Forall_forall. intros x [_ Hx]%list_elem_of_filter.
  by eapply Forall_forall in H.
Qed.
#[global] Instance socket_on_safe d l `{!ListenerOf d l} : ListenerSafe d (socket_on l).
Proof. intros k H. simpl. apply Forall_app. by split; [|constructor]. Qed.

Lemma set_socket_listeners_wf d k s :
  Forall (λ l, listener_of d l = true) (listeners k) →
  socket_listeners_wf s → socket_listeners_wf (set_socket d (Some k) s).
Proof.
  intros Hk H d' k'. destruct (decide (d = d')) as [<-|Hne].
  - rewrite get_set_socket. by intros [= <-].
  - rewrite get_set_socket_ne by done. apply H.
Qed.

#[global] Instance with_socket_emitted_wf d f `{!ListenerSafe d f} :
  Keeps emitted_wf (with_socket d f).
Proof.
  intros s [H He]. unfold with_socket.
  destruct (get_socket d (this s)) as [k|] eqn:Hk; [|by split].
  split; [|by rewrite set_socket_emitted].
  apply set_socket_listeners_wf; [|done]. by eapply listener_safe, H.
Qed.

#[global] Instance sendToSocket_emitted_wf id type dest parent message :
  KeepsSnd emitted_wf (sendToSocket id type dest parent message).
Proof.
  intros s [H He]. unfold after, sendToSocket.
  destruct (generateMessageHeader id type s) as [e|h]; [exact (conj H He)|].
  destruct (get_socket dest (this s)) as [k|] eqn:Hk; [|exact (conj H He)]. simpl.
  split; [|by rewrite set_socket_emitted].
  apply set_socket_listeners_wf; [|done]. simpl. by eapply H.
Qed.

#[global] Instance disposeAllSockets_emitted_wf : Keeps emitted_wf disposeAllSockets.
Proof.
  intros s [_ He]. split.
  - by intros [] k.
  - unfold disposeAllSockets, dispose_socket.
    repeat (cbv zeta; match goal with
            | |- context [match ?x with _ => _ end] => destruct x
            end); exact He.
Qed.

#[global] Instance connect_emitted_wf p : KeepsSnd emitted_wf (connect p).
Proof.
  intros s [_ He]. unfold after, connect. cbv zeta.
  destruct (files _ !! p) as [[c|]|]; (split; [|exact He]);
    intros [] k [= <-]; by cbv.
Qed.

Lemma on_socket_message_emitted_wf socket decoded s :
  socket ≠ JupyterSockets.control → socket ≠ JupyterSockets.heartbeat →
  emitted_wf s → emitted_wf (on_socket_message socket decoded s).
Proof.
  intros Hc Hh [H He]. unfold on_socket_message, emitMessage.
  destruct decoded as [msg|]; [|by split].
  split.
  - by destruct (_ && _).
  - assert (is_inbound_packet
              (mkPacket "jupyter-message" (content msg) (msg_id (header msg))
                 (msg_type (header msg)) (date (header msg))
                 (match parent_header msg with
                  | parent_missing => js_string ""
                  | parent_empty => js_undefined
                  | parent_of h => js_string (msg_id h)
                  end) socket)) as Hp.
    { split; [done|]. simpl. destruct socket; auto; done. }
    destruct (_ && _); simpl; (apply Forall_app; split; [exact He|by constructor]).
Qed.

Lemma keeps_foldl_Forall {B} (P : Sys → Prop) (Q : B → Prop) (f : Sys → B → Sys) l s :
  (∀ b s, Q b → P s → P (f s b)) → Forall Q l → P s → P (foldl f s l).
Proof.
  intros Hf Hl. revert s. induction Hl as [|b l Hb Hl IH]; intros s H; simpl; [done|].
  by apply IH, Hf.
Qed.

#[global] Instance onHeartbeat_emitted_wf msg : Keeps emitted_wf (onHeartbeat msg).
Proof. intros s H. open onHeartbeat. walk emitted_wf. Qed.

#[global] Instance initial_heartbeat_emitted_wf msg : Keeps emitted_wf (initial_heartbeat msg).
Proof. intros s H. open initial_heartbeat. walk emitted_wf. Qed.

#[global] Instance deliver_emitted_wf socket msg decoded :
  Keeps emitted_wf (deliver socket msg decoded).
Proof.
  intros s H. unfold deliver.
  destruct (get_socket socket (this s)) as [k|] eqn:Hk; [|done].
  apply (keeps_foldl_Forall emitted_wf (λ l, listener_of socket l = true));
    [|by eapply (proj1 H)|done].
  intros l s' Hl H'. destruct l; simpl.
  - apply (keeps (P:=emitted_wf)). by apply (keeps (P:=emitted_wf)).
  - by apply (keeps (P:=emitted_wf)).
  - apply on_socket_message_emitted_wf; [by destruct socket..|done].
  - apply on_socket_message_emitted_wf; [by destruct socket..|done].
  - apply on_socket_message_emitted_wf; [by destruct socket..|done].
Qed.

Lemma step_emitted_wf e s : emitted_wf s → emitted_wf (step e s).
Proof. intros H. walk_step emitted_wf. Qed.

Lemma new_emitted_wf context spec runtimeId lsp :
  emitted_wf (new_JupyterKernel context spec runtimeId lsp).
Proof. open new_JupyterKernel. walk emitted_wf. split; [by intros []|constructor]. Qed.

Lemma reachable_emitted_wf s : reachable s → emitted_wf s.
Proof. apply reachable_ind; [apply new_emitted_wf|apply step_emitted_wf]. Qed.

(** With one socket in place, all are, and a session is bound. *)
Lemma reachable_connected s d k :
  reachable s → get_socket d (this s) = Some k →
  (∃ ss, _session (this s) = Some ss) ∧ ∀ d', is_Some (get_socket d' (this s)).
Proof.
  intros Hr Hk. destruct (reachable_sockets_wf s Hr) as [[Hall Hs]|Hnone].
  - by split.
  - by rewrite Hnone in Hk.
Qed.
(** * Further properties of the supervisor *)

(** ** What holds in every reachable state *)

(** X1: in every state the supervisor can reach, the five sockets exist
    together or not at all ([connect] creates all five, [disposeAllSockets]
    drops all five), and they exist only once a session is bound. *)
Theorem sockets_exist_together s :
  reachable s →
  ((∀ d, is_Some (get_socket d (this s))) ∧ is_Some (_session (this s)))
  ∨ (∀ d, get_socket d (this s) = None).
Proof. apply reachable_sockets_wf. Qed.

Lemma sockets_exist_together_witness :
  ((∀ d, is_Some (get_socket d (this example_ready)))
   ∧ is_Some (_session (this example_ready)))
  ∨ (∀ d, get_socket d (this example_ready) = None).
Proof.
  apply sockets_exist_together.
  by exists example_host, example_spec, "r-runtime", false, example_startup.
Defined.

(** X2: in every reachable state [sendMessage] returns normally.  When the
    socket the packet names is missing, it writes one line and sends nothing;
    otherwise it sends one message on that socket, with the id, the type and
    the content of the packet and with the empty parent. *)
Theorem sendMessage_never_throws packet s :
  reachable s →
  match get_socket (socket packet) (this s) with
  | None =>
      sendMessage packet s = (Normal, appendLine (log_no_socket (socket packet)) s)
  | Some k =>
      ∃ s' m signing_key,
        sendMessage packet s = (Normal, s')
        ∧ sent_on (socket packet) s' = sent k ++ [serializeJupyterMessage m signing_key]
        ∧ msg_id (header m) = msgId packet
        ∧ msg_type (header m) = msgType packet
        ∧ content m = message packet
        ∧ parent_header m = parent_empty
        ∧ channel (host s') = channel (host s) ++ [log_send (msgType packet) (title k) m]
  end.
Proof.
  intros Hr. unfold sendMessage.
  destruct (get_socket (socket packet) (this s)) as [k|] eqn:Hk; [|done].
  destruct (reachable_sockets_wf s Hr) as [[_ [ss Hs]]|Hnone]; [|by rewrite Hnone in Hk].
  unfold send. erewrite sendToSocket_connected; [|exact Hk|exact Hs].
  do 3 eexists. split; [reflexivity|]. unfold sent_on.
  rewrite get_set_socket. simpl. split_and!; try done. by destruct (socket packet).
Qed.

Lemma sendMessage_never_throws_witness :
  match get_socket JupyterSockets.shell (this example_ready) with
  | None =>
      sendMessage (mkPacket "jupyter-message" (inbound "{}") "m-1" "kernel_info_request"
                     (wire_date "2023-01-01T00:00:00Z") js_undefined JupyterSockets.shell) example_ready
      = (Normal, appendLine (log_no_socket JupyterSockets.shell) example_ready)
  | Some k =>
      ∃ s' m signing_key,
        sendMessage (mkPacket "jupyter-message" (inbound "{}") "m-1" "kernel_info_request"
                       (wire_date "2023-01-01T00:00:00Z") js_undefined JupyterSockets.shell) example_ready
        = (Normal, s')
        ∧ sent_on JupyterSockets.shell s' = sent k ++ [serializeJupyterMessage m signing_key]
        ∧ msg_id (header m) = "m-1"
        ∧ msg_type (header m) = "kernel_info_request"
        ∧ content m = inbound "{}"
        ∧ parent_header m = parent_empty
        ∧ channel (host s')
          = channel (host example_ready) ++ [log_send "kernel_info_request" (title k) m]
  end.
Proof.
  apply (sendMessage_never_throws
           (mkPacket "jupyter-message" (inbound "{}") "m-1" "kernel_info_request"
              (wire_date "2023-01-01T00:00:00Z") js_undefined JupyterSockets.shell)).
  by exists example_host, example_spec, "r-runtime", false, example_startup.
Defined.

(** X3: in every reachable state [execute] either finds the shell socket and
    returns normally, or there is no shell socket and it throws to its caller
    without a trace: the [catch] on the returned promise does not see the
    exception, and nothing is logged or sent. *)
Theorem execute_throws_iff_not_connected (source id : string) mode errorBehavior s :
  reachable s →
  (is_Some (_shell (this s)) ∧ ∃ s', execute source id mode errorBehavior s = (Normal, s'))
  ∨ (_shell (this s) = None ∧ ∃ e, execute source id mode errorBehavior s = (Throw e, s)).
Proof.
  intros Hr. destruct (reachable_sockets_wf s Hr) as [[Hk [ss Hs]]|Hnone].
  - left. destruct (Hk JupyterSockets.shell) as [k Hshell]. split; [by eexists|].
    unfold execute, send. erewrite sendToSocket_connected; [|exact Hshell|exact Hs].
    by eexists.
  - right. split; [apply (Hnone JupyterSockets.shell)|].
    apply sendToSocket_disconnected. right. apply (Hnone JupyterSockets.shell).
Qed.

Lemma execute_throws_iff_not_connected_witness :
  (is_Some (_shell (this example_new))
   ∧ ∃ s', execute "1+1" "abc" Interactive Stop example_new = (Normal, s'))
  ∨ (_shell (this example_new) = None
     ∧ ∃ e, execute "1+1" "abc" Interactive Stop example_new = (Throw e, example_new)).
Proof.
  apply execute_throws_iff_not_connected.
  by exists example_host, example_spec, "r-runtime", false, [].
Defined.

(** X4: in every reachable state the status field is the status of the last
    ['status'] event, and [Uninitialized] when none was emitted yet: no status
    change goes unannounced. *)
Theorem status_is_last_announced s :
  reachable s →
  _status (this s) = default Uninitialized (last (status_events (loop s))).
Proof. intros Hr. apply (reachable_status_wf s Hr). Qed.

Lemma status_is_last_announced_witness :
  _status (this example_ready)
  = default Uninitialized (last (status_events (loop example_ready))).
Proof.
  apply status_is_last_announced.
  by exists example_host, example_spec, "r-runtime", false, example_startup.
Defined.

(** X5: the supervisor never sets the status to [Idle] or [Busy]: in no
    reachable state is the status one of them, and neither was ever
    announced. *)
Theorem never_idle_or_busy s :
  reachable s →
  _status (this s) ≠ Idle ∧ _status (this s) ≠ Busy
  ∧ (Idle ∉ status_events (loop s)) ∧ (Busy ∉ status_events (loop s)).
Proof.
  intros Hr. destruct (reachable_status_wf s Hr) as [Hst Hev].
  assert ((Idle ∉ status_events (loop s)) ∧ (Busy ∉ status_events (loop s))) as [Hi Hb].
  { rewrite Forall_forall in Hev.
    split; intros Hin; apply Hev in Hin; by cbv in Hin. }
  assert (Announced (_status (this s))) as Ha.
  { rewrite Hst. destruct (last (status_events (loop s))) as [st|] eqn:Hl; [|exact eq_refl].
    apply last_Some_elem_of in Hl. rewrite Forall_forall in Hev. by apply Hev. }
  split_and!; try done; intros Heq; rewrite Heq in Ha; by cbv in Ha.
Qed.

Lemma never_idle_or_busy_witness :
  _status (this example_ready) ≠ Idle ∧ _status (this example_ready) ≠ Busy
  ∧ (Idle ∉ status_events (loop example_ready))
  ∧ (Busy ∉ status_events (loop example_ready)).
Proof.
  apply never_idle_or_busy.
  by exists example_host, example_spec, "r-runtime", false, example_startup.
Defined.

(** X6: in every reachable state, each entry of the table of pending input
    requests is the header of an [input_request], filed under its own
    message id; so the parent of a reply that [replyToPrompt(id, ...)] finds
    has the message id [id]. *)
Theorem pending_requests_are_input_requests s id h :
  reachable s →
  _inputRequests (this s) !! id = Some h →
  msg_id h = id ∧ msg_type h = "input_request".
Proof. intros Hr. apply (reachable_requests_wf s Hr). Qed.

Lemma pending_requests_are_input_requests_witness :
  _inputRequests (this example_prompted) !! "req-7" = Some (header example_input_request)
  ∧ msg_id (header example_input_request) = "req-7"
  ∧ msg_type (header example_input_request) = "input_request".
Proof.
  assert (_inputRequests (this example_prompted) !! "req-7"
          = Some (header example_input_request)) as H by (by vm_compute).
  split; [exact H|].
  apply (pending_requests_are_input_requests example_prompted); [|exact H].
  apply reachable_step, example_ready_reachable.
Defined.

(** X7: a ['message'] event is only ever emitted for the iopub, shell and
    stdin channels, as a packet of type [jupyter-message]: nothing listens on
    the control socket, so what arrives there (the replies to shutdown and
    interrupt requests) is dropped. *)
Theorem only_inbound_channels_emit s :
  reachable s →
  (∀ p, p ∈ emitted (loop s) →
        type p = "jupyter-message"
        ∧ (socket p = JupyterSockets.iopub ∨ socket p = JupyterSockets.shell
           ∨ socket p = JupyterSockets.stdin))
  ∧ (∀ d k, get_socket d (this s) = Some k → ∀ l, l ∈ listeners k → listener_of d l = true)
  ∧ (∀ decoded, step (socket_message JupyterSockets.control decoded) s = s).
Proof.
  intros Hr. destruct (reachable_emitted_wf s Hr) as [Hl He]. split_and!.
  - intros p Hp. by eapply Forall_forall in He.
  - intros d k Hk l Hin. specialize (Hl d k Hk). by eapply Forall_forall in Hl.
  - intros decoded. simpl. unfold deliver.
    destruct (get_socket JupyterSockets.control (this s)) as [k|] eqn:Hk; [|done].
    specialize (Hl _ _ Hk). destruct (listeners k) as [|l ls]; [done|].
    by apply Forall_cons in Hl as [Hl _].
Qed.

Lemma only_inbound_channels_emit_witness :
  (∀ p, p ∈ emitted (loop example_prompted) →
        type p = "jupyter-message"
        ∧ (socket p = JupyterSockets.iopub ∨ socket p = JupyterSockets.shell
           ∨ socket p = JupyterSockets.stdin))
  ∧ (∀ d k, get_socket d (this example_prompted) = Some k →
            ∀ l, l ∈ listeners k → listener_of d l = true)
  ∧ (∀ decoded,
       step (socket_message JupyterSockets.control decoded) example_prompted
       = example_prompted).
Proof.
  apply only_inbound_channels_emit.
  apply reachable_step, example_ready_reachable.
Defined.
(** ** Shutdown, interrupt and restart *)

(** What [shutdown] and [interrupt] have in common: the status is set, then
    a message with a fresh id goes to the control socket, if that exists. *)
Lemma status_then_send st type message s :
  st ≠ Exited →
  sockets_wf s →
  let r := (let s := setStatus st s in
            let '(u, s) := uuidv4 s in
            send u type JupyterSockets.control message s) in
  _status (this r.2) = st
  ∧ new_status_events s r.2 = [st]
  ∧ match _control (this s) with
    | Some k =>
        ∃ m signing_key,
          r.1 = Normal
          ∧ sent_on JupyterSockets.control r.2 = sent k ++ [serializeJupyterMessage m signing_key]
          ∧ msg_type (header m) = type
          ∧ content m = message
          ∧ parent_header m = parent_empty
    | None =>
        (∃ e, r.1 = Throw e)
        ∧ channel (host r.2) = channel (host (setStatus st s))
        ∧ ∀ d, get_socket d (this r.2) = None
    end.
Proof.
  intros Hst Hwf.
  pose proof (setStatus_connection st s Hst) as Hc.
  pose proof (setStatus_status st s) as Hs.
  pose proof (setStatus_events st s) as Hev.
  revert Hc Hs Hev. generalize (setStatus st s). intros s1 Hc Hs Hev.
  unfold connection in Hc. injection Hc as Hcontrol Hshell Hstdin Hiopub Hhb Hsession _ _ _.
  cbv zeta. unfold uuidv4, send.
  destruct Hwf as [[Hk [ss Hss]]|Hnone].
  - destruct (Hk JupyterSockets.control) as [k Hkc]. simpl in Hkc.
    erewrite (sendToSocket_connected _ _ JupyterSockets.control);
      [|exact (eq_trans Hcontrol Hkc)|exact (eq_trans Hsession Hss)].
    rewrite Hkc. simpl. split; [exact Hs|].
    split; [unfold new_status_events; simpl; by rewrite Hev, drop_app_length|].
    do 2 eexists. split; [done|]. unfold sent_on. simpl. by split_and!.
  - pose proof (Hnone JupyterSockets.control) as Hkc. simpl in Hkc. rewrite Hkc.
    edestruct sendToSocket_disconnected as [e ->];
      [right; exact (eq_trans Hcontrol Hkc)|].
    simpl. split; [exact Hs|].
    split; [unfold new_status_events; simpl; by rewrite Hev, drop_app_length|].
    split; [by eexists|]. split; [done|].
    intros d. specialize (Hnone d). destruct d; simpl in *; congruence.
Qed.

(** X8: in every reachable state [shutdown(restart)] first announces
    [Exiting] and then sends one [shutdown_request] carrying the flag on the
    control socket; when there is no control socket, the status has changed
    to [Exiting] all the same before the call throws. *)
Theorem shutdown_sets_exiting_first restart s :
  reachable s →
  _status (this (shutdown restart s).2) = Exiting
  ∧ new_status_events s (shutdown restart s).2 = [Exiting]
  ∧ match _control (this s) with
    | Some k =>
        ∃ m signing_key,
          (shutdown restart s).1 = Normal
          ∧ sent_on JupyterSockets.control (shutdown restart s).2
            = sent k ++ [serializeJupyterMessage m signing_key]
          ∧ msg_type (header m) = "shutdown_request"
          ∧ content m = shutdown_request restart
          ∧ parent_header m = parent_empty
    | None =>
        (∃ e, (shutdown restart s).1 = Throw e)
        ∧ channel (host (shutdown restart s).2) = channel (host (setStatus Exiting s))
        ∧ ∀ d, get_socket d (this (shutdown restart s).2) = None
    end.
Proof.
  intros Hr.
  apply (status_then_send Exiting "shutdown_request" (shutdown_request restart) s);
    [done|by apply reachable_sockets_wf].
Qed.

Lemma shutdown_sets_exiting_first_witness :
  _status (this (shutdown false example_new).2) = Exiting
  ∧ new_status_events example_new (shutdown false example_new).2 = [Exiting]
  ∧ match _control (this example_new) with
    | Some k =>
        ∃ m signing_key,
          (shutdown false example_new).1 = Normal
          ∧ sent_on JupyterSockets.control (shutdown false example_new).2
            = sent k ++ [serializeJupyterMessage m signing_key]
          ∧ msg_type (header m) = "shutdown_request"
          ∧ content m = shutdown_request false
          ∧ parent_header m = parent_empty
    | None =>
        (∃ e, (shutdown false example_new).1 = Throw e)
        ∧ channel (host (shutdown false example_new).2)
          = channel (host (setStatus Exiting example_new))
        ∧ ∀ d, get_socket d (this (shutdown false example_new).2) = None
    end.
Proof.
  apply shutdown_sets_exiting_first.
  by exists example_host, example_spec, "r-runtime", false, [].
Defined.

(** X9: in every reachable state [interrupt] first announces [Interrupting]
    and then sends one [interrupt_request] on the control socket; when there
    is no control socket, the status has changed to [Interrupting] all the
    same before the call throws. *)
Theorem interrupt_sets_interrupting_first s :
  reachable s →
  _status (this (interrupt s).2) = Interrupting
  ∧ new_status_events s (interrupt s).2 = [Interrupting]
  ∧ match _control (this s) with
    | Some k =>
        ∃ m signing_key,
          (interrupt s).1 = Normal
          ∧ sent_on JupyterSockets.control (interrupt s).2
            = sent k ++ [serializeJupyterMessage m signing_key]
          ∧ msg_type (header m) = "interrupt_request"
          ∧ content m = interrupt_request
          ∧ parent_header m = parent_empty
    | None =>
        (∃ e, (interrupt s).1 = Throw e)
        ∧ channel (host (interrupt s).2) = channel (host (setStatus Interrupting s))
        ∧ ∀ d, get_socket d (this (interrupt s).2) = None
    end.
Proof.
  intros Hr.
  apply (status_then_send Interrupting "interrupt_request" interrupt_request s);
    [done|by apply reachable_sockets_wf].
Qed.

Lemma interrupt_sets_interrupting_first_witness :
  _status (this (interrupt example_ready).2) = Interrupting
  ∧ new_status_events example_ready (interrupt example_ready).2 = [Interrupting]
  ∧ match _control (this example_ready) with
    | Some k =>
        ∃ m signing_key,
          (interrupt example_ready).1 = Normal
          ∧ sent_on JupyterSockets.control (interrupt example_ready).2
            = sent k ++ [serializeJupyterMessage m signing_key]
          ∧ msg_type (header m) = "interrupt_request"
          ∧ content m = interrupt_request
          ∧ parent_header m = parent_empty
    | None =>
        (∃ e, (interrupt example_ready).1 = Throw e)
        ∧ channel (host (interrupt example_ready).2)
          = channel (host (setStatus Interrupting example_ready))
        ∧ ∀ d, get_socket d (this (interrupt example_ready).2) = None
    end.
Proof.
  apply interrupt_sets_interrupting_first.
  by exists example_host, example_spec, "r-runtime", false, example_startup.
Defined.

(** X10: [restart] announces [Exiting] twice, once itself and once through
    [shutdown], whether or not the shutdown request can be sent. *)
Theorem restart_announces_exiting_twice s :
  _status (this (restart s).2) = Exiting
  ∧ new_status_events s (restart s).2 = [Exiting; Exiting].
Proof.
  assert (_status (this (restart s).2) = _status (this (setStatus Exiting (setStatus Exiting s)))
          ∧ status_events (loop (restart s).2)
            = status_events (loop (setStatus Exiting (setStatus Exiting s)))) as [Hs He].
  { unfold restart, shutdown. generalize (setStatus Exiting (setStatus Exiting s)).
    intros s2. unfold uuidv4. cbv zeta.
    match goal with |- context [send ?a ?b ?c ?d ?s0] =>
      pose proof (core_frame_snd (f:=send a b c d) s0) as Hcore;
      destruct (send a b c d s0) as [[|e] s3]
    end; unfold core in Hcore; simpl in *.
    - destruct (_process (this s3)); simpl; split; congruence.
    - split; congruence. }
  rewrite Hs, setStatus_status. split; [done|].
  unfold new_status_events. by rewrite He, !setStatus_events, <-app_assoc, drop_app_length.
Qed.
(** ** Comms and disposal *)

(** A request on the shell socket with a fresh message id. *)
Lemma shell_send type message s k ss :
  _shell (this s) = Some k → _session (this s) = Some ss →
  let msg :=
    mkMessage [] message
      (mkHeader ("uuid-" +:+ pretty (fresh (host s))) type "5.0" (toISOString (now (host s)))
                (sessionId (state ss)) (os_username (host s))) [] parent_empty in
  (let '(u, s) := uuidv4 s in send u type JupyterSockets.shell message s)
  = (Normal,
     set_shell (Some (socket_send (serializeJupyterMessage msg (key (state ss))) k))
       (appendLine (log_send type (title k) msg) (set_fresh (S (fresh (host s))) s))).
Proof.
  intros Hk Hs. unfold uuidv4, send. cbv zeta.
  by erewrite (sendToSocket_connected _ _ JupyterSockets.shell); [|exact Hk|exact Hs].
Qed.

Lemma shell_send_disconnected type message s :
  _shell (this s) = None →
  ∃ e, (let '(u, s) := uuidv4 s in send u type JupyterSockets.shell message s)
       = (Throw e, set_fresh (S (fresh (host s))) s).
Proof.
  intros Hk. unfold uuidv4, send. cbv zeta.
  edestruct sendToSocket_disconnected as [e ->]; [right; exact Hk|]. by eexists.
Qed.

(** X11: in every reachable state with a shell socket, [openComm],
    [closeComm] and [sendCommMessage] each send one message on the shell
    socket, of type [comm_open], [comm_close] and [comm_msg], whose content
    carries the comm id (and the target name and the data) given; without a
    shell socket each of them throws, and nothing is logged or sent. *)
Theorem comm_requests_go_to_shell targetName id data s :
  reachable s →
  match _shell (this s) with
  | Some k =>
      ∃ s1 s2 s3 m1 m2 m3 signing_key,
        openComm targetName id data s = (Normal, s1)
        ∧ closeComm id s = (Normal, s2)
        ∧ sendCommMessage id data s = (Normal, s3)
        ∧ sent_on JupyterSockets.shell s1 = sent k ++ [serializeJupyterMessage m1 signing_key]
        ∧ sent_on JupyterSockets.shell s2 = sent k ++ [serializeJupyterMessage m2 signing_key]
        ∧ sent_on JupyterSockets.shell s3 = sent k ++ [serializeJupyterMessage m3 signing_key]
        ∧ msg_type (header m1) = "comm_open" ∧ content m1 = comm_open targetName id data
        ∧ msg_type (header m2) = "comm_close" ∧ content m2 = comm_close id
        ∧ msg_type (header m3) = "comm_msg" ∧ content m3 = comm_msg id data
  | None =>
      ∃ e1 e2 e3 s1 s2 s3,
        openComm targetName id data s = (Throw e1, s1)
        ∧ closeComm id s = (Throw e2, s2)
        ∧ sendCommMessage id data s = (Throw e3, s3)
        ∧ this s1 = this s ∧ this s2 = this s ∧ this s3 = this s
        ∧ channel (host s1) = channel (host s)
        ∧ channel (host s2) = channel (host s)
        ∧ channel (host s3) = channel (host s)
  end.
Proof.
  intros Hr. destruct (_shell (this s)) as [k|] eqn:Hk.
  - destruct (reachable_connected s JupyterSockets.shell k Hr Hk) as [[ss Hs] _].
    unfold openComm, closeComm, sendCommMessage.
    rewrite !(shell_send _ _ s k ss Hk Hs).
    do 7 eexists. split_and!; try reflexivity.
  - unfold openComm, closeComm, sendCommMessage.
    destruct (shell_send_disconnected "comm_open" (comm_open targetName id data) s Hk)
      as [e1 ->].
    destruct (shell_send_disconnected "comm_close" (comm_close id) s Hk) as [e2 ->].
    destruct (shell_send_disconnected "comm_msg" (comm_msg id data) s Hk) as [e3 ->].
    do 6 eexists. split_and!; reflexivity.
Qed.

Lemma comm_requests_go_to_shell_witness :
  match _shell (this example_ready) with
  | Some k =>
      ∃ s1 s2 s3 m1 m2 m3 signing_key,
        openComm "positron.plot" "comm-1" (opaque_data "{}") example_ready = (Normal, s1)
        ∧ closeComm "comm-1" example_ready = (Normal, s2)
        ∧ sendCommMessage "comm-1" (opaque_data "{}") example_ready = (Normal, s3)
        ∧ sent_on JupyterSockets.shell s1 = sent k ++ [serializeJupyterMessage m1 signing_key]
        ∧ sent_on JupyterSockets.shell s2 = sent k ++ [serializeJupyterMessage m2 signing_key]
        ∧ sent_on JupyterSockets.shell s3 = sent k ++ [serializeJupyterMessage m3 signing_key]
        ∧ msg_type (header m1) = "comm_open"
        ∧ content m1 = comm_open "positron.plot" "comm-1" (opaque_data "{}")
        ∧ msg_type (header m2) = "comm_close" ∧ content m2 = comm_close "comm-1"
        ∧ msg_type (header m3) = "comm_msg"
        ∧ content m3 = comm_msg "comm-1" (opaque_data "{}")
  | None =>
      ∃ e1 e2 e3 s1 s2 s3,
        openComm "positron.plot" "comm-1" (opaque_data "{}") example_ready = (Throw e1, s1)
        ∧ closeComm "comm-1" example_ready = (Throw e2, s2)
        ∧ sendCommMessage "comm-1" (opaque_data "{}") example_ready = (Throw e3, s3)
        ∧ this s1 = this example_ready ∧ this s2 = this example_ready
        ∧ this s3 = this example_ready
        ∧ channel (host s1) = channel (host example_ready)
        ∧ channel (host s2) = channel (host example_ready)
        ∧ channel (host s3) = channel (host example_ready)
  end.
Proof.
  apply comm_requests_go_to_shell.
  by exists example_host, example_spec, "r-runtime", false, example_startup.
Defined.

(** [startLsp] on a connected kernel. *)
Lemma startLsp_connected clientAddress s k ss :
  _shell (this s) = Some k → _session (this s) = Some ss →
  let id := "uuid-" +:+ pretty (fresh (host s)) in
  let msg :=
    mkMessage [] (comm_open "lsp" id (client_address clientAddress))
      (mkHeader ("uuid-" +:+ pretty (S (fresh (host s)))) "comm_open" "5.0"
                (toISOString (now (host s))) (sessionId (state ss)) (os_username (host s)))
      [] parent_empty in
  startLsp clientAddress s
  = (Normal,
     set_shell (Some (socket_send (serializeJupyterMessage msg (key (state ss))) k))
       (appendLine (log_send "comm_open" (title k) msg)
          (set_fresh (S (S (fresh (host s))))
             (set_lspCommId (Some id)
                (appendLine (log_starting_lsp clientAddress) s))))).
Proof.
  intros Hk Hs. unfold startLsp, uuidv4, send. cbv zeta.
  by erewrite (sendToSocket_connected _ _ JupyterSockets.shell); [|exact Hk|exact Hs].
Qed.

(** X12: on a connected kernel, [startLsp] sends a [comm_open] for the target
    [lsp] with a fresh comm id and the client address, and remembers the comm
    id; a [dispose] after it sends the [comm_close] for that same comm id on
    the shell socket before the sockets are disposed. *)
Theorem dispose_closes_the_lsp_comm clientAddress s :
  reachable s →
  is_Some (_shell (this s)) →
  ∃ k ss s1 s2 id m_open m_close k1 k2,
    _shell (this s) = Some k ∧ _session (this s) = Some ss
    ∧ startLsp clientAddress s = (Normal, s1)
    ∧ _lspCommId (this s1) = Some id
    ∧ _shell (this s1) = Some k1
    ∧ sent k1 = sent k ++ [serializeJupyterMessage m_open (key (state ss))]
    ∧ msg_type (header m_open) = "comm_open"
    ∧ content m_open = comm_open "lsp" id (client_address clientAddress)
    ∧ dispose s1 = (Normal, s2)
    ∧ k2 ∈ disposed_sockets (loop s2)
    ∧ sent k2 = sent k1 ++ [serializeJupyterMessage m_close (key (state ss))]
    ∧ msg_type (header m_close) = "comm_close"
    ∧ content m_close = comm_close id
    ∧ (∀ d, get_socket d (this s2) = None).
Proof.
  intros Hr [k Hk].
  destruct (reachable_connected s JupyterSockets.shell k Hr Hk) as [[ss Hs] _].
  exists k, ss. rewrite (startLsp_connected clientAddress s k ss Hk Hs). cbv zeta.
  match goal with |- context [(Normal, ?x) = (Normal, _)] => set (s1 := x) end.
  assert (_shell (this s1) = Some (socket_send (serializeJupyterMessage
            (mkMessage [] (comm_open "lsp" ("uuid-" +:+ pretty (fresh (host s)))
                             (client_address clientAddress))
               (mkHeader ("uuid-" +:+ pretty (S (fresh (host s)))) "comm_open" "5.0"
                  (toISOString (now (host s))) (sessionId (state ss))
                  (os_username (host s))) [] parent_empty) (key (state ss))) k))
    as Hk1 by reflexivity.
  assert (_session (this s1) = Some ss) as Hs1 by exact Hs.
  assert (_lspCommId (this s1) = Some ("uuid-" +:+ pretty (fresh (host s)))) as Hid
    by reflexivity.
  pose proof (dispose_unfold s1) as Hd. rewrite Hid in Hd.
  unfold closeComm in Hd. rewrite (shell_send _ _ s1 _ ss Hk1 Hs1) in Hd.
  cbv zeta in Hd.
  match type of Hd with context [(Normal, ?x) ;;; _] => set (s1' := x) in Hd end.
  change (dispose s1 = (Normal, dispose_rest s1')) in Hd.
  destruct (dispose_rest_spec s1') as (Hnone & _ & _ & _ & _ & Hdisposed & _).
  eexists s1, (dispose_rest s1'), _, _, _, _, _.
  split_and!; try reflexivity; try done.
  apply (Hdisposed JupyterSockets.shell). reflexivity.
  all: reflexivity.
Qed.

Lemma dispose_closes_the_lsp_comm_witness :
  ∃ k ss s1 s2 id m_open m_close k1 k2,
    _shell (this example_ready) = Some k ∧ _session (this example_ready) = Some ss
    ∧ startLsp "127.0.0.1:9000" example_ready = (Normal, s1)
    ∧ _lspCommId (this s1) = Some id
    ∧ _shell (this s1) = Some k1
    ∧ sent k1 = sent k ++ [serializeJupyterMessage m_open (key (state ss))]
    ∧ msg_type (header m_open) = "comm_open"
    ∧ content m_open = comm_open "lsp" id (client_address "127.0.0.1:9000")
    ∧ dispose s1 = (Normal, s2)
    ∧ k2 ∈ disposed_sockets (loop s2)
    ∧ sent k2 = sent k1 ++ [serializeJupyterMessage m_close (key (state ss))]
    ∧ msg_type (header m_close) = "comm_close"
    ∧ content m_close = comm_close id
    ∧ (∀ d, get_socket d (this s2) = None).
Proof.
  apply dispose_closes_the_lsp_comm.
  - by exists example_host, example_spec, "r-runtime", false, example_startup.
  - vm_compute. eauto.
Defined.

(** Writing a field with the value it has changes nothing. *)
Lemma set_logTail_id v s : _logTail (this s) = v → set_logTail v s = s.
Proof. by intros <-. Qed.
Lemma set_control_id v s : _control (this s) = v → set_control v s = s.
Proof. by intros <-. Qed.
Lemma set_shell_id v s : _shell (this s) = v → set_shell v s = s.
Proof. by intros <-. Qed.
Lemma set_stdin_id v s : _stdin (this s) = v → set_stdin v s = s.
Proof. by intros <-. Qed.
Lemma set_heartbeat_id v s : _heartbeat (this s) = v → set_heartbeat v s = s.
Proof. by intros <-. Qed.
Lemma set_iopub_id v s : _iopub (this s) = v → set_iopub v s = s.
Proof. by intros <-. Qed.

(** Once the connection state is disposed, disposing it again does nothing. *)
Lemma dispose_rest_disposed s : connection_disposed s → dispose_rest s = s.
Proof.
  intros (Hnone & Ha & Hb & Hl). unfold dispose_rest. cbv zeta.
  assert (match _logTail (this s) with
          | Some t => set_logTail (Some (mkTail (tail_path t) false)) s
          | None => s
          end = s) as ->.
  { destruct (_logTail (this s)) as [t|] eqn:Ht; [|done].
    apply set_logTail_id. rewrite Ht. f_equal. specialize (Hl t eq_refl).
    destruct t as [p w]. simpl in *. by subst. }
  assert (disposeHeartbeatTimers s = s) as ->.
  { unfold disposeHeartbeatTimers. rewrite Ha. cbv zeta. by rewrite Hb. }
  unfold disposeAllSockets, dispose_socket. cbv zeta.
  pose proof (Hnone JupyterSockets.control) as Hc.
  pose proof (Hnone JupyterSockets.shell) as Hsh.
  pose proof (Hnone JupyterSockets.stdin) as Hsi.
  pose proof (Hnone JupyterSockets.heartbeat) as Hhb.
  pose proof (Hnone JupyterSockets.iopub) as Hio.
  simpl in Hc, Hsh, Hsi, Hhb, Hio. simpl. rewrite Hc, Hsh, Hsi, Hhb, Hio.
  rewrite (set_control_id None s Hc), (set_shell_id None s Hsh), (set_stdin_id None s Hsi),
    (set_heartbeat_id None s Hhb). by apply set_iopub_id.
Qed.

Lemma dispose_rest_connection_disposed s : connection_disposed (dispose_rest s).
Proof.
  destruct (dispose_rest_spec s) as (Hnone & Ha & Hb & Hl & _).
  split_and!; try done. intros t Ht. rewrite Hl in Ht.
  destruct (_logTail (this s)); simpl in Ht; by simplify_eq.
Qed.

Lemma dispose_rest_lspCommId s :
  _lspCommId (this (dispose_rest s)) = _lspCommId (this s).
Proof.
  set (P := λ s' : Sys, _lspCommId (this s') = _lspCommId (this s)).
  change (P (dispose_rest s)). assert (P s) by reflexivity.
  open dispose_rest. walk P.
Qed.

(** X13: a second [dispose] does nothing when no LSP comm was started; once
    [startLsp] has set the comm id, the first [dispose] on a connected kernel
    closes the comm and drops the sockets, and the second one throws, because
    it tries to close the comm again on the shell socket that is gone. *)
Theorem dispose_twice s :
  reachable s →
  match _lspCommId (this s) with
  | None =>
      ∃ s1, dispose s = (Normal, s1) ∧ dispose s1 = (Normal, s1)
  | Some id =>
      is_Some (_shell (this s)) →
      ∃ s1 e s2, dispose s = (Normal, s1)
                 ∧ _shell (this s1) = None
                 ∧ dispose s1 = (Throw e, s2)
                 ∧ this s2 = this s1 ∧ loop s2 = loop s1
                 ∧ channel (host s2) = channel (host s1)
  end.
Proof.
  intros Hr. destruct (_lspCommId (this s)) as [id|] eqn:Hid.
  - intros [k Hk].
    destruct (reachable_connected s JupyterSockets.shell k Hr Hk) as [[ss Hs] _].
    pose proof (dispose_unfold s) as Hd. rewrite Hid in Hd. unfold closeComm in Hd.
    rewrite (shell_send _ _ s k ss Hk Hs) in Hd. cbv zeta in Hd.
    match type of Hd with context [(Normal, ?x) ;;; _] => set (s' := x) in Hd end.
    change (dispose s = (Normal, dispose_rest s')) in Hd.
    assert (_lspCommId (this (dispose_rest s')) = Some id) as Hid'
      by (by rewrite dispose_rest_lspCommId).
    destruct (dispose_rest_spec s') as (Hnone & _).
    pose proof (dispose_unfold (dispose_rest s')) as Hd2. rewrite Hid' in Hd2.
    unfold closeComm in Hd2.
    destruct (shell_send_disconnected "comm_close" (comm_close id) (dispose_rest s')
                (Hnone JupyterSockets.shell)) as [e He].
    rewrite He in Hd2. simpl in Hd2.
    eexists _, e, _. split; [exact Hd|]. split; [apply (Hnone JupyterSockets.shell)|].
    split; [exact Hd2|]. done.
  - pose proof (dispose_unfold s) as Hd. rewrite Hid in Hd.
    change (dispose s = (Normal, dispose_rest s)) in Hd.
    exists (dispose_rest s). split; [exact Hd|].
    pose proof (dispose_unfold (dispose_rest s)) as Hd2.
    assert (_lspCommId (this (dispose_rest s)) = None) as Hid'
      by (by rewrite dispose_rest_lspCommId).
    rewrite Hid' in Hd2.
    change (dispose (dispose_rest s) = (Normal, dispose_rest (dispose_rest s))) in Hd2.
    by rewrite (dispose_rest_disposed _ (dispose_rest_connection_disposed s)) in Hd2.
Qed.

Lemma dispose_twice_witness :
  match _lspCommId (this example_ready) with
  | None =>
      ∃ s1, dispose example_ready = (Normal, s1) ∧ dispose s1 = (Normal, s1)
  | Some id =>
      is_Some (_shell (this example_ready)) →
      ∃ s1 e s2, dispose example_ready = (Normal, s1)
                 ∧ _shell (this s1) = None
                 ∧ dispose s1 = (Throw e, s2)
                 ∧ this s2 = this s1 ∧ loop s2 = loop s1
                 ∧ channel (host s2) = channel (host s1)
  end.
Proof.
  apply dispose_twice.
  by exists example_host, example_spec, "r-runtime", false, example_startup.
Defined.
(** ** The terminal opens *)

(** What [connectToTerminal] leaves behind when it suspends at
    [await this.connect(...)], or when [connect] throws. *)
Lemma connectToTerminal_spec t ss r s :
  let s' := connectToTerminal t ss r s in
  let path := connectionFile (state ss) in
  _session (this s') = Some ss
  ∧ _terminal (this s') = Some t
  ∧ (∀ d, is_Some (get_socket d (this s')))
  ∧ close_listeners (loop s')
    = close_listeners (loop s) ++ [mkCloseListener (fresh (host s)) t]
  ∧ _logTail (this s')
    = (if bool_decide (is_Some (files (host s) !! logFile (state ss)))
       then Some (mkTail (logFile (state ss)) true) else _logTail (this s))
  ∧ _status (this s') = _status (this s)
  ∧ status_events (loop s') = status_events (loop s)
  ∧ workspaceState (host s') = workspaceState (host s)
  ∧ match files (host s) !! path with
    | Some (connection_json c) =>
        awaiting_connect (loop s')
        = awaiting_connect (loop s) ++ [mkPendingConnect (S (fresh (host s))) r]
        ∧ promises (loop s') = promises (loop s)
        ∧ unhandled (loop s') = unhandled (loop s)
        ∧ (port <$> _control (this s') = Some (Some (control_port c)))
        ∧ (port <$> _shell (this s') = Some (Some (shell_port c)))
        ∧ (port <$> _stdin (this s') = Some (Some (stdin_port c)))
        ∧ (port <$> _iopub (this s') = Some (Some (iopub_port c)))
        ∧ (port <$> _heartbeat (this s') = Some (Some (hb_port c)))
    | _ =>
        awaiting_connect (loop s') = awaiting_connect (loop s)
        ∧ (∀ d, port <$> get_socket d (this s') = Some None)
        ∧ match r with
          | Some p =>
              (promises (loop s) !! p = None →
               promises (loop s') !! p = Some (rejected (Error_connection_file path)))
              ∧ unhandled (loop s') = unhandled (loop s)
          | None =>
              unhandled (loop s') = unhandled (loop s) ++ [Error_connection_file path]
              ∧ promises (loop s') = promises (loop s)
          end
    end.
Proof.
  unfold connectToTerminal, streamLogFileToChannel. cbv zeta. simpl.
  destruct (bool_decide (is_Some (files (host s) !! logFile (state ss)))) eqn:Hlog;
    unfold connect; cbv zeta; simpl;
    destruct (files (host s) !! connectionFile (state ss)) as [[c|]|] eqn:Hfile; simpl;
    try (destruct r as [p|]; simpl; unfold settle; simpl;
         try (destruct (promises (loop s) !! p) eqn:Hp; simpl));
    split_and!; try reflexivity; try (intros []; by eexists); try (by intros []);
    try done; try (intros _; apply lookup_insert_eq).
Qed.

Lemma lookup_opened (ts : list Terminal) t : (ts ++ [t]) !! length ts = Some t.
Proof. by rewrite list_lookup_middle. Qed.

(** X14: a terminal that opens under another name than the kernel's, or
    without a process id (or with the process id 0), is ignored by every
    pending start: nothing is persisted, no listener is removed, no
    connection is made. *)
Theorem terminal_without_pid_is_ignored t s :
  name t ≠ display_name (_spec (this s))
  ∨ terminal_processId t = None ∨ terminal_processId t = Some 0%N →
  step (terminal_opened t) s = set_terminals (terminals (host s) ++ [t]) s.
Proof.
  intros H. simpl. generalize (open_listeners (loop s)). intros ls.
  induction ls as [|l ls IH]; simpl; [done|].
  assert (on_open_terminal l (length (terminals (host s)))
            (set_terminals (terminals (host s) ++ [t]) s)
          = set_terminals (terminals (host s) ++ [t]) s) as ->; [|exact IH].
  unfold on_open_terminal. simpl. rewrite lookup_opened.
  destruct H as [H|[H|H]].
  - by rewrite bool_decide_eq_false_2.
  - rewrite H. by destruct (bool_decide _).
  - rewrite H. by destruct (bool_decide _).
Qed.

Lemma terminal_without_pid_is_ignored_witness :
  step (terminal_opened (mkTerminal "R" None None true false)) example_starting
  = set_terminals (terminals (host example_starting) ++ [mkTerminal "R" None None true false])
      example_starting.
Proof.
  apply terminal_without_pid_is_ignored. right. left. reflexivity.
Defined.

(** The one pending start takes the terminal that opens under the kernel's
    name with a process id. *)
Lemma terminal_opened_accepted t l n s :
  open_listeners (loop s) = [l] →
  name t = display_name (_spec (this s)) →
  terminal_processId t = Some (Npos n) →
  step (terminal_opened t) s
  = connectToTerminal (length (terminals (host s)))
      (mkSession (with_processId (Some (Npos n)) (state (open_session l))))
      (Some (open_promise l))
      (set_open_listeners []
         (set_workspaceState
            (<[_runtimeId (this s) :=
                 with_processId (Some (Npos n)) (state (open_session l))]>
               (workspaceState (host s)))
            (appendLine
               (log_writing_session_state (_runtimeId (this s))
                  (with_processId (Some (Npos n)) (state (open_session l))))
               (set_terminals (terminals (host s) ++ [t]) s)))).
Proof.
  intros Hl Hname Hpid.
  simpl. rewrite Hl. simpl. unfold on_open_terminal. simpl.
  rewrite lookup_opened, Hpid, bool_decide_eq_true_2 by done. cbv zeta. simpl.
  rewrite Hl. by rewrite filter_cons_False, filter_nil by (intros H; by apply H).
Qed.

(** X15: when the terminal of a pending start opens under the kernel's name
    with a process id, the session state with that process id is stored in
    the workspace state under the runtime id, the listener is removed, the
    session and the terminal are bound and the five sockets are created; no
    status is announced.  If the connection file holds a connection
    specification, each of the five sockets is connected to its port of the
    specification and the call waits for them; if the file cannot be read,
    no socket is connected, the promise of the start is rejected with that
    error, and the status stays as it is. *)
Theorem opened_terminal_is_persisted_and_connected t l n s :
  open_listeners (loop s) = [l] →
  name t = display_name (_spec (this s)) →
  terminal_processId t = Some (Npos n) →
  let s' := step (terminal_opened t) s in
  let st := with_processId (Some (Npos n)) (state (open_session l)) in
  workspaceState (host s') !! _runtimeId (this s) = Some st
  ∧ _session (this s') = Some (mkSession st)
  ∧ _terminal (this s') = Some (length (terminals (host s)))
  ∧ open_listeners (loop s') = []
  ∧ (∀ d, is_Some (get_socket d (this s')))
  ∧ _status (this s') = _status (this s)
  ∧ status_events (loop s') = status_events (loop s)
  ∧ match files (host s) !! connectionFile st with
    | Some (connection_json c) =>
        awaiting_connect (loop s')
        = awaiting_connect (loop s)
            ++ [mkPendingConnect (S (fresh (host s))) (Some (open_promise l))]
        ∧ promises (loop s') = promises (loop s)
        ∧ (port <$> _control (this s') = Some (Some (control_port c)))
        ∧ (port <$> _shell (this s') = Some (Some (shell_port c)))
        ∧ (port <$> _stdin (this s') = Some (Some (stdin_port c)))
        ∧ (port <$> _iopub (this s') = Some (Some (iopub_port c)))
        ∧ (port <$> _heartbeat (this s') = Some (Some (hb_port c)))
    | _ =>
        awaiting_connect (loop s') = awaiting_connect (loop s)
        ∧ (promises (loop s) !! open_promise l = None →
           promises (loop s') !! open_promise l
           = Some (rejected (Error_connection_file (connectionFile st))))
        ∧ (∀ d, port <$> get_socket d (this s') = Some None)
    end.
Proof.
  intros Hl Hname Hpid. cbv zeta.
  rewrite (terminal_opened_accepted t l n s Hl Hname Hpid).
  match goal with |- context [connectToTerminal ?a ?b ?c ?d] =>
    pose proof (connectToTerminal_spec a b c d) as Hc
  end.
  cbv zeta in Hc. simpl in Hc.
  destruct Hc as (Hs & Ht & Hk & _ & _ & Hst & Hev & Hw & Hfile).
  split; [rewrite Hw; apply lookup_insert_eq|]. split; [exact Hs|]. split; [exact Ht|].
  split.
  { match goal with |- context [connectToTerminal ?a ?b ?c ?d] =>
      set (P := λ s' : Sys, open_listeners (loop s') = []);
      change (P (connectToTerminal a b c d)); assert (P d) by reflexivity;
      open connectToTerminal; walk P
    end. }
  split; [exact Hk|]. split; [exact Hst|]. split; [exact Hev|].
  change (connectionFile (with_processId (Some (N.pos n)) (state (open_session l))))
    with (connectionFile (state (open_session l))).
  destruct (files (host s) !! connectionFile (state (open_session l))) as [[c|]|];
    simpl in *.
  - destruct Hfile as (H1 & H2 & _ & H3 & H4 & H5 & H6 & H7). by split_and!.
  - destruct Hfile as (H1 & H2 & H3 & _). by split_and!.
  - destruct Hfile as (H1 & H2 & H3 & _). by split_and!.
Qed.

Lemma opened_terminal_is_persisted_and_connected_witness :
  let s' := step (terminal_opened example_terminal) example_starting in
  workspaceState (host s') !! "r-runtime" = Some (with_processId (Some 4242%N) example_state)
  ∧ _session (this s') = Some (mkSession (with_processId (Some 4242%N) example_state))
  ∧ _terminal (this s') = Some 0
  ∧ open_listeners (loop s') = []
  ∧ _status (this s') = Starting
  ∧ awaiting_connect (loop s') = [mkPendingConnect 3 (Some 0)]
  ∧ (port <$> _control (this s') = Some (Some 5001%N))
  ∧ (port <$> _shell (this s') = Some (Some 5002%N))
  ∧ (port <$> _stdin (this s') = Some (Some 5003%N))
  ∧ (port <$> _iopub (this s') = Some (Some 5004%N))
  ∧ (port <$> _heartbeat (this s') = Some (Some 5005%N)).
Proof.
  assert (open_listeners (loop example_starting) = [mkOpenListener 1 0 (mkSession example_state)])
    as Hl by (by vm_compute).
  assert (_status (this example_starting) = Starting) as Hst by (by vm_compute).
  assert (files (host example_starting) !! "/tmp/kernel.json"
          = Some (connection_json example_ports)) as Hf by (by vm_compute).
  assert (awaiting_connect (loop example_starting) = []) as Ha by (by vm_compute).
  assert (fresh (host example_starting) = 2) as Hfr by (by vm_compute).
  assert (terminals (host example_starting) = []) as Ht by (by vm_compute).
  destruct (opened_terminal_is_persisted_and_connected example_terminal
              (mkOpenListener 1 0 (mkSession example_state)) 4242%positive example_starting
              Hl eq_refl eq_refl) as (H1 & H2 & H3 & H4 & _ & H5 & _ & H6).
  cbv zeta. simpl in H6. rewrite Hf, Ha, Hfr in H6. rewrite Ht in H3. rewrite Hst in H5.
  destruct H6 as (H6 & _ & P1 & P2 & P3 & P4 & P5). by split_and!.
Defined.

(** ** Reconnecting to the persisted terminal *)

(** X16: a supervisor constructed over persisted session state, where an
    open terminal has the persisted process id ([i] being the first such
    terminal), keeps the persisted state and, once the process ids are known,
    schedules the connection for the next tick; when that timer fires, the
    status goes from [Initializing] to [Starting], and the supervisor is
    bound to the terminal [i] and to a session made of the persisted state,
    with its five sockets created. *)
Theorem reconnect_finds_the_terminal context spec runtimeId lsp sessionState i rest :
  workspaceState context !! runtimeId = Some sessionState →
  scan_matches sessionState context (window_terminals context) = i :: rest →
  (∀ t, t ∈ timers context → timer_id t ≠ fresh context) →
  let s0 := new_JupyterKernel context spec runtimeId lsp in
  let s1 := step terminals_scanned s0 in
  let s2 := step (timer_fired (fresh context)) s1 in
  _status (this s1) = Initializing
  ∧ status_events (loop s1) = [Initializing]
  ∧ workspaceState (host s1) = workspaceState context
  ∧ timers (host s1)
    = timers context ++ [mkTimer (fresh context) 0 (run_reconnect i sessionState)]
  ∧ _status (this s2) = Starting
  ∧ status_events (loop s2) = [Initializing; Starting]
  ∧ _session (this s2) = Some (mkSession sessionState)
  ∧ _terminal (this s2) = Some i
  ∧ timers (host s2) = timers context
  ∧ (∀ d, is_Some (get_socket d (this s2))).
Proof.
  intros Hw Hm Hfresh s0 s1 s2. subst s2 s1 s0.
  rewrite (new_JupyterKernel_reconnecting _ _ _ _ _ Hw).
  match goal with |- context [step terminals_scanned ?x] =>
    assert (step terminals_scanned x
            = (setTimeout (run_reconnect i sessionState) 0
                 (appendLine
                    (log_connecting_terminal (language spec)
                       (from_option name "" (terminals (host
                          (foldl (λ s i, scan_terminal sessionState i s) (set_scanning None x)
                             (window_terminals context))) !! i))
                       (processId sessionState))
                    (foldl (λ s i, scan_terminal sessionState i s) (set_scanning None x)
                       (window_terminals context)))).2) as ->
  end.
  { cbn [step]. simpl scanning. cbv iota beta. unfold reconnect_scanned. cbv zeta.
    simpl scan_state. simpl scan_terminals.
    change (scan_matches sessionState (host _) (window_terminals context))
      with (scan_matches sessionState context (window_terminals context)).
    rewrite Hm. by rewrite !scan_fold_table. }
  rewrite !scan_fold_table.
  match goal with |- context [step (timer_fired _) ?x] => set (s1 := x) end.
  assert (_status (this s1) = Initializing) as H1 by reflexivity.
  assert (status_events (loop s1) = [Initializing]) as H2 by reflexivity.
  assert (workspaceState (host s1) = workspaceState context) as H3 by reflexivity.
  assert (timers (host s1)
          = timers context ++ [mkTimer (fresh context) 0 (run_reconnect i sessionState)])
    as H4 by reflexivity.
  assert (status_listeners (this s1) = [OnStatusChange]) as H5 by reflexivity.
  clearbody s1.
  assert (filter (λ t, timer_id t = fresh context) (timers (host s1))
          = [mkTimer (fresh context) 0 (run_reconnect i sessionState)]) as Hf.
  { rewrite H4, filter_app, filter_cons_True, filter_nil by done.
    assert (filter (λ t, timer_id t = fresh context) (timers context) = []) as ->; [|done].
    destruct (filter _ (timers context)) as [|t ts] eqn:Heq; [done|].
    assert (t ∈ filter (λ t, timer_id t = fresh context) (timers context)) as Hin
      by (rewrite Heq; left).
    apply list_elem_of_filter in Hin as [Hid Hin]. by destruct (Hfresh t Hin). }
  destruct (timer_fired_runs _ _ _ s1 Hf) as [-> _]. cbn [run_timer].
  assert (timers (host (clearTimeout (fresh context) s1)) = timers context) as Ht.
  { unfold clearTimeout. simpl. rewrite H4, filter_app, filter_cons_False, filter_nil,
      app_nil_r by (intros H; by apply H).
    clear -Hfresh. induction (timers context) as [|t ts IH]; [done|].
    rewrite filter_cons_True by (apply Hfresh; left).
    f_equal. apply IH. intros t' Hin. apply Hfresh. by right. }
  rewrite (setStatus_idle Starting) by exact H5.
  match goal with |- context [connectToTerminal ?a ?b ?c ?d] =>
    pose proof (connectToTerminal_spec a b c d) as Hc;
    set (P := λ s' : Sys, timers (host s') = timers context);
    assert (P (connectToTerminal a b c d)) as Htm
      by (assert (P d) by exact Ht; open connectToTerminal; walk P)
  end.
  cbv zeta in Hc. destruct Hc as (Hs & Htt & Hk & _ & _ & Hst & Hev & _).
  split_and!; try done.
  rewrite Hev. simpl. by rewrite H2.
Qed.

Lemma reconnect_finds_the_terminal_witness :
  let context :=
    mkHost {["r-runtime" := with_processId (Some 4242%N) example_state]}
           [mkTerminal "bash" (Some 8%N) None true false; example_terminal]
           ∅ [] [] None "user" 0 [] 0 in
  let s0 := new_JupyterKernel context example_spec "r-runtime" false in
  let s1 := step terminals_scanned s0 in
  let s2 := step (timer_fired 0) s1 in
  _status (this s1) = Initializing
  ∧ status_events (loop s1) = [Initializing]
  ∧ workspaceState (host s1) = workspaceState context
  ∧ timers (host s1)
    = [mkTimer 0 0 (run_reconnect 1 (with_processId (Some 4242%N) example_state))]
  ∧ _status (this s2) = Starting
  ∧ status_events (loop s2) = [Initializing; Starting]
  ∧ _session (this s2) = Some (mkSession (with_processId (Some 4242%N) example_state))
  ∧ _terminal (this s2) = Some 1
  ∧ timers (host s2) = []
  ∧ (∀ d, is_Some (get_socket d (this s2))).
Proof.
  intros context.
  apply (reconnect_finds_the_terminal context example_spec "r-runtime" false
           (with_processId (Some 4242%N) example_state) 1 []).
  - reflexivity.
  - by vm_compute.
  - intros t Hin. inversion Hin.
Defined.
(** ** From the connected sockets to the heartbeat loop *)

Lemma call_status_listener_quiet l st s :
  st ≠ Exited → st ≠ Uninitialized →
  quiet_view (call_status_listener l st s) = quiet_view s.
Proof.
  intros He Hu. destruct l as [|p]; simpl.
  - destruct st; try done. simpl. by destruct (_ && _).
  - unfold deferred_start_callback, settle, appendLine.
    destruct st; try done; simpl; by destruct (promises (loop s) !! p).
Qed.

Lemma setStatus_quiet st s :
  st ≠ Exited → st ≠ Uninitialized → quiet_view (setStatus st s) = quiet_view s.
Proof.
  intros He Hu. unfold setStatus, emit_status.
  set (s0 := set_status_events _ s).
  change (quiet_view s) with (quiet_view s0).
  generalize (status_listeners (this s0)). clearbody s0.
  intros ls. revert s0. induction ls as [|l ls IH]; intros s0; [done|].
  cbn [foldl]. cbv zeta in *. rewrite IH. by apply call_status_listener_quiet.
Qed.

Lemma with_socket_get d f s d' :
  get_socket d' (this (with_socket d f s))
  = if bool_decide (d = d') then f <$> get_socket d (this s) else get_socket d' (this s).
Proof.
  unfold with_socket. case_bool_decide as Hd.
  - subst d'. destruct (get_socket d (this s)) as [k|] eqn:Hk; simpl.
    + by rewrite get_set_socket.
    + exact Hk.
  - destruct (get_socket d (this s)) as [k|] eqn:Hk; [|done].
    by rewrite get_set_socket_ne.
Qed.

Lemma with_socket_rest d f s :
  host (with_socket d f s) = host s ∧ loop (with_socket d f s) = loop s
  ∧ _status (this (with_socket d f s)) = _status (this s)
  ∧ _heartbeatTimer (this (with_socket d f s)) = _heartbeatTimer (this s).
Proof.
  unfold with_socket. destruct (get_socket d (this s)); [|done]. by destruct d.
Qed.

Lemma settle_opt_rest r v s :
  status_events (loop (settle_opt r v s)) = status_events (loop s)
  ∧ awaiting_connect (loop (settle_opt r v s)) = awaiting_connect (loop s)
  ∧ match r with
    | Some p =>
        promises (loop s) !! p = None → promises (loop (settle_opt r v s)) !! p = Some v
    | None => promises (loop (settle_opt r v s)) = promises (loop s)
    end.
Proof.
  destruct r as [p|]; simpl.
  - unfold settle. destruct (promises (loop s) !! p) eqn:Hp; simpl; split_and!; try done.
    intros _. apply lookup_insert_eq.
  - by destruct v.
Qed.

Lemma settle_opt_this r v s : this (settle_opt r v s) = this s.
Proof.
  destruct r as [p|], v; simpl; try done; unfold settle; by destruct (_ !! _).
Qed.

(** X17: when the sockets of a pending connection are connected, the
    one-shot listener for the first heartbeat reply is installed and [hello]
    is sent on the heartbeat socket, the iopub socket is subscribed, and the
    iopub, shell and stdin sockets get their message listeners; nothing
    listens on the control socket.  The promise of the start is fulfilled
    there and then, while the status is unchanged: the status is not [Ready]
    before the first heartbeat reply. *)
Theorem connected_sockets_start_listening id c rest s :
  filter (λ c, connect_id c = id) (awaiting_connect (loop s)) = c :: rest →
  let s1 := step (sockets_connected id) s in
  _heartbeat (this s1)
  = (λ k, socket_send hello (socket_on InitialHeartbeat k)) <$> _heartbeat (this s)
  ∧ _iopub (this s1) = (λ k, socket_on OnIopubMessage (socket_subscribe k)) <$> _iopub (this s)
  ∧ _shell (this s1) = socket_on OnShellMessage <$> _shell (this s)
  ∧ _stdin (this s1) = socket_on OnStdinMessage <$> _stdin (this s)
  ∧ _control (this s1) = _control (this s)
  ∧ _status (this s1) = _status (this s)
  ∧ status_events (loop s1) = status_events (loop s)
  ∧ awaiting_connect (loop s1) = filter (λ c, connect_id c ≠ id) (awaiting_connect (loop s))
  ∧ match connect_promise c with
    | Some p =>
        promises (loop s) !! p = None → promises (loop s1) !! p = Some fulfilled
    | None => promises (loop s1) = promises (loop s)
    end.
Proof.
  intros Hc. cbv zeta. cbn [step]. rewrite Hc.
  unfold connectToTerminal_connected. cbv zeta.
  match goal with |- context [settle_opt _ _ ?x] => set (s5 := x) end.
  assert (∀ d, get_socket d (this s5)
               = match d with
                 | JupyterSockets.heartbeat =>
                     (λ k, socket_send hello (socket_on InitialHeartbeat k))
                       <$> _heartbeat (this s)
                 | JupyterSockets.iopub =>
                     (λ k, socket_on OnIopubMessage (socket_subscribe k)) <$> _iopub (this s)
                 | JupyterSockets.shell => socket_on OnShellMessage <$> _shell (this s)
                 | JupyterSockets.stdin => socket_on OnStdinMessage <$> _stdin (this s)
                 | JupyterSockets.control => _control (this s)
                 end) as Hget.
  { intros d. subst s5. rewrite !with_socket_get.
    destruct d; simpl; try reflexivity;
      match goal with |- _ <$> (_ <$> ?x) = _ => by destruct x end. }
  assert (host s5 = host s
          ∧ loop s5 = loop (set_awaiting_connect
                              (filter (λ c, connect_id c ≠ id) (awaiting_connect (loop s))) s)
          ∧ _status (this s5) = _status (this s)) as (Hh & Hl & Hst).
  { subst s5.
    repeat match goal with |- context [with_socket ?d ?f ?x] =>
      destruct (with_socket_rest d f x) as (-> & -> & -> & _)
    end. done. }
  clearbody s5.
  pose proof (settle_opt_this (connect_promise c) fulfilled s5) as Hthis.
  pose proof (settle_opt_rest (connect_promise c) fulfilled s5) as (He & Ha & Hp).
  revert Hthis He Ha Hp. generalize (settle_opt (connect_promise c) fulfilled s5).
  intros s6 Hthis He Ha Hp. rewrite Hthis.
  split; [apply (Hget JupyterSockets.heartbeat)|].
  split; [apply (Hget JupyterSockets.iopub)|].
  split; [apply (Hget JupyterSockets.shell)|].
  split; [apply (Hget JupyterSockets.stdin)|].
  split; [apply (Hget JupyterSockets.control)|].
  split; [exact Hst|].
  split; [by rewrite He, Hl|]. split; [by rewrite Ha, Hl|].
  rewrite Hl in Hp. exact Hp.
Qed.

Lemma connected_sockets_start_listening_witness :
  let s := step (terminal_opened example_terminal) example_starting in
  let s1 := step (sockets_connected 3) s in
  _heartbeat (this s1)
  = (λ k, socket_send hello (socket_on InitialHeartbeat k)) <$> _heartbeat (this s)
  ∧ _iopub (this s1) = (λ k, socket_on OnIopubMessage (socket_subscribe k)) <$> _iopub (this s)
  ∧ _shell (this s1) = socket_on OnShellMessage <$> _shell (this s)
  ∧ _stdin (this s1) = socket_on OnStdinMessage <$> _stdin (this s)
  ∧ _control (this s1) = _control (this s)
  ∧ _status (this s1) = Starting
  ∧ promises (loop s1) !! 0 = Some fulfilled.
Proof.
  intros s.
  assert (filter (λ c, connect_id c = 3) (awaiting_connect (loop s))
          = [mkPendingConnect 3 (Some 0)]) as Hc by (by vm_compute).
  assert (_status (this s) = Starting) as Hst by (by vm_compute).
  assert (promises (loop s) !! 0 = None) as Hp by (by vm_compute).
  destruct (connected_sockets_start_listening 3 (mkPendingConnect 3 (Some 0)) [] s Hc)
    as (H1 & H2 & H3 & H4 & H5 & H6 & _ & _ & H7).
  cbv zeta. rewrite Hst in H6. simpl in H7. specialize (H7 Hp). by split_and!.
Defined.

Lemma heartbeat_socket s :
  _heartbeat (this (heartbeat s)) = socket_send hello <$> _heartbeat (this s).
Proof.
  unfold heartbeat, setTimeout. cbv zeta.
  change (get_socket JupyterSockets.heartbeat
            (this (with_socket JupyterSockets.heartbeat (socket_send hello)
                     (appendLine log_send_heartbeat
                        (set_lastHeartbeat (getUTCMilliseconds s) s))))
          = socket_send hello <$> _heartbeat (this s)).
  by rewrite with_socket_get.
Qed.

(** Replies that find only the regular listener: each goes to
    [onHeartbeat], which leaves the socket, the status and the status events
    alone. *)
Lemma onHeartbeat_socket msg s : _heartbeat (this (onHeartbeat msg s)) = _heartbeat (this s).
Proof.
  unfold onHeartbeat, clearTimeout, setTimeout, appendLine.
  destruct (_heartbeatTimer (this s)) as [id|] eqn:Hid; simpl;
    destruct (bool_decide (_lastHeartbeat (this s) ≠ 0%Z)) eqn:Hl; simpl;
    rewrite ?Hl; done.
Qed.

Lemma regular_reply msg s k :
  _heartbeat (this s) = Some k → listeners k = [OnHeartbeat] →
  step (heartbeat_message msg) s = onHeartbeat msg s.
Proof.
  intros Hk Hl. cbn [step]. unfold deliver.
  change (get_socket JupyterSockets.heartbeat (this s)) with (_heartbeat (this s)).
  rewrite Hk. simpl. by rewrite Hl.
Qed.

Lemma regular_replies (later : list string) s k :
  _heartbeat (this s) = Some k → listeners k = [OnHeartbeat] →
  let s' := run (heartbeat_message <$> later) s in
  _heartbeat (this s') = Some k
  ∧ _status (this s') = _status (this s)
  ∧ status_events (loop s') = status_events (loop s).
Proof.
  revert s. induction later as [|m later IH]; intros s Hk Hl; [done|].
  cbv zeta. change (run (heartbeat_message <$> m :: later) s)
    with (run (heartbeat_message <$> later) (step (heartbeat_message m) s)).
  rewrite (regular_reply m s k Hk Hl).
  destruct (onHeartbeat_reply m s) as (Hst & Hev & _).
  destruct (IH (onHeartbeat m s)) as (H1 & H2 & H3);
    [by rewrite onHeartbeat_socket|done|].
  split; [exact H1|]. split; [by rewrite H2|by rewrite H3].
Qed.

(** X18: the first reply on the heartbeat socket, delivered to the one-shot
    listener, sets the status to [Ready] with one status event, replaces the
    one-shot listener by the regular one, sends [hello] and arms the
    time-out.  The replies that come next, however many, with no other
    event in between, go to the regular listener and announce nothing: the
    status stays [Ready] and the socket keeps the regular listener only. *)
Theorem first_heartbeat_sets_ready msg s k :
  _heartbeat (this s) = Some k →
  listeners k = [InitialHeartbeat] →
  let s1 := step (heartbeat_message msg) s in
  _status (this s1) = Ready
  ∧ new_status_events s s1 = [Ready]
  ∧ (∃ k1, _heartbeat (this s1) = Some k1
           ∧ listeners k1 = [OnHeartbeat]
           ∧ sent k1 = sent k ++ [hello])
  ∧ timers (host s1)
    = timers (host s)
        ++ [mkTimer (fresh (host s)) (heartbeat_seconds s * 1000) run_heartbeat_timeout]
  ∧ _heartbeatTimer (this s1) = Some (fresh (host s))
  ∧ (∀ later, step (heartbeat_message later) s1 = onHeartbeat later s1)
  ∧ (∀ later : list string,
       let s2 := run (heartbeat_message <$> later) s1 in
       _status (this s2) = Ready
       ∧ new_status_events s1 s2 = []
       ∧ _heartbeat (this s2) = _heartbeat (this s1)).
Proof.
  intros Hk Hl. cbv zeta.
  assert (step (heartbeat_message msg) s
          = initial_heartbeat msg
              (set_heartbeat (Some (socket_off InitialHeartbeat k)) s)) as ->.
  { cbn [step]. unfold deliver. simpl. rewrite Hk, Hl. simpl.
    unfold with_socket. simpl. by rewrite Hk. }
  unfold initial_heartbeat. cbv zeta.
  set (s0 := appendLine (log_initial_heartbeat msg)
               (set_heartbeat (Some (socket_off InitialHeartbeat k)) s)).
  pose proof (setStatus_quiet Ready s0 ltac:(done) ltac:(done)) as Hq.
  pose proof (setStatus_status Ready s0) as Hst.
  pose proof (setStatus_events Ready s0) as Hev.
  revert Hq Hst Hev. generalize (setStatus Ready s0). intros s1 Hq Hst Hev.
  unfold quiet_view in Hq.
  assert (_heartbeat (this s1) = Some (socket_off InitialHeartbeat k)) as Hk1
    by (subst s0; simpl in Hq; congruence).
  assert (timers (host s1) = timers (host s)) as Ht by (subst s0; simpl in Hq; congruence).
  assert (fresh (host s1) = fresh (host s)) as Hf by (subst s0; simpl in Hq; congruence).
  assert (heartbeat_config (host s1) = heartbeat_config (host s)) as Hcfg
    by (subst s0; simpl in Hq; congruence).
  assert (status_events (loop s1) = status_events (loop s) ++ [Ready]) as Hev1
    by (rewrite Hev; by subst s0).
  clear Hq Hev. clearbody s0.
  set (s1' := appendLine (log_starting_heartbeat (heartbeat_seconds s1)) s1).
  destruct (heartbeat_sends s1') as (Htm & Hht & _ & _ & Hst2 & Hev2).
  assert (_heartbeat (this (heartbeat s1'))
          = Some (socket_send hello (socket_off InitialHeartbeat k))) as Hk2.
  { rewrite heartbeat_socket. change (_heartbeat (this s1')) with (_heartbeat (this s1)).
    by rewrite Hk1. }
  assert (heartbeat_seconds s1' = heartbeat_seconds s) as Hsec
    by (unfold heartbeat_seconds; subst s1'; simpl; by rewrite Hcfg).
  rewrite Hsec in Htm.
  change (timers (host s1')) with (timers (host s1)) in Htm.
  change (fresh (host s1')) with (fresh (host s1)) in Htm, Hht.
  change (_status (this s1')) with (_status (this s1)) in Hst2.
  change (status_events (loop s1')) with (status_events (loop s1)) in Hev2.
  rewrite Ht, Hf in Htm. rewrite Hf in Hht. rewrite Hst in Hst2. rewrite Hev1 in Hev2.
  revert Htm Hht Hst2 Hev2 Hk2. generalize (heartbeat s1').
  intros s2 Htm Hht Hst2 Hev2 Hk2.
  pose proof (with_socket_get JupyterSockets.heartbeat (socket_on OnHeartbeat) s2
                JupyterSockets.heartbeat) as Hk3.
  destruct (with_socket_rest JupyterSockets.heartbeat (socket_on OnHeartbeat) s2)
    as (Hh3 & Hl3 & Hst3 & Hht3).
  simpl in Hk3. rewrite Hk2 in Hk3. simpl in Hk3.
  revert Hk3 Hh3 Hl3 Hst3 Hht3.
  generalize (with_socket JupyterSockets.heartbeat (socket_on OnHeartbeat) s2).
  intros s3 Hk3 Hh3 Hl3 Hst3 Hht3.
  assert (listeners (socket_on OnHeartbeat (socket_send hello (socket_off InitialHeartbeat k)))
          = [OnHeartbeat]) as Hl3' by (simpl; by rewrite Hl).
  assert (∀ later, step (heartbeat_message later) s3 = onHeartbeat later s3) as Hlater
    by (intros later; by apply (regular_reply later s3 _ Hk3)).
  split; [by rewrite Hst3|].
  split; [unfold new_status_events; by rewrite Hl3, Hev2, drop_app_length|].
  split; [eexists; split; [exact Hk3|]; simpl; by rewrite Hl|].
  split; [by rewrite Hh3|]. split; [by rewrite Hht3|].
  split; [exact Hlater|].
  intros later. destruct (regular_replies later s3 _ Hk3 Hl3') as (H1 & H2 & H3).
  cbv zeta. split; [by rewrite H2, Hst3|].
  split; [unfold new_status_events; rewrite H3; apply drop_all|by rewrite H1, Hk3].
Qed.

Lemma first_heartbeat_sets_ready_witness :
  let s := run [terminal_opened example_terminal; sockets_connected 3] example_starting in
  let s1 := step (heartbeat_message "hello") s in
  _status (this s) = Starting
  ∧ _status (this s1) = Ready
  ∧ new_status_events s s1 = [Ready]
  ∧ timers (host s1) = [mkTimer 4 30000 run_heartbeat_timeout]
  ∧ (∀ later : list string,
       let s2 := run (heartbeat_message <$> later) s1 in
       _status (this s2) = Ready
       ∧ new_status_events s1 s2 = []
       ∧ _heartbeat (this s2) = _heartbeat (this s1)).
Proof.
  intros s.
  assert (_status (this s) = Starting) as Hst by (by vm_compute).
  assert (∃ k, _heartbeat (this s) = Some k ∧ listeners k = [InitialHeartbeat])
    as (k & Hk & Hl) by (vm_compute; eauto).
  assert (timers (host s) = []) as Ht by (by vm_compute).
  assert (fresh (host s) = 4) as Hf by (by vm_compute).
  assert (heartbeat_seconds s = 30%Z) as Hs by (by vm_compute).
  destruct (first_heartbeat_sets_ready "hello" s k Hk Hl) as (H1 & H2 & _ & H3 & _ & _ & H4).
  rewrite Ht, Hf, Hs in H3. by split_and!.
Defined.

(** ** The language server *)

Lemma deferred_callbacks_awaiting_port st ps s :
  awaiting_port (loop (foldl (λ s l, call_status_listener l st s) s (DeferredStart <$> ps)))
  = awaiting_port (loop s).
Proof.
  revert s. induction ps as [|p ps IH]; intros s; [done|].
  simpl. rewrite IH. unfold deferred_start_callback, settle, appendLine, setTimeout.
  destruct st; simpl; try done; by destruct (promises (loop s) !! p).
Qed.

(** X19: in a reachable state, the change to [Ready] starts one search for a
    port if the supervisor was given an LSP callback and a session is bound,
    and none otherwise.  When the port is found, [startLsp] is called with
    the address [127.0.0.1:port]: on a kernel with a shell socket one
    [comm_open] for the target [lsp] goes out, its comm id is remembered, and
    the LSP callback is called with the port; without a shell socket the
    comm id is set all the same, the callback is not called, and the
    exception is one nobody handles. *)
Theorem ready_starts_the_lsp lsp_port s :
  reachable s →
  awaiting_port (loop (setStatus Ready s))
  = (if _lsp (this s) && bool_decide (is_Some (_session (this s)))
     then S (awaiting_port (loop s)) else awaiting_port (loop s))
  ∧ (∀ n, awaiting_port (loop s) = S n →
       let s1 := step (port_found lsp_port) s in
       awaiting_port (loop s1) = n
       ∧ is_Some (_lspCommId (this s1))
       ∧ match _shell (this s) with
         | Some k =>
             ∃ id m signing_key,
               _lspCommId (this s1) = Some id
               ∧ sent_on JupyterSockets.shell s1
                 = sent k ++ [serializeJupyterMessage m signing_key]
               ∧ msg_type (header m) = "comm_open"
               ∧ content m
                 = comm_open "lsp" id (client_address ("127.0.0.1:" +:+ pretty lsp_port))
               ∧ lsp_calls (loop s1) = lsp_calls (loop s) ++ [lsp_port]
               ∧ unhandled (loop s1) = unhandled (loop s)
         | None =>
             lsp_calls (loop s1) = lsp_calls (loop s)
             ∧ ∃ e, unhandled (loop s1) = unhandled (loop s) ++ [e]
         end).
Proof.
  intros Hr. split.
  - destruct (reachable_listeners_wf s Hr) as [[ps Hps] _].
    unfold setStatus, emit_status. cbv zeta. simpl. rewrite Hps. simpl.
    rewrite deferred_callbacks_awaiting_port. by destruct (_ && _).
  - intros n Hn. cbv zeta. cbn [step]. rewrite Hn. unfold on_port_found. cbv zeta.
    destruct (_shell (this s)) as [k|] eqn:Hk.
    + destruct (reachable_connected s JupyterSockets.shell k Hr Hk) as [[ss Hs] _].
      erewrite startLsp_connected; [|exact Hk|exact Hs]. simpl.
      split; [done|]. split; [by eexists|].
      do 3 eexists. split; [reflexivity|]. unfold sent_on. simpl. by split_and!.
    + unfold startLsp, uuidv4, send. cbv zeta.
      edestruct sendToSocket_disconnected as [e ->]; [right; exact Hk|]. simpl.
      split; [done|]. split; [by eexists|]. split; [done|]. by eexists.
Qed.

Lemma ready_starts_the_lsp_witness :
  let s := run example_startup (new_JupyterKernel example_host example_spec "r-runtime" true) in
  let s1 := step (port_found 9000%N) s in
  awaiting_port (loop s) = 1
  ∧ awaiting_port (loop s1) = 0
  ∧ lsp_calls (loop s1) = [9000%N]
  ∧ is_Some (_lspCommId (this s1)).
Proof.
  intros s.
  assert (awaiting_port (loop s) = 1) as Hn by (by vm_compute).
  assert (is_Some (_shell (this s))) as [k Hk] by (vm_compute; eauto).
  assert (lsp_calls (loop s) = []) as Hc by (by vm_compute).
  destruct (ready_starts_the_lsp 9000%N s) as [_ H].
  { by exists example_host, example_spec, "r-runtime", true, example_startup. }
  destruct (H 0 Hn) as (H1 & H2 & H3). rewrite Hk in H3.
  destruct H3 as (id & m & key & _ & _ & _ & _ & H4 & _). rewrite Hc in H4.
  by split_and!.
Defined.
(** ** The start, from the session to the log *)

(** [start()] once the session exists. *)
Lemma start_with_session_spec p session s :
  let s' := start_with_session p session s in
  let args := resolve_arg (connectionFile (state session)) (logFile (state session))
                <$> argv (_spec (this s)) in
  _status (this s') = Starting
  ∧ status_events (loop s') = status_events (loop s) ++ [Starting]
  ∧ created_terminals (host s')
    = created_terminals (host s)
        ++ [mkTerminalOptions (display_name (_spec (this s))) (head args) (tail args)
              ("** " +:+ display_name (_spec (this s)) +:+ " **") false false]
  ∧ open_listeners (loop s') = open_listeners (loop s) ++ [mkOpenListener (fresh (host s)) p session]
  ∧ files (host s')
    = (if bool_decide ("{log_file}" ∈ argv (_spec (this s)))
       then <[logFile (state session) := text_file ""]> (files (host s))
       else files (host s))
  ∧ _logTail (this s') = _logTail (this s)
  ∧ _spec (this s') = _spec (this s)
  ∧ _runtimeId (this s') = _runtimeId (this s)
  ∧ terminals (host s') = terminals (host s)
  ∧ workspaceState (host s') = workspaceState (host s).
Proof.
  unfold start_with_session. cbv zeta.
  set (s0 := if bool_decide ("{log_file}" ∈ argv (_spec (this s))) then _ else s).
  assert (files (host s0)
          = (if bool_decide ("{log_file}" ∈ argv (_spec (this s)))
             then <[logFile (state session) := text_file ""]> (files (host s))
             else files (host s))
          ∧ this s0 = this s ∧ loop s0 = loop s
          ∧ terminals (host s0) = terminals (host s)
          ∧ workspaceState (host s0) = workspaceState (host s)
          ∧ created_terminals (host s0) = created_terminals (host s)
          ∧ fresh (host s0) = fresh (host s)) as (Hf & Hthis & Hloop & Ht & Hw & Hc & Hfr).
  { subst s0. by destruct (bool_decide _). }
  clearbody s0.
  pose proof (setStatus_quiet Starting s0 ltac:(done) ltac:(done)) as Hq.
  pose proof (setStatus_status Starting s0) as Hst.
  pose proof (setStatus_events Starting s0) as Hev.
  revert Hq Hst Hev. generalize (setStatus Starting s0). intros s1 Hq Hst Hev.
  unfold quiet_view in Hq.
  destruct (bool_decide (is_Some (env (_spec (this s))))); simpl;
    (split_and!; [done|by rewrite Hev, Hloop|..]);
    rewrite <-?Hf, <-?Ht, <-?Hw, <-?Hc, <-?Hfr, <-?Hloop, <-?Hthis;
    try congruence; try (f_equal; congruence).
Qed.

(** X20: when the session of a start exists, the status becomes [Starting]
    and one terminal is asked for, under the kernel's display name, whose
    shell path and arguments are [argv] with [{connection_file}] and
    [{log_file}] replaced by the two paths of the session.  If [argv] has the
    [{log_file}] placeholder, the log file is created empty and is streamed
    once the terminal has opened; if it has not, and there is no such file,
    nothing is streamed. *)
Theorem start_streams_the_log p session c t n s :
  p ∈ awaiting_session (loop s) →
  open_listeners (loop s) = [] →
  name t = display_name (_spec (this s)) →
  terminal_processId t = Some (Npos n) →
  let s1 := step (session_created p session c) s in
  let s2 := step (terminal_opened t) s1 in
  let args := resolve_arg (connectionFile (state session)) (logFile (state session))
                <$> argv (_spec (this s)) in
  _status (this s1) = Starting
  ∧ new_status_events s s1 = [Starting]
  ∧ created_terminals (host s1)
    = created_terminals (host s)
        ++ [mkTerminalOptions (display_name (_spec (this s))) (head args) (tail args)
              ("** " +:+ display_name (_spec (this s)) +:+ " **") false false]
  ∧ length args = length (argv (_spec (this s)))
  ∧ ("{log_file}" ∈ argv (_spec (this s)) →
     files (host s1) !! logFile (state session) = Some (text_file "")
     ∧ _logTail (this s2) = Some (mkTail (logFile (state session)) true))
  ∧ ("{log_file}" ∉ argv (_spec (this s)) →
     files (host s) !! logFile (state session) = None →
     connectionFile (state session) ≠ logFile (state session) →
     _logTail (this s2) = _logTail (this s))
  ∧ _status (this s2) = Starting.
Proof.
  intros Hp Hl Hname Hpid. cbv zeta.
  assert (step (session_created p session c) s
          = start_with_session p session
              (set_files (<[connectionFile (state session) := connection_json c]>
                            (files (host s)))
                 (set_awaiting_session (filter (λ x, x ≠ p) (awaiting_session (loop s))) s)))
    as ->.
  { cbn [step]. by rewrite bool_decide_eq_true_2. }
  match goal with |- context [start_with_session p session ?x] =>
    pose proof (start_with_session_spec p session x) as Hs;
    set (s1 := start_with_session p session x) in *
  end.
  cbv zeta in Hs. destruct Hs as (Hst & Hev & Hc & Hol & Hf & Hlt & Hspec & _).
  change (status_events (loop s1) = status_events (loop s) ++ [Starting]) in Hev.
  change (created_terminals (host s1)
          = created_terminals (host s)
              ++ [mkTerminalOptions (display_name (_spec (this s)))
                    (head (resolve_arg (connectionFile (state session))
                             (logFile (state session)) <$> argv (_spec (this s))))
                    (tail (resolve_arg (connectionFile (state session))
                             (logFile (state session)) <$> argv (_spec (this s))))
                    ("** " +:+ display_name (_spec (this s)) +:+ " **") false false]) in Hc.
  change (open_listeners (loop s1)
          = open_listeners (loop s) ++ [mkOpenListener (fresh (host s)) p session]) in Hol.
  change (files (host s1)
          = (if bool_decide ("{log_file}" ∈ argv (_spec (this s)))
             then <[logFile (state session) := text_file ""]>
                    (<[connectionFile (state session) := connection_json c]>
                       (files (host s)))
             else <[connectionFile (state session) := connection_json c]>
                    (files (host s)))) in Hf.
  change (_logTail (this s1) = _logTail (this s)) in Hlt.
  change (_spec (this s1) = _spec (this s)) in Hspec.
  clearbody s1. rewrite Hl in Hol. simpl in Hol.
  rewrite (terminal_opened_accepted t _ n s1 Hol) by (by rewrite ?Hspec).
  match goal with |- context [connectToTerminal ?a ?b ?c ?d] =>
    pose proof (connectToTerminal_spec a b c d) as Hcs
  end.
  cbv zeta in Hcs. destruct Hcs as (_ & _ & _ & _ & Htail & Hst2 & _).
  simpl in Htail, Hst2.
  split; [exact Hst|].
  split; [unfold new_status_events; by rewrite Hev, drop_app_length|].
  split; [exact Hc|]. split; [apply length_fmap|].
  split; [|split].
  - intros Hin. rewrite bool_decide_eq_true_2 in Hf by done.
    assert (files (host s1) !! logFile (state session) = Some (text_file "")) as Hlf
      by (rewrite Hf; apply lookup_insert_eq).
    split; [exact Hlf|]. etransitivity; [exact Htail|].
    rewrite Hlf. by rewrite bool_decide_eq_true_2.
  - intros Hnin Hnone Hne. rewrite bool_decide_eq_false_2 in Hf by done.
    etransitivity; [exact Htail|].
    rewrite Hf, lookup_insert_ne, Hnone by done.
    rewrite bool_decide_eq_false_2 by (by intros [? ?]). exact Hlt.
  - etransitivity; [exact Hst2|]. exact Hst.
Qed.

Lemma start_streams_the_log_witness :
  let s := step call_start example_new in
  let s1 := step (session_created 0 (mkSession example_state) example_ports) s in
  let s2 := step (terminal_opened example_terminal) s1 in
  _status (this s1) = Starting
  ∧ new_status_events s s1 = [Starting]
  ∧ created_terminals (host s1)
    = [mkTerminalOptions "R" (Some "/usr/bin/ark")
         ["--connection_file"; "/tmp/kernel.json"; "--log"; "/tmp/kernel.log"]
         "** R **" false false]
  ∧ _logTail (this s2) = Some (mkTail "/tmp/kernel.log" true).
Proof.
  intros s.
  assert (0 ∈ awaiting_session (loop s)) as Hp by (vm_compute; left).
  assert (open_listeners (loop s) = []) as Hl by (by vm_compute).
  assert (created_terminals (host s) = []) as Hc by (by vm_compute).
  assert (_spec (this s) = example_spec) as Hs by (by vm_compute).
  destruct (start_streams_the_log 0 (mkSession example_state) example_ports example_terminal
              4242%positive s Hp Hl) as (H1 & H2 & H3 & _ & H4 & _).
  { by rewrite Hs. }
  { reflexivity. }
  rewrite Hc, Hs in H3. rewrite Hs in H4. destruct H4 as [_ H4].
  { vm_compute. do 4 right. left. }
  by split_and!.
Defined.
(** ** Where [Ready] and [Offline] come from *)

#[global] Hint Extern 0 (Differs _ _) => (unfold Differs; discriminate) : typeclass_instances.

#[global] Instance setStatus_quiet_since st0 ev st `{!Differs st st0} :
  Keeps (quiet_since st0 ev) (setStatus st).
Proof.
  intros s (more & Hev & Hnot). exists (more ++ [st]). split.
  - by rewrite setStatus_events, Hev, app_assoc.
  - rewrite elem_of_app, list_elem_of_singleton. intros [H|H]; [done|].
    by destruct (differs (st:=st) (st0:=st0)).
Qed.

Lemma quiet_since_refl st0 s : quiet_since st0 (status_events (loop s)) s.
Proof. exists []. split; [by rewrite app_nil_r|apply not_elem_of_nil]. Qed.

Lemma quiet_since_new st0 s s' :
  quiet_since st0 (status_events (loop s)) s' → st0 ∉ new_status_events s s'.
Proof.
  intros (more & Hev & Hnot). unfold new_status_events. by rewrite Hev, drop_app_length.
Qed.

(** X21: in every reachable state, an event announces [Ready] only if it is
    a reply on the heartbeat socket that finds the one-shot listener for the
    first reply installed on that socket.  No call, no timer and no message
    on another socket announces [Ready], and neither does a heartbeat reply
    that finds the regular listener only. *)
Theorem ready_only_on_first_heartbeat e s :
  reachable s →
  Ready ∈ new_status_events s (step e s) →
  ∃ msg k, e = heartbeat_message msg
           ∧ _heartbeat (this s) = Some k
           ∧ InitialHeartbeat ∈ listeners k.
Proof.
  intros Hr Hin.
  pose proof (quiet_since_refl Ready s) as H.
  assert (∀ socket k msg decoded,
            get_socket socket (this s) = Some k →
            (InitialHeartbeat ∉ listeners k) →
            quiet_since Ready (status_events (loop s)) (deliver socket msg decoded s))
    as Hdeliver.
  { intros socket k msg decoded Hk Hnot. unfold deliver. rewrite Hk.
    apply (keeps_foldl_Forall (quiet_since Ready (status_events (loop s)))
             (λ l, l ≠ InitialHeartbeat)); [| |exact H].
    - intros l s' Hl H'. destruct l; [done|..]; cbv beta iota delta [call_socket_listener];
        walk (quiet_since Ready (status_events (loop s))).
    - apply Forall_forall. intros l Hl ->. by apply Hnot. }
  assert ((∃ msg, e = heartbeat_message msg) ∨ ¬ (∃ msg, e = heartbeat_message msg))
    as [[msg ->]|Hne] by (destruct e; eauto; right; by intros [? ?]).
  - destruct (_heartbeat (this s)) as [k|] eqn:Hk.
    + destruct (decide (InitialHeartbeat ∈ listeners k)) as [Hl|Hl]; [by eauto|].
      exfalso. apply (quiet_since_new Ready s (step (heartbeat_message msg) s)); [|done].
      by apply (Hdeliver JupyterSockets.heartbeat k).
    + exfalso. apply (quiet_since_new Ready s (step (heartbeat_message msg) s)); [|done].
      cbn [step]. unfold deliver. simpl. rewrite Hk. exact H.
  - exfalso. apply (quiet_since_new Ready s (step e s)); [|done].
    destruct e; try (by destruct Hne; eauto);
      lazymatch goal with
      | |- _ (step (socket_message ?sk _) _) =>
          cbn [step]; case_bool_decide as Hs; [exact H|];
          destruct (get_socket sk (this s)) as [k|] eqn:Hk;
          [ apply (Hdeliver sk k); [done|];
            destruct (reachable_emitted_wf s Hr) as [Hl _]; specialize (Hl _ _ Hk);
            intros Hinit; eapply Forall_forall in Hl; [|exact Hinit]; by destruct sk
          | unfold deliver; rewrite Hk; exact H ]
      | |- _ => cbv beta iota delta [step]; walk (quiet_since Ready (status_events (loop s)))
      end.
Qed.

Lemma ready_only_on_first_heartbeat_witness :
  let s := run [terminal_opened example_terminal; sockets_connected 3] example_starting in
  Ready ∈ new_status_events s (step (heartbeat_message "hello") s)
  ∧ ∃ k, _heartbeat (this s) = Some k ∧ InitialHeartbeat ∈ listeners k.
Proof.
  intros s.
  assert (reachable s) as Hr.
  { exists example_host, example_spec, "r-runtime", false, (take 4 example_startup).
    vm_compute. reflexivity. }
  assert (new_status_events s (step (heartbeat_message "hello") s) = [Ready]) as Hn
    by (by vm_compute).
  assert (Ready ∈ new_status_events s (step (heartbeat_message "hello") s)) as Hin
    by (rewrite Hn; apply list_elem_of_here).
  split; [exact Hin|].
  destruct (ready_only_on_first_heartbeat _ s Hr Hin) as (msg & k & _ & Hk & Hl).
  exists k. split; assumption.
Defined.

(** X22: the status [Offline] is announced by one event only: the firing of
    a pending timer whose callback is the heartbeat time-out.  No call, no
    message and no other timer announces [Offline]. *)
Theorem offline_only_on_heartbeat_timeout e s :
  Offline ∈ new_status_events s (step e s) →
  ∃ id t rest, e = timer_fired id
               ∧ filter (λ t, timer_id t = id) (timers (host s)) = t :: rest
               ∧ action t = run_heartbeat_timeout.
Proof.
  intros Hin.
  pose proof (quiet_since_refl Offline s) as H.
  assert ((∃ id, e = timer_fired id) ∨ ¬ (∃ id, e = timer_fired id))
    as [[id ->]|Hne] by (destruct e; eauto; right; by intros [? ?]).
  - destruct (filter (λ t, timer_id t = id) (timers (host s))) as [|t rest] eqn:Hf.
    + exfalso. apply (quiet_since_new Offline s (step (timer_fired id) s)); [|done].
      cbn [step]. by rewrite Hf.
    + destruct (action t) eqn:Ha;
        try (by exists id, t, rest);
        exfalso;
        (apply (quiet_since_new Offline s (step (timer_fired id) s)); [|done]);
        cbn [step]; rewrite Hf, Ha; cbv beta iota delta [run_timer];
        walk (quiet_since Offline (status_events (loop s))).
  - exfalso. apply (quiet_since_new Offline s (step e s)); [|done].
    destruct e; try (by destruct Hne; eauto);
      cbv beta iota delta [step]; walk (quiet_since Offline (status_events (loop s))).
Qed.

Lemma offline_only_on_heartbeat_timeout_witness :
  let s := run (take 7 (example_missed_heartbeat 1700000000250)) example_new in
  Offline ∈ new_status_events s (step (timer_fired 4) s)
  ∧ ∃ id t rest, timer_fired 4 = timer_fired id
                 ∧ filter (λ t, timer_id t = id) (timers (host s)) = t :: rest
                 ∧ action t = run_heartbeat_timeout.
Proof.
  intros s.
  assert (new_status_events s (step (timer_fired 4) s) = [Offline]) as Hn by (by vm_compute).
  assert (Offline ∈ new_status_events s (step (timer_fired 4) s)) as Hin
    by (rewrite Hn; apply list_elem_of_here).
  split; [exact Hin|].
  exact (offline_only_on_heartbeat_timeout _ s Hin).
Defined.

(** ** Close events the listener ignores *)

Lemma close_listeners_ignore i (ls : list CloseListener) s :
  (name <$> terminals (host s) !! i ≠ Some (display_name (_spec (this s)))
   ∨ ∀ l, l ∈ ls → exitStatus_code (terminals (host s) !! close_terminal l) = None) →
  foldl (λ s l, on_close_terminal l i s) s ls = s.
Proof.
  intros H. induction ls as [|l ls IH]; [done|]. simpl.
  assert (on_close_terminal l i s = s) as ->.
  { unfold on_close_terminal. case_bool_decide as Hn; [done|].
    destruct H as [H|H]; [done|]. rewrite (H l); [done|apply list_elem_of_here]. }
  apply IH. destruct H as [H|H]; [by left|right].
  intros l' Hl'. apply H. by apply list_elem_of_further.
Qed.

(** X23: the closing of a terminal is ignored by the kernel (nothing but
    the record of the closed terminal changes: no status change, no log
    line, and the listeners stay installed) when the closed terminal does not
    bear the kernel's display name, or when no terminal a close listener was
    installed for has an exit code after the event. *)
Theorem ignored_terminal_close i exit s :
  (name <$> terminals (host s) !! i ≠ Some (display_name (_spec (this s)))
   ∨ ∀ l, l ∈ close_listeners (loop s) →
        exitStatus_code (alter (terminal_close exit) i (terminals (host s)) !! close_terminal l)
        = None) →
  step (terminal_closed i exit) s
  = set_terminals (alter (terminal_close exit) i (terminals (host s))) s.
Proof.
  intros H. cbn [step]. cbv zeta.
  apply (close_listeners_ignore i (close_listeners (loop s))
           (set_terminals (alter (terminal_close exit) i (terminals (host s))) s)).
  destruct H as [H|H]; [left|by right].
  simpl. rewrite list_lookup_alter.
  destruct (decide (i = i)) as [_|]; [|done].
  intros Hx. apply H. rewrite <-Hx. by destruct (terminals (host s) !! i).
Qed.

Lemma ignored_terminal_close_witness :
  (∀ l, l ∈ close_listeners (loop example_ready) →
     exitStatus_code (alter (terminal_close None) 0 (terminals (host example_ready))
                        !! close_terminal l) = None)
  ∧ close_listeners (loop example_ready) ≠ []
  ∧ step (terminal_closed 0 None) example_ready
    = set_terminals (alter (terminal_close None) 0 (terminals (host example_ready)))
        example_ready.
Proof.
  assert (∀ l, l ∈ close_listeners (loop example_ready) →
            exitStatus_code (alter (terminal_close None) 0 (terminals (host example_ready))
                               !! close_terminal l) = None) as H.
  { apply Forall_forall. by vm_compute; repeat constructor. }
  split; [exact H|]. split; [by vm_compute|].
  apply (ignored_terminal_close 0 None example_ready). by right.
Defined.
